(** * Docker-ML: the adaptive forecasting pipeline

    A shallow embedding of
      - [app/services/custom_data_service.py]  (upload facade),
      - [app/models/arima_model.py]            (bundled model),
      - [app/services/forecast_service.py]     (bundled-model facade),
      - the handlers of [app/main.py],
    followed by the properties of the pipeline.

    How the Python is read:
      - a computation that may raise is a [result]; an exception is a
        value [exn] (an instance of a subclass of [Exception]), and
        every [try]/[except] is a match on the result;
      - a method takes the object and gives back its answer and the
        object after the call;
      - a result dictionary is a record of optional fields;
      - pandas, statsmodels, matplotlib and pickle are an interface,
        [Libraries], whose calls are functions of their arguments; what
        pandas does with calendars ([date_range], [asfreq],
        [DateOffset]) is modelled concretely, with timestamps at day
        resolution; the calendars of days, weeks, month starts and year
        starts are written out, the calendar of any other alias is part
        of the interface. *)

From Stdlib Require Import String Ascii DecimalString.
From Stdlib Require Import ZArith List Bool Lia Permutation.
Import ListNotations.
Open Scope string_scope.
Open Scope Z_scope.

(* ================================================================== *)
(** ** Python exceptions and fallible computations *)

Inductive exn_kind : Type :=
  | FileNotFoundError
  | ValueError
  | IndexError
  | KeyError
  | TypeError
  | AttributeError
  | OtherError.

(** An instance of a subclass of [Exception]; [exn_msg] is [str(e)]. *)
Record exn : Type := mkExn { exn_class : exn_kind; exn_msg : string }.

Inductive result (A : Type) : Type :=
  | Ok (a : A)
  | Raise (e : exn).
Arguments Ok {A} a.
Arguments Raise {A} e.

Definition bind {A B : Type} (r : result A) (k : A -> result B) : result B :=
  match r with
  | Ok a => k a
  | Raise e => Raise e
  end.

Declare Scope py_scope.
Delimit Scope py_scope with py.
Notation "x <- c ;; k" := (bind c (fun x => k))
  (at level 100, c at next level, right associativity) : py_scope.
Notation "' p <- c ;; k" := (bind c (fun p => k))
  (at level 100, p pattern, c at next level, right associativity) : py_scope.
Open Scope py_scope.

Definition is_ok {A : Type} (r : result A) : bool :=
  match r with Ok _ => true | Raise _ => false end.

(** [l[0]], [l[1]], ... on a Python sequence. *)
Definition py_index {A : Type} (l : list A) (i : nat) : result A :=
  match nth_error l i with
  | Some a => Ok a
  | None => Raise (mkExn IndexError "index out of bounds")
  end.

(** [l[-1]]. *)
Definition py_last {A : Type} (l : list A) : result A :=
  match rev l with
  | a :: _ => Ok a
  | [] => Raise (mkExn IndexError "index -1 is out of bounds for axis 0 with size 0")
  end.

(* ================================================================== *)
(** ** Strings: [str.lower], [in], decimal formatting *)

Definition lower_ascii (c : ascii) : ascii :=
  let n := nat_of_ascii c in
  if (andb (Nat.leb 65 n) (Nat.leb n 90)) then ascii_of_nat (n + 32)%nat else c.

(** [s.lower()], on the ASCII letters (the five keywords below are
    ASCII, and no other character lower-cases to one of their
    letters). *)
Fixpoint lower (s : string) : string :=
  match s with
  | EmptyString => EmptyString
  | String c rest => String (lower_ascii c) (lower rest)
  end.

(** [k in s] for strings. *)
Fixpoint contains (k s : string) : bool :=
  if prefix k s then true
  else match s with
       | EmptyString => false
       | String _ rest => contains k rest
       end.

(** [s.endswith(suffix)]. *)
Fixpoint endswith (s suffix : string) : bool :=
  if (s =? suffix)%string then true
  else match s with
       | EmptyString => false
       | String _ rest => endswith rest suffix
       end.

Definition str_of_nat (n : nat) : string :=
  NilZero.string_of_uint (Nat.to_uint n).

Definition str_of_Z (z : Z) : string :=
  if z <? 0 then "-" ++ NilZero.string_of_uint (N.to_uint (Z.to_N (- z)))
  else NilZero.string_of_uint (N.to_uint (Z.to_N z)).

(** Zero-padded to two and to four digits, as [%m], [%d] and [%Y]. *)
Definition pad2 (z : Z) : string :=
  if z <? 10 then "0" ++ str_of_Z z else str_of_Z z.

Definition pad4 (z : Z) : string :=
  if z <? 10 then "000" ++ str_of_Z z
  else if z <? 100 then "00" ++ str_of_Z z
  else if z <? 1000 then "0" ++ str_of_Z z
  else str_of_Z z.

(* ================================================================== *)
(** ** The calendar

    A [Timestamp] is a number of days since 1970-01-01 in the proleptic
    Gregorian calendar.  [Z.div] rounds down, so the conversions below
    are the usual era-based ones on all of [Z]. *)

Definition Timestamp : Type := Z.

Definition days_from_civil (y m d : Z) : Timestamp :=
  let y' := if m <=? 2 then y - 1 else y in
  let era := y' / 400 in
  let yoe := y' - era * 400 in
  let mp := if 2 <? m then m - 3 else m + 9 in
  let doy := (153 * mp + 2) / 5 + d - 1 in
  let doe := yoe * 365 + yoe / 4 - yoe / 100 + doy in
  era * 146097 + doe - 719468.

Definition civil_from_days (t : Timestamp) : Z * Z * Z :=
  let z := t + 719468 in
  let era := z / 146097 in
  let doe := z - era * 146097 in
  let yoe := (doe - doe / 1460 + doe / 36524 - doe / 146096) / 365 in
  let doy := doe - (365 * yoe + yoe / 4 - yoe / 100) in
  let mp := (5 * doy + 2) / 153 in
  let d := doy - (153 * mp + 2) / 5 + 1 in
  let m := if mp <? 10 then mp + 3 else mp - 9 in
  let y := yoe + era * 400 in
  ((if m <=? 2 then y + 1 else y), m, d).

Definition year_of (t : Timestamp) : Z := fst (fst (civil_from_days t)).
Definition month_of (t : Timestamp) : Z := snd (fst (civil_from_days t)).
Definition day_of (t : Timestamp) : Z := snd (civil_from_days t).

(** [Timestamp.weekday()]: Monday is 0, Sunday is 6. *)
Definition weekday (t : Timestamp) : Z := (t + 3) mod 7.

Definition is_leap (y : Z) : bool :=
  ((y mod 4 =? 0) && negb (y mod 100 =? 0)) || (y mod 400 =? 0).

Definition days_in_month (y m : Z) : Z :=
  if m =? 2 then (if is_leap y then 29 else 28)
  else if (m =? 4) || (m =? 6) || (m =? 9) || (m =? 11) then 30
  else 31.

(** [t + pd.DateOffset(months=n)]: the same day of the month [n] months
    later, clipped to the length of that month. *)
Definition add_months (t : Timestamp) (n : Z) : Timestamp :=
  let '(y, m, d) := civil_from_days t in
  let k := y * 12 + (m - 1) + n in
  let y' := k / 12 in
  let m' := k mod 12 + 1 in
  days_from_civil y' m' (Z.min d (days_in_month y' m')).

(** [t + pd.DateOffset(years=n)]. *)
Definition add_years (t : Timestamp) (n : Z) : Timestamp := add_months t (12 * n).

(** [t.strftime('%Y-%m-%d')] and [t.strftime('%Y-%m')]. *)
Definition strftime_ymd (t : Timestamp) : string :=
  let '(y, m, d) := civil_from_days t in
  pad4 y ++ "-" ++ pad2 m ++ "-" ++ pad2 d.

Definition strftime_ym (t : Timestamp) : string :=
  let '(y, m, _) := civil_from_days t in
  pad4 y ++ "-" ++ pad2 m.

(* ================================================================== *)
(** ** pandas frequencies

    The calendars of four families of aliases are written out: days,
    weeks by their anchor, month starts and year starts.  ["W"] is
    pandas' weekly frequency anchored on Sunday; [pd.infer_freq] names
    weekly data by its anchor (["W-SUN"], ["W-MON"], ...) and yearly
    data ["YS-JAN"] (["AS-JAN"] before pandas 2.2).  The calendar of
    any other alias (multiples, month ends, quarters, business days)
    is the library's to give: [Other] holds it. *)

(** A calendar of pandas, by what it does to a timestamp: whether the
    timestamp is on it, the calendar date that a timestamp off the
    calendar is rolled forward to, and the date one step of the offset
    later. *)
Record Calendar : Type := mkCalendar {
  cal_on : Timestamp -> bool;
  cal_roll : Timestamp -> Timestamp;
  cal_next : Timestamp -> Timestamp
}.

(** A calendar that steps forward, onto itself. *)
Definition regular (c : Calendar) : Prop :=
  forall t : Timestamp,
    (cal_on c t = false -> cal_on c (cal_roll c t) = true /\ t < cal_roll c t)
    /\ cal_on c (cal_next c t) = true
    /\ t < cal_next c t.

Inductive Offset : Type :=
  | Day
  | Week (anchor : Z)
  | MonthBegin
  | YearBegin
  | Other (calendar : Calendar).

Definition week_anchors : list (string * Z) :=
  [("W", 6); ("W-MON", 0); ("W-TUE", 1); ("W-WED", 2); ("W-THU", 3);
   ("W-FRI", 4); ("W-SAT", 5); ("W-SUN", 6)].

Fixpoint assoc {A : Type} (k : string) (l : list (string * A)) : option A :=
  match l with
  | [] => None
  | (k', a) :: rest => if (k =? k')%string then Some a else assoc k rest
  end.

(** The aliases whose calendars are written out. *)
Definition known_offset (freq : string) : option Offset :=
  if (freq =? "D")%string then Some Day
  else if (freq =? "MS")%string then Some MonthBegin
  else if existsb (String.eqb freq) ["YS"; "YS-JAN"; "AS"; "AS-JAN"]
  then Some YearBegin
  else option_map Week (assoc freq week_anchors).

(** Is [t] a date of the calendar of [o]? *)
Definition on_offset (o : Offset) (t : Timestamp) : bool :=
  match o with
  | Day => true
  | Week wd => weekday t =? wd
  | MonthBegin => day_of t =? 1
  | YearBegin => (day_of t =? 1) && (month_of t =? 1)
  | Other c => cal_on c t
  end.

(** [t + offset]: for the four calendars written out, the first date
    of the calendar strictly after [t]. *)
Definition next_on (o : Offset) (t : Timestamp) : Timestamp :=
  match o with
  | Day => t + 1
  | Week wd => t + 1 + (wd - weekday (t + 1)) mod 7
  | MonthBegin =>
      let '(y, m, _) := civil_from_days t in
      if m =? 12 then days_from_civil (y + 1) 1 1 else days_from_civil y (m + 1) 1
  | YearBegin => days_from_civil (year_of t + 1) 1 1
  | Other c => cal_next c t
  end.

(** [offset.rollforward(t)]: [t] itself when it is on the calendar. *)
Definition rollforward (o : Offset) (t : Timestamp) : Timestamp :=
  if on_offset o t then t
  else match o with
       | Other c => cal_roll c t
       | _ => next_on o t
       end.

Section Stepping.
Variable step : Timestamp -> Timestamp.

(** [n] dates from [cur] on, each the step of the one before. *)
Fixpoint step_from (cur : Timestamp) (n : nat) : list Timestamp :=
  match n with
  | O => []
  | S k => cur :: step_from (step cur) k
  end.

(** The dates from [cur] on, as long as [stop] is not passed. *)
Fixpoint step_until (cur stop : Timestamp) (fuel : nat) : list Timestamp :=
  match fuel with
  | O => []
  | S k => if cur <=? stop then cur :: step_until (step cur) stop k else []
  end.
End Stepping.

Definition generate (o : Offset) : Timestamp -> nat -> list Timestamp :=
  step_from (next_on o).

Definition generate_until (o : Offset)
  : Timestamp -> Timestamp -> nat -> list Timestamp :=
  step_until (next_on o).

(* ================================================================== *)
(** ** Gaps between timestamps and their median *)

(** [index.to_series().diff().dropna()], in days. *)
Fixpoint diffs (l : list Timestamp) : list Z :=
  match l with
  | a :: (b :: _) as rest => (b - a) :: diffs rest
  | _ => []
  end.

Section Sorting.
Context {A : Type} (key : A -> Z).

Fixpoint insert_by (x : A) (l : list A) : list A :=
  match l with
  | [] => [x]
  | y :: rest => if key x <=? key y then x :: l else y :: insert_by x rest
  end.

(** A stable sort by increasing key. *)
Definition sort_by (l : list A) : list A := fold_right insert_by [] l.
End Sorting.

Definition sort_Z : list Z -> list Z := sort_by (fun z => z).

(** [time_diffs.median().days]: the whole days of the median gap (the
    mean of the two middle gaps when their number is even, rounded
    down).  [None] is [NaT], the median of no gap at all. *)
Definition median_days (gaps : list Z) : option Z :=
  let s := sort_Z gaps in
  let n := List.length s in
  match n with
  | O => None
  | _ => if Nat.odd n then Some (nth (n / 2)%nat s 0)
         else Some ((nth (n / 2 - 1)%nat s 0 + nth (n / 2)%nat s 0) / 2)
  end.

(** Lines 144-151 of custom_data_service.py.  [NaT.days] is [nan], and
    every comparison with [nan] is false. *)
Definition classify_gap (median : option Z) : string :=
  match median with
  | Some days =>
      if days <=? 1 then "D"
      else if days <=? 7 then "W"
      else if days <=? 31 then "MS"
      else "YS"
  | None => "YS"
  end.

Fixpoint has_adjacent_dup (l : list Timestamp) : bool :=
  match l with
  | a :: (b :: _) as rest => (a =? b) || has_adjacent_dup rest
  | _ => false
  end.

(* ================================================================== *)
(** ** The data model *)

(** A column of a pandas frame, by dtype: numeric (int64, float64,
    bool), object (strings) or datetime64.  [None] is a missing cell
    ([NaN], [NaT]). *)
Inductive Column (float : Type) : Type :=
  | NumCol (cells : list (option float))
  | ObjCol (cells : list (option string))
  | DateCol (cells : list (option Timestamp)).
Arguments NumCol {float} cells.
Arguments ObjCol {float} cells.
Arguments DateCol {float} cells.

(** A frame: its columns in order, by name. *)
Definition DataFrame (float : Type) : Type := list (string * Column float).

(** A frame indexed by timestamp with one column of values: what the
    two services keep in [self.data]. *)
Definition Series (float : Type) : Type := list (Timestamp * float).

Record ModelSpec : Type := mkSpec {
  order : Z * Z * Z;
  seasonal_order : option (Z * Z * Z * Z)
}.

Record Predictions (float : Type) : Type := mkPredictions {
  dates : list string;
  values : list float;
  lower_ci : list float;
  upper_ci : list float
}.
Arguments mkPredictions {float}.
Arguments dates {float}.
Arguments values {float}.
Arguments lower_ci {float}.
Arguments upper_ci {float}.

Record Historical (float : Type) : Type := mkHistorical {
  hist_dates : list string;
  hist_values : list float
}.
Arguments mkHistorical {float}.
Arguments hist_dates {float}.
Arguments hist_values {float}.

(** What [generate_plot] hands to matplotlib. *)
Record Chart (float : Type) : Type := mkChart {
  chart_title : string;
  chart_ylabel : string;
  chart_history : list (Timestamp * float);
  chart_future : list Timestamp;
  chart_forecast : Predictions float
}.
Arguments mkChart {float}.

(** The ["plot"] entry of a result dictionary. *)
Inductive PlotField : Type :=
  | NoPlotKey
  | PlotNone
  | PlotImage (base64 : string).

(** The result dictionaries of the forecast calls; [None] is a key
    that is absent or holds Python's [None]. *)
Record ForecastResponse (float Info : Type) : Type := mkResponse {
  success : bool;
  error : option string;
  predictions : option (Predictions float);
  historical_data : option (Historical float);
  model_info : option Info;
  steps : option Z;
  plot : PlotField
}.
Arguments mkResponse {float Info}.
Arguments success {float Info}.
Arguments error {float Info}.
Arguments predictions {float Info}.
Arguments historical_data {float Info}.
Arguments model_info {float Info}.
Arguments steps {float Info}.
Arguments plot {float Info}.

Definition set_plot {float Info : Type} (r : ForecastResponse float Info)
  (p : PlotField) : ForecastResponse float Info :=
  mkResponse (success r) (error r) (predictions r) (historical_data r)
             (model_info r) (steps r) p.

(** What a handler of main.py answers. *)
Inductive HttpResponse (A : Type) : Type :=
  | Rendered (template : string) (context : A)
  | Json (body : A)
  | HTTPException (status_code : Z) (detail : string).
Arguments Rendered {A}.
Arguments Json {A}.
Arguments HTTPException {A}.

(* ================================================================== *)
(** ** The libraries the pipeline calls *)

Class Libraries : Type := {
  float : Type;
  nan : float;
  (** a fitted statsmodels results object *)
  FittedModel : Type;

  (** [pd.read_csv(io.StringIO(content.decode('utf-8')))] *)
  read_csv : string -> result (DataFrame float);
  (** [pd.to_datetime] on a column and on a list of formatted dates *)
  to_datetime : Column float -> result (list (option Timestamp));
  parse_dates : list string -> result (list Timestamp);
  (** [pd.to_numeric] on a column *)
  to_numeric : Column float -> result (list (option float));
  series_mean : list float -> float;
  series_std : list float -> float;
  (** [pd.infer_freq] on an index of three timestamps or more *)
  infer_freq : list Timestamp -> option string;
  (** the calendar pandas gives an alias outside [known_offset]
      (business days, month ends, quarters, multiples, ...); [None] for
      a string that names no frequency stepping forward by whole
      days *)
  other_offset : string -> option Calendar;
  other_offset_regular :
    forall (freq : string) (c : Calendar),
      other_offset freq = Some c -> regular c;

  (** [SARIMAX(endog, order=..., seasonal_order=...).fit(disp=False)] *)
  SARIMAX_fit : ModelSpec -> Series float -> result FittedModel;
  (** [results.forecast(steps=n).tolist()] *)
  forecast : FittedModel -> Z -> result (list float);
  (** the rows of [results.get_forecast(steps=n).conf_int()] *)
  conf_int : FittedModel -> Z -> result (list (float * float));

  (** the matplotlib calls of [generate_plot], up to the base64 text *)
  render_png : Chart float -> result string
}.

(** [pd.infer_freq(index)]: pandas refuses fewer than three dates. *)
Definition pd_infer_freq `{Libraries} (index : list Timestamp)
  : result (option string) :=
  if (List.length index <? 3)%nat
  then Raise (mkExn ValueError "Need at least 3 dates to infer frequency")
  else Ok (infer_freq index).

Section Frames.
Context `{Libraries}.

(** [pd.tseries.frequencies.to_offset(freq)]. *)
Definition to_offset (freq : string) : result Offset :=
  match known_offset freq with
  | Some o => Ok o
  | None =>
      match other_offset freq with
      | Some c => Ok (Other c)
      | None => Raise (mkExn ValueError ("Invalid frequency: " ++ freq))
      end
  end.

(** [pd.date_range(start=start, periods=periods, freq=freq)]. *)
Definition date_range_periods (start : Timestamp) (periods : Z) (freq : string)
  : result (list Timestamp) :=
  o <- to_offset freq ;;
  if periods <? 0
  then Raise (mkExn ValueError "Number of periods must be non-negative")
  else Ok (generate o (rollforward o start) (Z.to_nat periods)).

(** [pd.date_range(start, stop, freq=freq)]; every step advances by a
    day at least, so the days between the two ends bound the loop. *)
Definition date_range_between (start stop : Timestamp) (freq : string)
  : result (list Timestamp) :=
  o <- to_offset freq ;;
  Ok (generate_until o (rollforward o start) stop (Z.to_nat (stop - start + 1))).

Definition col_len (c : Column float) : nat :=
  match c with
  | NumCol l => List.length l
  | ObjCol l => List.length l
  | DateCol l => List.length l
  end.

(** [data.shape[1]] and [data.shape[0]]. *)
Definition shape1 (df : DataFrame float) : nat := List.length df.
Definition shape0 (df : DataFrame float) : nat :=
  match df with
  | [] => O
  | (_, c) :: _ => col_len c
  end.

(** [data.columns]. *)
Definition columns (df : DataFrame float) : list string := map fst df.

(** [pd.api.types.is_numeric_dtype(data[col])]. *)
Definition is_numeric_dtype (c : Column float) : bool :=
  match c with
  | NumCol _ => true
  | _ => false
  end.

(** [data[col]]. *)
Definition get_col (df : DataFrame float) (col : string) : result (Column float) :=
  match assoc col df with
  | Some c => Ok c
  | None => Raise (mkExn KeyError col)
  end.

(** [data[col] = c]: in place when the column exists, appended
    otherwise. *)
Fixpoint set_col (col : string) (c : Column float) (df : DataFrame float)
  : DataFrame float :=
  match df with
  | [] => [(col, c)]
  | (k, c') :: rest =>
      if (col =? k)%string then (col, c) :: rest
      else (k, c') :: set_col col c rest
  end.

(** [data[['Date', 'Value']]], row by row. *)
Definition select_date_value (df : DataFrame float)
  : result (list (option Timestamp * option float)) :=
  d <- get_col df "Date" ;;
  v <- get_col df "Value" ;;
  match d, v with
  | DateCol ds, NumCol vs => Ok (combine ds vs)
  | _, _ => Raise (mkExn TypeError "unexpected dtype")
  end.

Fixpoint dropna (rows : list (option Timestamp * option float)) : Series float :=
  match rows with
  | [] => []
  | (Some t, Some v) :: rest => (t, v) :: dropna rest
  | _ :: rest => dropna rest
  end.

(** [.set_index('Date').sort_index()]. *)
Definition sort_index (s : Series float) : Series float := sort_by fst s.

Definition index (s : Series float) : list Timestamp := map fst s.
Definition column_values (s : Series float) : list float := map snd s.

(** The value a forward fill gives at [t]: that of the last row at or
    before [t] (the rows are in time order). *)
Definition pad (s : Series float) (t : Timestamp) : float :=
  fold_left (fun acc row => if fst row <=? t then snd row else acc) s nan.

(** [data.asfreq(freq, method='ffill')]: an empty frame is returned as
    it is; otherwise the frame is re-indexed on the calendar of [freq]
    between its first and last timestamps, which pandas refuses for an
    index with duplicates. *)
Definition asfreq (s : Series float) (freq : string) : result (Series float) :=
  match index s with
  | [] => Ok s
  | first :: _ =>
      new_index <- date_range_between first (last (index s) first) freq ;;
      if has_adjacent_dup (index s)
      then Raise (mkExn ValueError
                    "cannot reindex a non-unique index with a method or limit")
      else Ok (map (fun t => (t, pad s t)) new_index)
  end.
End Frames.

(* ================================================================== *)
(** ** app/services/custom_data_service.py *)

Module CustomDataForecastService.
Section WithLibraries.
Context `{Libraries}.

(** [self.model_info] after a successful upload. *)
Record DataInfo : Type := mkDataInfo {
  data_points : nat;
  date_range : string;
  date_column : string;
  value_column : string;
  mean_value : float;
  std_value : float
}.

(** [model_info] of a forecast result. *)
Record TrainInfo : Type := mkTrainInfo {
  model_type : string;
  train_data_points : nat;
  frequency : string;
  last_date : string;
  train_value_column : string
}.

Record t : Type := mk {
  data : option (Series float);
  model : option FittedModel;
  info : option DataInfo
}.

(** [__init__]. *)
Definition init : t := mk None None None.

Record ValidateResponse : Type := mkValidate {
  v_success : bool;
  v_error : option string;
  v_data_info : option DataInfo;
  v_message : option string
}.

Definition rejected (msg : string) : ValidateResponse :=
  mkValidate false (Some msg) None None.

Definition Response : Type := ForecastResponse float TrainInfo.

Definition failed (msg : string) : Response :=
  mkResponse false (Some msg) None None None None NoPlotKey.

(** *** Schema inference (lines 51-68) *)

Definition keywords : list string := ["date"; "time"; "month"; "year"; "day"].

(** [any(keyword in col.lower() for keyword in [...])]. *)
Definition has_keyword (col : string) : bool :=
  existsb (fun keyword => contains keyword (lower col)) keywords.

(** The [for col in data.columns] loop, on the pair
    [(date_col, value_col)]. *)
Fixpoint scan_columns (cols : DataFrame float)
  (date_col value_col : option string) : option string * option string :=
  match cols with
  | [] => (date_col, value_col)
  | (col, cells) :: rest =>
      if has_keyword col then scan_columns rest (Some col) value_col
      else if is_numeric_dtype cells then
        match value_col with
        | None => scan_columns rest date_col (Some col)
        | Some _ => scan_columns rest date_col value_col
        end
      else scan_columns rest date_col value_col
  end.

Definition infer_columns (df : DataFrame float) : result (string * string) :=
  let '(date_col, value_col) := scan_columns df None None in
  date_col <- match date_col with
              | Some c => Ok c
              | None => py_index (columns df) 0
              end ;;
  value_col <- match value_col with
               | Some c => Ok c
               | None => py_index (columns df) 1
               end ;;
  Ok (date_col, value_col).

(** *** Conversion and cleaning (lines 70-89) *)

Inductive Cleaned : Type :=
  | BadDate
  | BadValue
  | Rows (rows : Series float).

Definition clean (df : DataFrame float) (date_col value_col : string)
  : result Cleaned :=
  match (c <- get_col df date_col ;; to_datetime c) with
  | Raise _ => Ok BadDate
  | Ok ds =>
      let df1 := set_col "Date" (DateCol ds) df in
      match (c <- get_col df1 value_col ;; to_numeric c) with
      | Raise _ => Ok BadValue
      | Ok vs =>
          let df2 := set_col "Value" (NumCol vs) df1 in
          rows <- select_date_value df2 ;;
          Ok (Rows (sort_index (dropna rows)))
      end
  end.

Definition build_info (d : Series float) (date_col value_col : string)
  : result DataInfo :=
  first <- py_index (index d) 0 ;;
  final <- py_last (index d) ;;
  Ok (mkDataInfo (List.length d)
        (strftime_ymd first ++ " à " ++ strftime_ymd final)
        date_col value_col
        (series_mean (column_values d)) (series_std (column_values d))).

Definition processing_error (e : exn) : ValidateResponse :=
  rejected ("Erreur lors du traitement du fichier: " ++ exn_msg e).

(** *** [validate_and_process_csv] *)
Definition validate_and_process_csv (csv_content : string) (self : t)
  : ValidateResponse * t :=
  match read_csv csv_content with
  | Raise e => (processing_error e, self)
  | Ok df =>
      if (shape1 df <? 2)%nat then
        (rejected "Le fichier CSV doit contenir au moins 2 colonnes (Date, Valeur)",
         self)
      else if (shape0 df <? 10)%nat then
        (rejected "Le fichier CSV doit contenir au moins 10 lignes de données",
         self)
      else
        match infer_columns df with
        | Raise e => (processing_error e, self)
        | Ok (date_col, value_col) =>
            match clean df date_col value_col with
            | Raise e => (processing_error e, self)
            | Ok BadDate =>
                (rejected ("Impossible de convertir la colonne '" ++ date_col
                           ++ "' en date"), self)
            | Ok BadValue =>
                (rejected ("Impossible de convertir la colonne '" ++ value_col
                           ++ "' en valeurs numériques"), self)
            | Ok (Rows d) =>
                if (List.length d <? 10)%nat then
                  (rejected "Pas assez de données valides après nettoyage (minimum 10 points)",
                   self)
                else
                  let self1 := mk (Some d) (model self) (info self) in
                  match build_info d date_col value_col with
                  | Raise e => (processing_error e, self1)
                  | Ok i =>
                      (mkValidate true None (Some i)
                         (Some ("Données chargées avec succès: "
                                ++ str_of_nat (List.length d) ++ " points")),
                       mk (Some d) (model self) (Some i))
                  end
            end
        end
  end.

(** *** Frequency inference (lines 137-151) *)
Definition determine_freq (idx : list Timestamp) : result string :=
  freq <- pd_infer_freq idx ;;
  match freq with
  | Some f => Ok f
  | None => Ok (classify_gap (median_days (diffs idx)))
  end.

(** *** Order selection (lines 159-166) *)
Definition select_spec (n : Z) : ModelSpec :=
  if 24 <=? n then
    let seasonal_periods := Z.min 12 (n / 2) in
    mkSpec (1, 1, 1) (Some (1, 1, 1, seasonal_periods))
  else mkSpec (1, 1, 1) None.

(** *** Future dates (lines 175-184) *)
Definition future_dates (freq : string) (last_date : Timestamp) (steps : Z)
  : result (list Timestamp) :=
  if (freq =? "D")%string then date_range_periods (last_date + 1) steps freq
  else if (freq =? "W")%string then date_range_periods (last_date + 7) steps freq
  else if (freq =? "MS")%string then
    date_range_periods (add_months last_date 1) steps freq
  else date_range_periods (add_years last_date 1) steps freq.

(** Lines 171-215, after the fit. *)
Definition predict_fitted (self : t) (d : Series float) (freq : string)
  (model_fit : FittedModel) (steps : Z) : result Response :=
  forecast_values <- forecast model_fit steps ;;
  forecast_ci <- conf_int model_fit steps ;;
  last_date <- py_last (index d) ;;
  future <- future_dates freq last_date steps ;;
  let predictions :=
    mkPredictions (map strftime_ymd future) forecast_values
                  (map fst forecast_ci) (map snd forecast_ci) in
  let historical :=
    mkHistorical (map strftime_ymd (index d)) (column_values d) in
  last_again <- py_last (index d) ;;
  let model_info :=
    mkTrainInfo "SARIMAX (Données personnalisées)" (List.length d) freq
                (strftime_ymd last_again)
                match info self with
                | Some i => value_column i
                | None => "Value"
                end in
  Ok (mkResponse true None (Some predictions) (Some historical)
                 (Some model_info) (Some steps) NoPlotKey).

(** *** [train_model_and_predict] *)
Definition train_model_and_predict (steps : Z) (self : t) : Response * t :=
  match data self with
  | None =>
      (failed "Aucune donnée chargée. Veuillez d'abord uploader un fichier CSV.",
       self)
  | Some d =>
      match (freq <- determine_freq (index d) ;;
             d' <- asfreq d freq ;;
             Ok (freq, d')) with
      | Raise e => (failed ("Erreur lors de la prédiction: " ++ exn_msg e), self)
      | Ok (freq, d') =>
          let self1 := mk (Some d') (model self) (info self) in
          match SARIMAX_fit (select_spec (Z.of_nat (List.length d'))) d' with
          | Raise e =>
              (failed ("Erreur lors de l'entraînement du modèle: " ++ exn_msg e),
               self1)
          | Ok model_fit =>
              let self2 := mk (Some d') (Some model_fit) (info self) in
              match predict_fitted self2 d' freq model_fit steps with
              | Raise e =>
                  (failed ("Erreur lors de l'entraînement du modèle: "
                           ++ exn_msg e), self2)
              | Ok r => (r, self2)
              end
          end
      end
  end.

(** *** [generate_plot] *)
Definition generate_plot (predictions : Predictions float)
  (historical : Historical float) : string :=
  match (hist <- parse_dates (hist_dates historical) ;;
         future <- parse_dates (dates predictions) ;;
         render_png (mkChart "Prédiction de vos données temporelles" "Valeur"
                             (combine hist (hist_values historical))
                             future predictions)) with
  | Ok img_string => img_string
  | Raise _ => ""
  end.

(** [get_model_info]. *)
Definition get_model_info (self : t) : option DataInfo := info self.
End WithLibraries.
End CustomDataForecastService.

(* ================================================================== *)
(** ** app/models/arima_model.py *)

Module ARIMAModel.
Section WithLibraries.
Context `{Libraries}.

(** What [open(path, 'rb')] followed by [pickle.load] gives for the
    two paths of the model: the fitted model and the frame of the
    training script (its index and its ['Passengers'] column). *)
Record Files : Type := mkFiles {
  trained_model_pkl : result FittedModel;
  processed_data_pkl : result (Series float)
}.

Record t : Type := mk {
  model : option FittedModel;
  data : option (Series float)
}.

(** [get_model_info]'s dictionary. *)
Inductive Info : Type :=
  | InfoError (message : string)
  | InfoModel (model_type order seasonal_order : string)
              (data_points : nat) (last_date : option string).

(** [load_model]: both handlers ([FileNotFoundError], [Exception])
    reset the two fields. *)
Definition load_model (fs : Files) (self : t) : t :=
  match trained_model_pkl fs with
  | Raise _ => mk None None
  | Ok m =>
      match processed_data_pkl fs with
      | Raise _ => mk None None
      | Ok d => mk (Some m) (Some d)
      end
  end.

(** [__init__]. *)
Definition init (fs : Files) : t := load_model fs (mk None None).

Definition no_data {A : Type} : result A :=
  Raise (mkExn AttributeError "'NoneType' object has no attribute 'index'").

(** [predict]; the object is read, never assigned. *)
Definition predict (steps : Z) (self : t) : result (Predictions float) * t :=
  (match model self with
   | None => Raise (mkExn ValueError "Modèle non chargé")
   | Some m =>
       forecast_values <- forecast m steps ;;
       forecast_ci <- conf_int m steps ;;
       last_date <- match data self with
                    | Some d => py_last (index d)
                    | None => no_data
                    end ;;
       future <- date_range_periods (add_months last_date 1) steps "MS" ;;
       Ok (mkPredictions (map strftime_ym future) forecast_values
                         (map fst forecast_ci) (map snd forecast_ci))
   end, self).

Definition get_historical_data (self : t) : result (Historical float) :=
  match data self with
  | None => Raise (mkExn ValueError "Données non chargées")
  | Some d => Ok (mkHistorical (map strftime_ym (index d)) (column_values d))
  end.

(** [generate_plot]: nothing is caught here. *)
Definition generate_plot (predictions : Predictions float) (self : t)
  : result string :=
  match data self with
  | None => Raise (mkExn ValueError "Données non chargées")
  | Some d =>
      future <- parse_dates (dates predictions) ;;
      render_png (mkChart "Prédiction du nombre de passagers aériens"
                          "Nombre de passagers" d future predictions)
  end.

Definition get_model_info (self : t) : result Info :=
  match model self with
  | None => Ok (InfoError "Modèle non chargé")
  | Some _ =>
      last <- match data self with
              | Some d => l <- py_last (index d) ;; Ok (Some (strftime_ym l))
              | None => Ok None
              end ;;
      Ok (InfoModel "SARIMAX" "(1, 1, 1)" "(1, 1, 1, 12)"
                    match data self with
                    | Some d => List.length d
                    | None => O
                    end
                    last)
  end.
End WithLibraries.
End ARIMAModel.

(* ================================================================== *)
(** ** app/services/forecast_service.py *)

Module ForecastService.
Section WithLibraries.
Context `{Libraries}.

Record t : Type := mk { model : ARIMAModel.t }.

(** [__init__]. *)
Definition init (fs : ARIMAModel.Files) : t := mk (ARIMAModel.init fs).

Definition Response : Type := ForecastResponse float ARIMAModel.Info.

Record Status : Type := mkStatus {
  status_success : bool;
  model_loaded : bool;
  status_info : option ARIMAModel.Info;
  status_error : option string
}.

Definition get_forecast (steps : Z) (self : t) : Response * t :=
  let '(predicted, m) := ARIMAModel.predict steps (model self) in
  (match (predictions <- predicted ;;
          historical <- ARIMAModel.get_historical_data m ;;
          model_info <- ARIMAModel.get_model_info m ;;
          Ok (predictions, historical, model_info)) with
   | Ok (predictions, historical, model_info) =>
       mkResponse true None (Some predictions) (Some historical)
                  (Some model_info) (Some steps) NoPlotKey
   | Raise e => mkResponse false (Some (exn_msg e)) None None None None NoPlotKey
   end, mk m).

Definition get_forecast_with_plot (steps : Z) (self : t) : Response * t :=
  let '(result, self') := get_forecast steps self in
  if success result then
    match (predictions <- match predictions result with
                          | Some p => Ok p
                          | None => Raise (mkExn TypeError "'NoneType' object is not subscriptable")
                          end ;;
           ARIMAModel.generate_plot predictions (model self')) with
    | Ok plot_base64 => (set_plot result (PlotImage plot_base64), self')
    | Raise e =>
        (mkResponse false (Some (exn_msg e)) None None None None PlotNone, self')
    end
  else (result, self').

Definition get_model_status (self : t) : Status :=
  match ARIMAModel.get_model_info (model self) with
  | Ok model_info =>
      mkStatus true
               (match ARIMAModel.model (model self) with
                | Some _ => true
                | None => false
                end)
               (Some model_info) None
  | Raise e => mkStatus false false None (Some (exn_msg e))
  end.
End WithLibraries.
End ForecastService.

(* ================================================================== *)
(** ** app/main.py *)

Module Main.
Section WithLibraries.
Context `{Libraries}.

Definition error_detail {Info : Type} (r : ForecastResponse float Info) : string :=
  match error r with
  | Some e => e
  | None => "Erreur inconnue"
  end.

(** [POST /api/forecast]. *)
Definition create_forecast (steps : Z) (forecast_service : ForecastService.t)
  : HttpResponse ForecastService.Response * ForecastService.t :=
  if (steps <? 1) || (60 <? steps) then
    (HTTPException 400 "Le nombre de mois doit être entre 1 et 60",
     forecast_service)
  else
    let '(result, service') :=
      ForecastService.get_forecast_with_plot steps forecast_service in
    if negb (success result)
    then (HTTPException 500 (error_detail result), service')
    else (Json result, service').

(** [str(e)] of a Starlette [HTTPException]. *)
Definition str_http (status_code : Z) (detail : string) : string :=
  str_of_Z status_code ++ ": " ++ detail.

(** [POST /predict-custom-data]: whatever is raised inside the
    handler, its own 400 and 500 included, leaves as a 500. *)
Definition predict_custom_data (steps : Z)
  (custom_data_service : CustomDataForecastService.t)
  : HttpResponse CustomDataForecastService.Response
    * CustomDataForecastService.t :=
  if (steps <? 1) || (100 <? steps) then
    (HTTPException 500
       (str_http 400 "Le nombre de périodes doit être entre 1 et 100"),
     custom_data_service)
  else
    let '(result, service') :=
      CustomDataForecastService.train_model_and_predict steps
        custom_data_service in
    if negb (success result)
    then (HTTPException 500 (str_http 500 (error_detail result)), service')
    else
      match predictions result, historical_data result with
      | Some p, Some h =>
          let plot_base64 := CustomDataForecastService.generate_plot p h in
          (Rendered "custom_results.html"
                    (set_plot result (PlotImage plot_base64)), service')
      | _, _ => (HTTPException 500 "'predictions'", service')
      end.

(** *** The other handlers *)

(** [startup_event]: what is printed. *)
Definition startup_event (forecast_service : ForecastService.t) : list string :=
  let status := ForecastService.get_model_status forecast_service in
  if negb (ForecastService.model_loaded status)
  then ["⚠️  Attention: Modèle non chargé!";
        "📝 Veuillez exécuter: python scripts/train_model.py"]
  else ["✅ Modèle chargé avec succès!"].

(** The context of index.html; [upload_error = None] is a context
    without that key, [index_model_info = None] is [{}]. *)
Record IndexContext : Type := mkIndex {
  index_model_loaded : bool;
  index_model_info : option ARIMAModel.Info;
  upload_error : option string
}.

(** [GET /]. *)
Definition home (forecast_service : ForecastService.t)
  : HttpResponse IndexContext :=
  let status := ForecastService.get_model_status forecast_service in
  Rendered "index.html"
           (mkIndex (ForecastService.model_loaded status)
                    (ForecastService.status_info status) None).

(** [GET /api/status]. *)
Definition get_status (forecast_service : ForecastService.t)
  : ForecastService.Status :=
  ForecastService.get_model_status forecast_service.

(** [GET /api/forecast/{steps}]. *)
Definition get_forecast (steps : Z) (forecast_service : ForecastService.t)
  : HttpResponse ForecastService.Response * ForecastService.t :=
  if (steps <? 1) || (60 <? steps) then
    (HTTPException 400 "Le nombre de mois doit être entre 1 et 60",
     forecast_service)
  else
    let '(result, service') :=
      ForecastService.get_forecast steps forecast_service in
    if negb (success result)
    then (HTTPException 500 (error_detail result), service')
    else (Json result, service').

(** The context of results.html. *)
Record ResultsContext : Type := mkResults {
  results_result : ForecastService.Response;
  results_steps : Z;
  results_model_info : option ARIMAModel.Info
}.

(** [POST /forecast]: [steps] is passed on as it comes. *)
Definition forecast_form (steps : Z) (forecast_service : ForecastService.t)
  : HttpResponse ResultsContext * ForecastService.t :=
  let '(result, service') :=
    ForecastService.get_forecast_with_plot steps forecast_service in
  let status := ForecastService.get_model_status service' in
  (Rendered "results.html"
            (mkResults result steps (ForecastService.status_info status)),
   service').

(** [GET /health]. *)
Definition health_check : string * string :=
  ("healthy", "time-series-forecasting").

(** What the handler reads of a Starlette [UploadFile]: its name, its
    size ([None] when the parser did not set it) and what
    [await csv_file.read()] gives. *)
Record UploadFile : Type := mkUploadFile {
  filename : string;
  size : option Z;
  content : string
}.

(** The pages [upload_csv] renders. *)
Inductive UploadPage : Type :=
  | IndexPage (context : IndexContext)
  | AnalysisPage (data_info : CustomDataForecastService.DataInfo)
                 (upload_success : bool) (filename : string).

(** index.html with an upload error: the page is told that the bundled
    model is loaded, whatever its state. *)
Definition upload_failed (msg : string) : HttpResponse UploadPage :=
  Rendered "index.html" (IndexPage (mkIndex true None (Some msg))).

(** The [except Exception as e] of [upload_csv], on [str(e)]. *)
Definition upload_caught (str_e : string) : HttpResponse UploadPage :=
  upload_failed ("Erreur lors du traitement: " ++ str_e).

(** [POST /upload-csv]: the two 400 are raised inside the [try], and
    caught there. *)
Definition upload_csv (csv_file : UploadFile)
  (custom_data_service : CustomDataForecastService.t)
  : HttpResponse UploadPage * CustomDataForecastService.t :=
  if negb (endswith (filename csv_file) ".csv") then
    (upload_caught (str_http 400 "Le fichier doit être au format CSV"),
     custom_data_service)
  else
    match size csv_file with
    | None =>
        (upload_caught
           "'>' not supported between instances of 'NoneType' and 'int'",
         custom_data_service)
    | Some n =>
        if 5 * 1024 * 1024 <? n then
          (upload_caught
             (str_http 400 "Le fichier est trop volumineux (max 5MB)"),
           custom_data_service)
        else
          let '(validation_result, service') :=
            CustomDataForecastService.validate_and_process_csv
              (content csv_file) custom_data_service in
          if negb (CustomDataForecastService.v_success validation_result) then
            match CustomDataForecastService.v_error validation_result with
            | Some e => (upload_failed e, service')
            | None => (upload_caught "'error'", service')
            end
          else
            match CustomDataForecastService.v_data_info validation_result with
            | Some i =>
                (Rendered "custom_data_analysis.html"
                          (AnalysisPage i true (filename csv_file)), service')
            | None => (upload_caught "'data_info'", service')
            end
    end.

(** The dictionary of [GET /api/custom-status]; [None] for
    [custom_data_info] is Python's [None] or the empty [model_info]. *)
Record CustomStatus : Type := mkCustomStatus {
  custom_success : bool;
  has_custom_data : bool;
  custom_data_info : option CustomDataForecastService.DataInfo
}.

(** [GET /api/custom-status]. *)
Definition get_custom_status
  (custom_data_service : CustomDataForecastService.t) : CustomStatus :=
  let has_data :=
    match CustomDataForecastService.data custom_data_service with
    | Some _ => true
    | None => false
    end in
  mkCustomStatus true has_data
    (if has_data then CustomDataForecastService.info custom_data_service
     else None).
End WithLibraries.
End Main.

(* ================================================================== *)
(** ** Fitted models as objects

    A statsmodels results object is a Python object: a method called
    on it answers, and may leave the object in another state.  The two
    routines that forecast from a fitted model are read once more here,
    with the object threaded through their two calls.  With calls that
    leave the object as it was, they are [ARIMAModel.predict] and
    [CustomDataForecastService.predict_fitted]. *)

Module ResultsObject.
Section WithLibraries.
Context `{Libraries}.

(** [results.forecast(steps=n)] and
    [results.get_forecast(steps=n).conf_int()]: the answer, and the
    object after the call. *)
Variable call_forecast :
  FittedModel -> Z -> result (list float) * FittedModel.
Variable call_conf_int :
  FittedModel -> Z -> result (list (float * float)) * FittedModel.

(** arima_model.py, [predict]: [self.model] names the object, whatever
    the calls did to it. *)
Definition predict (steps : Z) (self : ARIMAModel.t)
  : result (Predictions float) * ARIMAModel.t :=
  match ARIMAModel.model self with
  | None => (Raise (mkExn ValueError "Modèle non chargé"), self)
  | Some m =>
      let '(forecast_values, m1) := call_forecast m steps in
      match forecast_values with
      | Raise e => (Raise e, ARIMAModel.mk (Some m1) (ARIMAModel.data self))
      | Ok forecast_values =>
          let '(forecast_ci, m2) := call_conf_int m1 steps in
          (forecast_ci <- forecast_ci ;;
           last_date <- match ARIMAModel.data self with
                        | Some d => py_last (index d)
                        | None => ARIMAModel.no_data
                        end ;;
           future <- date_range_periods (add_months last_date 1) steps "MS" ;;
           Ok (mkPredictions (map strftime_ym future) forecast_values
                             (map fst forecast_ci) (map snd forecast_ci)),
           ARIMAModel.mk (Some m2) (ARIMAModel.data self))
      end
  end.

(** custom_data_service.py, lines 171-215: the forecast from
    [model_fit], and the object after it. *)
Definition predict_fitted (self : CustomDataForecastService.t)
  (d : Series float) (freq : string) (model_fit : FittedModel) (steps : Z)
  : result CustomDataForecastService.Response * FittedModel :=
  let '(forecast_values, m1) := call_forecast model_fit steps in
  match forecast_values with
  | Raise e => (Raise e, m1)
  | Ok forecast_values =>
      let '(forecast_ci, m2) := call_conf_int m1 steps in
      (forecast_ci <- forecast_ci ;;
       last_date <- py_last (index d) ;;
       future <- CustomDataForecastService.future_dates freq last_date steps ;;
       let predictions :=
         mkPredictions (map strftime_ymd future) forecast_values
                       (map fst forecast_ci) (map snd forecast_ci) in
       let historical :=
         mkHistorical (map strftime_ymd (index d)) (column_values d) in
       last_again <- py_last (index d) ;;
       let model_info :=
         CustomDataForecastService.mkTrainInfo
           "SARIMAX (Données personnalisées)" (List.length d) freq
           (strftime_ymd last_again)
           match CustomDataForecastService.info self with
           | Some i => CustomDataForecastService.value_column i
           | None => "Value"
           end in
       Ok (mkResponse true None (Some predictions) (Some historical)
                      (Some model_info) (Some steps) NoPlotKey),
       m2)
  end.
End WithLibraries.
End ResultsObject.

(* ================================================================== *)
(** ** What the column scan computes, in closed form *)

Section ScanSummary.
Context `{Libraries}.

(** A column the scan may take for the values: numeric, and not
    named like a date. *)
Definition value_candidate (col : string * Column float) : bool :=
  negb (CustomDataForecastService.has_keyword (fst col))
  && is_numeric_dtype (snd col).

(** The last column named like a date. *)
Fixpoint last_keyword_column (df : DataFrame float) : option string :=
  match df with
  | [] => None
  | (col, _) :: rest =>
      match last_keyword_column rest with
      | Some c => Some c
      | None => if CustomDataForecastService.has_keyword col then Some col else None
      end
  end.
End ScanSummary.

(* ================================================================== *)
(** ** Words for the calendar properties *)

(** [R] holds between every element of [l] and the next. *)
Fixpoint adjacent (R : Timestamp -> Timestamp -> Prop) (l : list Timestamp) : Prop :=
  match l with
  | a :: (b :: _) as rest => R a b /\ adjacent R rest
  | _ => True
  end.

(** [b] is the calendar date of [o] that follows [a]. *)
Definition follows (o : Offset) (a b : Timestamp) : Prop :=
  b = next_on o a /\ a < b.

(** Every date of [l] is a date of the calendar of [o]. *)
Definition on_calendar (o : Offset) (l : list Timestamp) : Prop :=
  Forall (fun t => on_offset o t = true) l.

(** The offsets [to_offset] gives: a weekly anchor is a weekday, and a
    calendar of the library is regular. *)
Definition anchored (o : Offset) : Prop :=
  match o with
  | Week wd => 0 <= wd < 7
  | Other c => regular c
  | _ => True
  end.

(** One unit of the four frequencies of the median heuristic. *)
Definition one_unit_later (freq : string) (t : Timestamp) : Timestamp :=
  if (freq =? "D")%string then t + 1
  else if (freq =? "W")%string then t + 7
  else if (freq =? "MS")%string then add_months t 1
  else add_years t 1.

Section SeriesWords.
Context `{Libraries}.

(** The value of [s] that is current at [t]: that of a row at or
    before [t] which no row at or before [t] comes after. *)
Definition current_at (s : Series float) (t : Timestamp) (v : float) : Prop :=
  exists t0 : Timestamp,
    In (t0, v) s /\ t0 <= t
    /\ Forall (fun t1 => t1 <= t -> t1 <= t0) (index s).
End SeriesWords.

(* ================================================================== *)
(** ** Tactics *)

Ltac split_ifs :=
  repeat match goal with
         | |- context [if ?b then _ else _] =>
             let E := fresh "E" in destruct b eqn:E
         end;
  repeat match goal with
         | E : (_ <? _) = true |- _ => apply Z.ltb_lt in E
         | E : (_ <? _) = false |- _ => apply Z.ltb_ge in E
         | E : (_ <=? _) = true |- _ => apply Z.leb_le in E
         | E : (_ <=? _) = false |- _ => apply Z.leb_gt in E
         | E : (_ =? _) = true |- _ => apply Z.eqb_eq in E
         | E : (_ =? _) = false |- _ => apply Z.eqb_neq in E
         end.

Ltac euclid := Z.to_euclidean_division_equations; lia.

(** Conditions on numerals are decided by evaluation. *)
Ltac eval_ifs :=
  repeat match goal with
         | |- context [if ?b then _ else _] =>
             let v := eval vm_compute in b in
             match v with
             | true => change b with true; cbv iota
             | false => change b with false; cbv iota
             end
         end.

(* ================================================================== *)
(** * Properties *)

(** ** The calendar *)

(** The year of the era is read back from a day of the era that falls
    on a first of the month. *)
Lemma year_of_era_recovered :
  forall yoe doy : Z,
    0 <= yoe < 400 -> 0 <= doy <= 337 ->
    let doe := yoe * 365 + yoe / 4 - yoe / 100 + doy in
    0 <= doe < 146097
    /\ (doe - doe / 1460 + doe / 36524 - doe / 146096) / 365 = yoe.
Proof. intros yoe doy Hy Hd doe. subst doe. euclid. Qed.

(** What [civil_from_days] computes on the way, with the bounds that
    make it a date: the year of the era, the day of the March-based
    year and its month. *)
Lemma era_decomposition :
  forall doe : Z,
    0 <= doe < 146097 ->
    let yoe := (doe - doe / 1460 + doe / 36524 - doe / 146096) / 365 in
    let doy := doe - (365 * yoe + yoe / 4 - yoe / 100) in
    let mp := (5 * doy + 2) / 153 in
    0 <= yoe < 400 /\ 0 <= doy <= 365 /\ 0 <= mp <= 11
    /\ (yoe = 399 -> doe = 399 * 365 + 99 - 3 + doy)
    /\ (yoe < 399 ->
        doy < 365 + (yoe + 1) / 4 - yoe / 4 - ((yoe + 1) / 100 - yoe / 100))
    /\ 5 * doy + 2 < 153 * (mp + 1).
Proof. intros doe Hdoe yoe doy mp. subst mp doy yoe. euclid. Qed.

Lemma month_of_range : forall t : Timestamp, 1 <= month_of t <= 12.
Proof.
  intros t. unfold month_of, civil_from_days. cbv zeta. cbn [fst snd].
  set (z := t + 719468).
  set (doe := z - z / 146097 * 146097).
  assert (Hdoe : 0 <= doe < 146097) by (subst doe; euclid).
  destruct (era_decomposition doe Hdoe) as (_ & _ & Hmp & _). cbv zeta in Hmp.
  split_ifs; lia.
Qed.

Lemma civil_of_month_start :
  forall y m : Z,
    1 <= m <= 12 -> civil_from_days (days_from_civil y m 1) = (y, m, 1).
Proof.
  intros y m Hm.
  unfold days_from_civil. cbv zeta.
  set (y' := if m <=? 2 then y - 1 else y).
  set (mp := if 2 <? m then m - 3 else m + 9).
  set (era := y' / 400).
  set (yoe := y' - era * 400).
  set (doy := (153 * mp + 2) / 5 + 1 - 1).
  assert (Hyoe : 0 <= yoe < 400) by (subst yoe era; euclid).
  assert (Hmp : 0 <= mp <= 11) by (subst mp; split_ifs; lia).
  assert (Hdoy : 0 <= doy <= 337) by (subst doy; euclid).
  destruct (year_of_era_recovered yoe doy Hyoe Hdoy) as [Hdoe Hback].
  cbv zeta in Hdoe, Hback.
  set (doe := yoe * 365 + yoe / 4 - yoe / 100 + doy) in *.
  unfold civil_from_days. cbv zeta.
  replace (era * 146097 + doe - 719468 + 719468) with (doe + era * 146097) by ring.
  rewrite Z.div_add by lia. rewrite (Z.div_small doe) by lia.
  replace (doe + era * 146097 - (0 + era) * 146097) with doe by ring.
  rewrite Hback.
  replace (doe - (365 * yoe + yoe / 4 - yoe / 100)) with doy by (subst doe; ring).
  assert (Hmp' : (5 * doy + 2) / 153 = mp) by (subst doy; euclid).
  rewrite Hmp'.
  assert (Hm' : (if mp <? 10 then mp + 3 else mp - 9) = m)
    by (subst mp; split_ifs; lia).
  rewrite Hm'.
  f_equal; [ f_equal | subst doy; lia ].
  subst yoe y'. destruct (m <=? 2); lia.
Qed.

Lemma days_in_month_positive : forall y m : Z, 1 <= days_in_month y m.
Proof. intros y m. unfold days_in_month. split_ifs; lia. Qed.

(** *** One step of each calendar *)

Lemma next_week_is_seven_days :
  forall (wd : Z) (t : Timestamp),
    on_offset (Week wd) t = true -> next_on (Week wd) t = t + 7.
Proof.
  intros wd t Hon. cbn in Hon. apply Z.eqb_eq in Hon.
  cbn [next_on]. unfold weekday in *. euclid.
Qed.

Lemma next_month_is_one_month :
  forall t : Timestamp,
    on_offset MonthBegin t = true -> next_on MonthBegin t = add_months t 1.
Proof.
  intros t Hon. pose proof (month_of_range t) as Hm.
  cbn [on_offset next_on] in *. unfold add_months, month_of, day_of in *.
  destruct (civil_from_days t) as [[y m] d]. cbn [fst snd] in *.
  apply Z.eqb_eq in Hon. subst d.
  pose proof (days_in_month_positive ((y * 12 + (m - 1) + 1) / 12)
                                     ((y * 12 + (m - 1) + 1) mod 12 + 1)).
  rewrite Z.min_l by lia.
  destruct (m =? 12) eqn:E; [ apply Z.eqb_eq in E | apply Z.eqb_neq in E ];
    f_equal; euclid.
Qed.

Lemma next_year_is_one_year :
  forall t : Timestamp,
    on_offset YearBegin t = true -> next_on YearBegin t = add_years t 1.
Proof.
  intros t Hon. cbn [on_offset next_on] in *.
  unfold add_years, add_months, year_of, month_of, day_of in *.
  destruct (civil_from_days t) as [[y m] d]. cbn [fst snd] in *.
  apply andb_true_iff in Hon. destruct Hon as [Hd Hm].
  apply Z.eqb_eq in Hd, Hm. subst d m.
  pose proof (days_in_month_positive ((y * 12 + (1 - 1) + 12 * 1) / 12)
                                     ((y * 12 + (1 - 1) + 12 * 1) mod 12 + 1)).
  rewrite Z.min_l by lia.
  f_equal; euclid.
Qed.

Lemma add_years_unfold :
  forall t : Timestamp,
    add_years t 1
    = days_from_civil (year_of t + 1) (month_of t)
        (Z.min (day_of t) (days_in_month (year_of t + 1) (month_of t))).
Proof.
  intros t. pose proof (month_of_range t) as Hm.
  unfold add_years, add_months, year_of, month_of, day_of in *.
  destruct (civil_from_days t) as [[y m] d]. cbn [fst snd] in *.
  replace ((y * 12 + (m - 1) + 12 * 1) / 12) with (y + 1) by euclid.
  replace ((y * 12 + (m - 1) + 12 * 1) mod 12 + 1) with m by euclid.
  reflexivity.
Qed.

(** [DateOffset(years=1)] moves a date by 365 days at least. *)
Lemma add_years_later : forall t : Timestamp, t + 365 <= add_years t 1.
Proof.
  intros t. rewrite add_years_unfold.
  unfold year_of, month_of, day_of, civil_from_days. cbv zeta. cbn [fst snd].
  set (z := t + 719468).
  set (era := z / 146097).
  set (doe := z - era * 146097).
  assert (Hdoe : 0 <= doe < 146097) by (subst doe era; euclid).
  pose proof (era_decomposition doe Hdoe) as Hparts; cbv zeta in Hparts.
  set (yoe := (doe - doe / 1460 + doe / 36524 - doe / 146096) / 365) in *.
  set (doy := doe - (365 * yoe + yoe / 4 - yoe / 100)) in *.
  set (mp := (5 * doy + 2) / 153) in *.
  assert (Ht : t = era * 146097 + doe - 719468) by (subst doe z; lia).
  destruct Hparts as (Hy & Hd & Hmp & H399 & Hleap & Hmpd).
  assert (Hdoe' : doe = 365 * yoe + yoe / 4 - yoe / 100 + doy) by (subst doy; lia).
  assert (Hmplo : 153 * mp <= 5 * doy + 2) by (subst mp; euclid).
  clearbody mp doy yoe doe era. clear z. subst t doe.
  assert (Hcases : mp = 0 \/ mp = 1 \/ mp = 2 \/ mp = 3 \/ mp = 4 \/ mp = 5
                   \/ mp = 6 \/ mp = 7 \/ mp = 8 \/ mp = 9 \/ mp = 10 \/ mp = 11)
    by lia.
  unfold days_from_civil, days_in_month, is_leap. cbv zeta.
  repeat (destruct Hcases as [Hc | Hcases]; [ subst mp | ]); try subst mp.
  all: eval_ifs; split_ifs; try lia; euclid.
Qed.

(** The step of a calendar lands on the calendar. *)
Lemma next_on_calendar :
  forall (o : Offset) (t : Timestamp),
    anchored o -> on_offset o (next_on o t) = true.
Proof.
  intros [ | wd | | | c ] t Hwd; [ | | | | apply (Hwd t) ].
  - reflexivity.
  - cbn [on_offset next_on]. cbn in Hwd. apply Z.eqb_eq. unfold weekday. euclid.
  - pose proof (month_of_range t) as Hm.
    cbn [on_offset next_on]. unfold month_of, day_of in *.
    destruct (civil_from_days t) as [[y m] d]. cbn [fst snd] in Hm.
    destruct (m =? 12) eqn:E; [ | apply Z.eqb_neq in E ];
      rewrite civil_of_month_start by lia; reflexivity.
  - cbn [on_offset next_on]. unfold month_of, day_of.
    rewrite civil_of_month_start by lia. reflexivity.
Qed.

(** The step of a calendar moves forward. *)
Lemma next_on_later :
  forall (o : Offset) (t : Timestamp), anchored o -> t < next_on o t.
Proof.
  intros o t Hwd.
  destruct o as [ | wd | | | c ];
    [ cbn; lia | cbn [next_on]; cbn in Hwd; unfold weekday; euclid | |
    | apply (Hwd t) ].
  all: cbn [next_on]; unfold year_of, civil_from_days, days_from_civil;
    cbv zeta; cbn [fst snd];
    set (z := t + 719468);
    set (era := z / 146097);
    set (doe := z - era * 146097);
    assert (Hdoe : 0 <= doe < 146097) by (subst doe era; euclid);
    pose proof (era_decomposition doe Hdoe) as Hparts; cbv zeta in Hparts;
    set (yoe := (doe - doe / 1460 + doe / 36524 - doe / 146096) / 365) in *;
    set (doy := doe - (365 * yoe + yoe / 4 - yoe / 100)) in *;
    set (mp := (5 * doy + 2) / 153) in *;
    assert (Ht : t = era * 146097 + doe - 719468) by (subst doe z; lia);
    destruct Hparts as (Hy & Hd & Hmp & H399 & Hleap & Hmpd);
    assert (Hdoe' : doe = 365 * yoe + yoe / 4 - yoe / 100 + doy)
      by (subst doy; lia);
    clearbody mp doy yoe doe era; clear z;
    destruct (mp <? 10) eqn:Emp; split_ifs; subst t; try lia; euclid.
Qed.

Lemma rollforward_on_calendar :
  forall (o : Offset) (t : Timestamp),
    anchored o -> on_offset o (rollforward o t) = true.
Proof.
  intros o t Hwd. unfold rollforward.
  destruct (on_offset o t) eqn:Hon; [ exact Hon | ].
  destruct o as [ | wd | | | c ];
    try (apply next_on_calendar; exact Hwd).
  apply (Hwd t). exact Hon.
Qed.

Lemma rollforward_not_before :
  forall (o : Offset) (t : Timestamp), anchored o -> t <= rollforward o t.
Proof.
  intros o t Hwd. unfold rollforward.
  destruct (on_offset o t) eqn:Hon; [ lia | ].
  destruct o as [ | wd | | | c ];
    try (pose proof (next_on_later _ t Hwd); lia).
  destruct (Hwd t) as [Hroll _]. destruct (Hroll Hon). lia.
Qed.

Lemma rollforward_on_calendar_fixed :
  forall (o : Offset) (t : Timestamp),
    on_offset o t = true -> rollforward o t = t.
Proof.
  intros o t Hon. unfold rollforward. rewrite Hon. reflexivity.
Qed.

Lemma known_offset_anchored :
  forall (freq : string) (o : Offset), known_offset freq = Some o -> anchored o.
Proof.
  intros freq o. unfold known_offset.
  destruct (freq =? "D")%string; [ intros Ho; inversion Ho; exact I | ].
  destruct (freq =? "MS")%string; [ intros Ho; inversion Ho; exact I | ].
  destruct (existsb _ _); [ intros Ho; inversion Ho; exact I | ].
  unfold week_anchors. cbn [assoc option_map].
  repeat match goal with
         | |- context [if ?b then _ else _] => destruct b
         end;
    intros Ho; inversion Ho; cbn; lia.
Qed.

Lemma to_offset_anchored `{Libraries} :
  forall (freq : string) (o : Offset), to_offset freq = Ok o -> anchored o.
Proof.
  intros freq o. unfold to_offset.
  destruct (known_offset freq) as [o' | ] eqn:Hknown.
  - intros Ho. inversion Ho; subst o'. apply (known_offset_anchored freq o Hknown).
  - destruct (other_offset freq) as [c | ] eqn:Hother; [ | discriminate ].
    intros Ho. inversion Ho. apply (other_offset_regular freq c Hother).
Qed.

(* ================================================================== *)
(** ** A reference instance of the libraries

    Integers for floats, ISO dates, the answers of [pd.infer_freq] on
    evenly spaced daily, weekly, month-start, year-start, every-n-days
    and business-day indexes, the calendars of month ends, year ends,
    quarter starts and quarter ends beside, a naive fitted model that repeats the last observation with a band
    that widens with the horizon, and a renderer that works or fails as
    asked.  The concrete runs below are made against it. *)

Module Reference.

Definition digit_of (c : ascii) : option Z :=
  let n := nat_of_ascii c in
  if (andb (Nat.leb 48 n) (Nat.leb n 57)) then Some (Z.of_nat (n - 48)) else None.

Fixpoint parse_digits (s : string) (acc : Z) : option Z :=
  match s with
  | EmptyString => Some acc
  | String c rest =>
      match digit_of c with
      | Some d => parse_digits rest (10 * acc + d)
      | None => None
      end
  end.

Definition parse_int (s : string) : option Z :=
  match s with
  | EmptyString => None
  | _ => parse_digits s 0
  end.

Fixpoint split_dash (s : string) (cur : string) : list string :=
  match s with
  | EmptyString => [cur]
  | String c rest =>
      if Ascii.eqb c "-"%char then cur :: split_dash rest EmptyString
      else split_dash rest (cur ++ String c EmptyString)
  end.

(** ["YYYY-MM-DD"] and ["YYYY-MM"]. *)
Definition parse_date (s : string) : option Timestamp :=
  match map parse_int (split_dash s EmptyString) with
  | [Some y; Some m; Some d] => Some (days_from_civil y m d)
  | [Some y; Some m] => Some (days_from_civil y m 1)
  | _ => None
  end.

Fixpoint traverse {A B : Type} (f : A -> result B) (l : list A) : result (list B) :=
  match l with
  | [] => Ok []
  | a :: rest => b <- f a ;; bs <- traverse f rest ;; Ok (b :: bs)
  end.

Definition bad (msg : string) {A : Type} : result A := Raise (mkExn ValueError msg).

Definition ns_per_day : Z := 86400000000000.

Definition iso_to_datetime (c : Column Z) : result (list (option Timestamp)) :=
  match c with
  | DateCol l => Ok l
  | NumCol l => Ok (map (option_map (fun ns => ns / ns_per_day)) l)
  | ObjCol l =>
      traverse (fun cell =>
                  match cell with
                  | None => Ok None
                  | Some s => match parse_date s with
                              | Some t => Ok (Some t)
                              | None => bad ("Unknown datetime string format: " ++ s)
                              end
                  end) l
  end.

Definition iso_parse_dates (l : list string) : result (list Timestamp) :=
  traverse (fun s => match parse_date s with
                     | Some t => Ok t
                     | None => bad ("Unknown datetime string format: " ++ s)
                     end) l.

Definition int_to_numeric (c : Column Z) : result (list (option Z)) :=
  match c with
  | NumCol l => Ok l
  | DateCol l => Ok (map (option_map (fun t => t * ns_per_day)) l)
  | ObjCol l =>
      traverse (fun cell =>
                  match cell with
                  | None => Ok None
                  | Some s => match parse_int s with
                              | Some v => Ok (Some v)
                              | None => bad ("Unable to parse string " ++ s)
                              end
                  end) l
  end.

Definition mean (l : list Z) : Z := fold_right Z.add 0 l / Z.of_nat (List.length l).

Definition day_names : list string :=
  ["MON"; "TUE"; "WED"; "THU"; "FRI"; "SAT"; "SUN"].

Definition evenly (step : Timestamp -> Timestamp) (idx : list Timestamp) : bool :=
  forallb (fun p => step (fst p) =? snd p) (combine idx (tl idx)).

(** Calendars beside the four written out. *)

(** Every [n]-th day: ["2D"], ["3D"], ... *)
Definition every_n_days (n : Z) : Calendar :=
  mkCalendar (fun _ => true) (fun t => t) (fun t => t + n).

(** [n] of an alias ["nD"], [n] two or more. *)
Definition multiple_of_days (freq : string) : option Z :=
  let k := (String.length freq - 1)%nat in
  if (substring k 1 freq =? "D")%string then
    match parse_int (substring 0 k freq) with
    | Some n => if 2 <=? n then Some n else None
    | None => None
    end
  else None.

(** The business days, ["B"]. *)
Definition next_business_day (t : Timestamp) : Timestamp :=
  if weekday t =? 4 then t + 3
  else if weekday t =? 5 then t + 2
  else t + 1.

Definition business_day : Calendar :=
  mkCalendar (fun t => weekday t <? 5) next_business_day next_business_day.

(** The days before the dates of [o]: the month ends (["ME"]) before
    the month starts, the year ends (["YE-DEC"]) before the year
    starts. *)
Definition day_before (o : Offset) : Calendar :=
  mkCalendar (fun t => on_offset o (t + 1))
             (fun t => next_on o (t + 1) - 1)
             (fun t => next_on o (t + 1) - 1).

(** The quarter starts, ["QS-JAN"]: the first of January, April, July
    and October. *)
Definition is_quarter_start (t : Timestamp) : bool :=
  (day_of t =? 1) && ((month_of t - 1) mod 3 =? 0).

Definition next_quarter_start (t : Timestamp) : Timestamp :=
  let s1 := next_on MonthBegin t in
  if is_quarter_start s1 then s1
  else let s2 := next_on MonthBegin s1 in
       if is_quarter_start s2 then s2 else next_on MonthBegin s2.

Definition quarter_start : Calendar :=
  mkCalendar is_quarter_start next_quarter_start next_quarter_start.

Definition other_aliases (freq : string) : option Calendar :=
  if (freq =? "B")%string then Some business_day
  else if existsb (String.eqb freq) ["ME"; "M"]
  then Some (day_before MonthBegin)
  else if existsb (String.eqb freq) ["YE"; "YE-DEC"; "Y"; "Y-DEC"; "A"; "A-DEC"]
  then Some (day_before YearBegin)
  else if existsb (String.eqb freq) ["QS"; "QS-JAN"]
  then Some quarter_start
  else if existsb (String.eqb freq) ["QE"; "QE-DEC"; "Q"; "Q-DEC"]
  then Some (day_before (Other quarter_start))
  else option_map every_n_days (multiple_of_days freq).

Lemma every_n_days_regular :
  forall n : Z, 1 <= n -> regular (every_n_days n).
Proof.
  intros n Hn t. cbn. repeat split; try lia; discriminate.
Qed.

Lemma business_day_regular : regular business_day.
Proof.
  intros t.
  cbn [business_day cal_on cal_roll cal_next]. unfold next_business_day, weekday.
  assert (Hmod : 0 <= (t + 3) mod 7 < 7) by (apply Z.mod_pos_bound; lia).
  split; [ intros Hoff; apply Z.ltb_ge in Hoff | ].
  - destruct ((t + 3) mod 7 =? 4) eqn:E4; [ apply Z.eqb_eq in E4; lia | ].
    destruct ((t + 3) mod 7 =? 5) eqn:E5;
      [ apply Z.eqb_eq in E5 | apply Z.eqb_neq in E5 ];
      (split; [ apply Z.ltb_lt | lia ]);
      Z.to_euclidean_division_equations; lia.
  - destruct ((t + 3) mod 7 =? 4) eqn:E4;
      [ apply Z.eqb_eq in E4 | apply Z.eqb_neq in E4 ];
      [ | destruct ((t + 3) mod 7 =? 5) eqn:E5;
          [ apply Z.eqb_eq in E5 | apply Z.eqb_neq in E5 ] ];
      (split; [ apply Z.ltb_lt | lia ]);
      Z.to_euclidean_division_equations; lia.
Qed.

Lemma day_before_regular :
  forall o : Offset, anchored o -> regular (day_before o).
Proof.
  intros o Hwd t. cbn [day_before cal_on cal_roll cal_next].
  pose proof (next_on_calendar o (t + 1) Hwd) as Hon.
  pose proof (next_on_later o (t + 1) Hwd) as Hlater.
  replace (next_on o (t + 1) - 1 + 1) with (next_on o (t + 1)) by lia.
  repeat split; try exact Hon; lia.
Qed.

(** The month start after [t], in the civil calendar. *)
Lemma next_month_start_civil :
  forall t : Timestamp,
    day_of (next_on MonthBegin t) = 1
    /\ month_of (next_on MonthBegin t)
       = (if month_of t =? 12 then 1 else month_of t + 1).
Proof.
  intros t. pose proof (month_of_range t) as Hm.
  cbn [next_on]. unfold month_of, day_of in *.
  destruct (civil_from_days t) as [[y m] d]. cbn [fst snd] in *.
  destruct (m =? 12) eqn:E; [ | apply Z.eqb_neq in E ];
    rewrite civil_of_month_start by lia; split; reflexivity.
Qed.

Lemma quarter_among_three_months :
  forall m1 m2 m3 : Z,
    1 <= m1 <= 12 ->
    m2 = (if m1 =? 12 then 1 else m1 + 1) ->
    m3 = (if m2 =? 12 then 1 else m2 + 1) ->
    (m1 - 1) mod 3 <> 0 -> (m2 - 1) mod 3 <> 0 -> (m3 - 1) mod 3 = 0.
Proof.
  intros m1 m2 m3 Hm1 Hm2 Hm3 Q1 Q2.
  destruct (m1 =? 12) eqn:E1;
    [ apply Z.eqb_eq in E1 | apply Z.eqb_neq in E1 ];
    destruct (m2 =? 12) eqn:E2;
    [ apply Z.eqb_eq in E2 | apply Z.eqb_neq in E2
    | apply Z.eqb_eq in E2 | apply Z.eqb_neq in E2 ];
    subst m3 m2; Z.to_euclidean_division_equations; lia.
Qed.

Lemma quarter_start_by_month :
  forall s : Timestamp,
    day_of s = 1 ->
    is_quarter_start s = ((month_of s - 1) mod 3 =? 0).
Proof.
  intros s Hday. unfold is_quarter_start. rewrite Hday. reflexivity.
Qed.

Lemma next_quarter_start_regular :
  forall t : Timestamp,
    is_quarter_start (next_quarter_start t) = true /\ t < next_quarter_start t.
Proof.
  intros t. unfold next_quarter_start. cbv zeta.
  pose proof (next_on_later MonthBegin t I) as H1.
  pose proof (next_on_later MonthBegin (next_on MonthBegin t) I) as H2.
  pose proof (next_on_later MonthBegin
                (next_on MonthBegin (next_on MonthBegin t)) I) as H3.
  destruct (next_month_start_civil t) as [D1 M1].
  destruct (next_month_start_civil (next_on MonthBegin t)) as [D2 M2].
  destruct (next_month_start_civil (next_on MonthBegin (next_on MonthBegin t)))
    as [D3 M3].
  pose proof (month_of_range (next_on MonthBegin t)) as R1.
  revert H1 H2 H3 D1 M1 D2 M2 D3 M3 R1.
  generalize (next_on MonthBegin
                (next_on MonthBegin (next_on MonthBegin t))) as s3.
  generalize (next_on MonthBegin (next_on MonthBegin t)) as s2.
  generalize (next_on MonthBegin t) as s1.
  intros s1 s2 s3 H1 H2 H3 D1 M1 D2 M2 D3 M3 R1.
  destruct (is_quarter_start s1) eqn:Q1; [ split; [ exact Q1 | lia ] | ].
  destruct (is_quarter_start s2) eqn:Q2; [ split; [ exact Q2 | lia ] | ].
  rewrite (quarter_start_by_month s1 D1) in Q1.
  rewrite (quarter_start_by_month s2 D2) in Q2.
  rewrite (quarter_start_by_month s3 D3).
  apply Z.eqb_neq in Q1, Q2. split; [ | lia ].
  apply Z.eqb_eq.
  apply (quarter_among_three_months (month_of s1) (month_of s2) (month_of s3));
    assumption.
Qed.

Lemma quarter_start_regular : regular quarter_start.
Proof.
  intros t. cbn [quarter_start cal_on cal_roll cal_next].
  destruct (next_quarter_start_regular t) as [Hon Hlater].
  repeat split; assumption.
Qed.

Lemma other_aliases_regular :
  forall (freq : string) (c : Calendar),
    other_aliases freq = Some c -> regular c.
Proof.
  intros freq c. unfold other_aliases.
  destruct (freq =? "B")%string;
    [ intros Hc; inversion Hc; apply business_day_regular | ].
  destruct (existsb _ ["ME"; "M"]);
    [ intros Hc; inversion Hc; apply day_before_regular; exact I | ].
  destruct (existsb _ ["YE"; "YE-DEC"; "Y"; "Y-DEC"; "A"; "A-DEC"]);
    [ intros Hc; inversion Hc; apply day_before_regular; exact I | ].
  destruct (existsb _ ["QS"; "QS-JAN"]);
    [ intros Hc; inversion Hc; apply quarter_start_regular | ].
  destruct (existsb _ ["QE"; "QE-DEC"; "Q"; "Q-DEC"]);
    [ intros Hc; inversion Hc; apply day_before_regular;
      apply quarter_start_regular | ].
  unfold multiple_of_days.
  destruct (substring _ 1 freq =? "D")%string; [ | discriminate ].
  destruct (parse_int _) as [n | ]; [ | discriminate ].
  destruct (2 <=? n) eqn:Hn; [ | discriminate ].
  apply Z.leb_le in Hn. intros Hc. inversion Hc.
  apply every_n_days_regular. lia.
Qed.

(** [pd.infer_freq] on an evenly spaced index of three dates or more. *)
Definition regular_freq (idx : list Timestamp) : option string :=
  if forallb (on_offset YearBegin) idx && evenly (next_on YearBegin) idx
  then Some "YS-JAN"
  else if forallb (on_offset MonthBegin) idx && evenly (next_on MonthBegin) idx
  then Some "MS"
  else if evenly (fun t => t + 1) idx then Some "D"
  else if evenly (fun t => t + 7) idx
  then Some ("W-" ++ nth (Z.to_nat (weekday (hd 0 idx))) day_names "")
  else if (2 <=? hd 0 (diffs idx)) && negb (hd 0 (diffs idx) mod 7 =? 0)
          && evenly (fun t => t + hd 0 (diffs idx)) idx
  then Some (str_of_Z (hd 0 (diffs idx)) ++ "D")
  else if forallb (cal_on business_day) idx && evenly next_business_day idx
  then Some "B"
  else None.

(** The naive model: the observations it was fitted on. *)
Definition fit (fit_ok : bool) (spec : ModelSpec) (s : Series Z)
  : result (Series Z) :=
  if fit_ok then
    match s with
    | [] => bad "zero-size array to reduction operation maximum which has no identity"
    | _ => Ok s
    end
  else Raise (mkExn OtherError "LU decomposition error.").

Definition horizon (n : Z) : result (list Z) :=
  if n <? 1 then bad "Prediction must have `end` after `start`."
  else Ok (map Z.of_nat (seq 1 (Z.to_nat n))).

Definition naive_forecast (m : Series Z) (n : Z) : result (list Z) :=
  hs <- horizon n ;;
  Ok (map (fun _ => last (map snd m) 0) hs).

Definition naive_conf_int (m : Series Z) (n : Z) : result (list (Z * Z)) :=
  hs <- horizon n ;;
  Ok (map (fun h => (last (map snd m) 0 - 2 * h, last (map snd m) 0 + 2 * h)) hs).

Definition render (render_ok : bool) (c : Chart Z) : result string :=
  if render_ok then Ok "iVBORw0KGgo="
  else Raise (mkExn OtherError "savefig: cannot allocate the figure canvas").

(** The instance: [csv] is what the upload parses to. *)
Definition libraries (csv : result (DataFrame Z)) (fit_ok render_ok : bool)
  : Libraries :=
  {| float := Z;
     nan := 0;
     FittedModel := Series Z;
     read_csv := fun _ => csv;
     to_datetime := iso_to_datetime;
     parse_dates := iso_parse_dates;
     to_numeric := int_to_numeric;
     series_mean := mean;
     series_std := fun _ => 0;
     infer_freq := regular_freq;
     other_offset := other_aliases;
     other_offset_regular := other_aliases_regular;
     SARIMAX_fit := fit fit_ok;
     forecast := naive_forecast;
     conf_int := naive_conf_int;
     render_png := render render_ok |}.

Definition cells (l : list string) : Column Z := ObjCol (map Some l).
Definition numbers (l : list Z) : Column Z := NumCol (map Some l).

(** Ten Sundays, 2023-01-01 to 2023-03-05. *)
Definition weekly_csv : DataFrame Z :=
  [("Date", cells ["2023-01-01"; "2023-01-08"; "2023-01-15"; "2023-01-22";
                   "2023-01-29"; "2023-02-05"; "2023-02-12"; "2023-02-19";
                   "2023-02-26"; "2023-03-05"]);
   ("Sales", numbers [10; 11; 12; 13; 14; 15; 16; 17; 18; 19])].

(** Ten irregular observations, six to seven weeks apart. *)
Definition sparse_csv : DataFrame Z :=
  [("Date", cells ["2020-11-01"; "2020-12-15"; "2021-02-01"; "2021-03-20";
                   "2021-05-01"; "2021-06-20"; "2021-08-01"; "2021-09-20";
                   "2021-11-01"; "2022-01-10"]);
   ("Sales", numbers [10; 12; 11; 13; 14; 13; 15; 16; 15; 17])].

(** The series the sparse upload is validated to. *)
Definition sparse_series : Series Z :=
  [(days_from_civil 2020 11 1, 10); (days_from_civil 2020 12 15, 12);
   (days_from_civil 2021 2 1, 11); (days_from_civil 2021 3 20, 13);
   (days_from_civil 2021 5 1, 14); (days_from_civil 2021 6 20, 13);
   (days_from_civil 2021 8 1, 15); (days_from_civil 2021 9 20, 16);
   (days_from_civil 2021 11 1, 15); (days_from_civil 2022 1 10, 17)].

(** Ten consecutive days. *)
Definition daily_csv : DataFrame Z :=
  [("Date", cells ["2024-02-25"; "2024-02-26"; "2024-02-27"; "2024-02-28";
                   "2024-02-29"; "2024-03-01"; "2024-03-02"; "2024-03-03";
                   "2024-03-04"; "2024-03-05"]);
   ("Sales", numbers [10; 12; 11; 13; 14; 13; 15; 16; 15; 17])].

(** Ten dated rows under a heading that is no keyword, beside a
    numeric column whose name contains "month". *)
Definition period_csv : DataFrame Z :=
  [("Period", cells ["2024-02-25"; "2024-02-26"; "2024-02-27"; "2024-02-28";
                     "2024-02-29"; "2024-03-01"; "2024-03-02"; "2024-03-03";
                     "2024-03-04"; "2024-03-05"]);
   ("Monthly_sales", numbers [10; 12; 11; 13; 14; 13; 15; 16; 15; 17])].

(** Two numeric columns, the first a year. *)
Definition yearly_csv : DataFrame Z :=
  [("Year", numbers [2010; 2011; 2012; 2013; 2014; 2015; 2016; 2017; 2018; 2019]);
   ("Sales", numbers [10; 12; 11; 13; 14; 13; 15; 16; 15; 17])].

(** The series the daily upload is validated to. *)
Definition daily_series : Series Z :=
  combine (generate Day (days_from_civil 2024 2 25) 10)
          [10; 12; 11; 13; 14; 13; 15; 16; 15; 17].

(** Eight days only. *)
Definition short_csv : DataFrame Z :=
  [("Date", cells ["2024-02-25"; "2024-02-26"; "2024-02-27"; "2024-02-28";
                   "2024-02-29"; "2024-03-01"; "2024-03-02"; "2024-03-03"]);
   ("Sales", numbers [10; 12; 11; 13; 14; 13; 15; 16])].

(** Ten rows, three of them with a missing cell. *)
Definition holed_csv : DataFrame Z :=
  [("Date", ObjCol [Some "2024-02-25"; Some "2024-02-26"; None; Some "2024-02-28";
                    Some "2024-02-29"; Some "2024-03-01"; Some "2024-03-02";
                    Some "2024-03-03"; Some "2024-03-04"; Some "2024-03-05"]);
   ("Sales", NumCol [Some 10; None; Some 11; Some 13; Some 14; Some 13; Some 15;
                     None; Some 15; Some 17])].

(** The bundled artefacts: twelve months of 1960. *)
Definition passengers : Series Z :=
  map (fun m => (days_from_civil 1960 m 1, 400 + m)) [1; 2; 3; 4; 5; 6; 7; 8; 9; 10; 11; 12].

(** Ten dated rows beside a column of labels: no column is numeric. *)
Definition labelled_csv : DataFrame Z :=
  [("Label", cells ["a"; "b"; "c"; "d"; "e"; "f"; "g"; "h"; "i"; "j"]);
   ("Date", cells ["2024-02-25"; "2024-02-26"; "2024-02-27"; "2024-02-28";
                   "2024-02-29"; "2024-03-01"; "2024-03-02"; "2024-03-03";
                   "2024-03-04"; "2024-03-05"])].

(** Ten observations six to eight days apart, from Sunday 2023-01-01
    to Sunday 2023-03-05. *)
Definition uneven_csv : DataFrame Z :=
  [("Date", cells ["2023-01-01"; "2023-01-07"; "2023-01-15"; "2023-01-21";
                   "2023-01-29"; "2023-02-05"; "2023-02-11"; "2023-02-19";
                   "2023-02-26"; "2023-03-05"]);
   ("Sales", numbers [10; 11; 12; 13; 14; 15; 16; 17; 18; 19])].

(** Ten observations, one every second day. *)
Definition alternate_csv : DataFrame Z :=
  [("Date", cells ["2024-01-01"; "2024-01-03"; "2024-01-05"; "2024-01-07";
                   "2024-01-09"; "2024-01-11"; "2024-01-13"; "2024-01-15";
                   "2024-01-17"; "2024-01-19"]);
   ("Sales", numbers [10; 12; 11; 13; 14; 13; 15; 16; 15; 17])].

(** Ten daily rows, two of them dated 2024-02-27. *)
Definition repeated_csv : DataFrame Z :=
  [("Date", cells ["2024-02-25"; "2024-02-26"; "2024-02-27"; "2024-02-27";
                   "2024-02-28"; "2024-02-29"; "2024-03-01"; "2024-03-02";
                   "2024-03-03"; "2024-03-04"]);
   ("Sales", numbers [10; 12; 11; 13; 14; 13; 15; 16; 15; 17])].

(** The instance for a session of several uploads: [read] is what each
    content parses to. *)
Definition libraries_reading (read : string -> result (DataFrame Z))
  (fit_ok render_ok : bool) : Libraries :=
  {| float := Z;
     nan := 0;
     FittedModel := Series Z;
     read_csv := read;
     to_datetime := iso_to_datetime;
     parse_dates := iso_parse_dates;
     to_numeric := int_to_numeric;
     series_mean := mean;
     series_std := fun _ => 0;
     infer_freq := regular_freq;
     other_offset := other_aliases;
     other_offset_regular := other_aliases_regular;
     SARIMAX_fit := fit fit_ok;
     forecast := naive_forecast;
     conf_int := naive_conf_int;
     render_png := render render_ok |}.

(** The uploads of the runs below, by content. *)
Definition read_named (content : string) : result (DataFrame Z) :=
  if (content =? "daily")%string then Ok daily_csv
  else if (content =? "weekly")%string then Ok weekly_csv
  else if (content =? "sparse")%string then Ok sparse_csv
  else if (content =? "short")%string then Ok short_csv
  else if (content =? "holed")%string then Ok holed_csv
  else if (content =? "uneven")%string then Ok uneven_csv
  else if (content =? "labelled")%string then Ok labelled_csv
  else if (content =? "repeated")%string then Ok repeated_csv
  else if (content =? "alternate")%string then Ok alternate_csv
  else Raise (mkExn OtherError "No columns to parse from file").

(** A results object that ages with every call: its observations move
    up by one. *)
Definition aged (m : Series Z) : Series Z := map (fun row => (fst row, snd row + 1)) m.

Definition ageing_forecast (m : Series Z) (n : Z)
  : result (list Z) * Series Z :=
  (naive_forecast m n, aged m).

Definition ageing_conf_int (m : Series Z) (n : Z)
  : result (list (Z * Z)) * Series Z :=
  (naive_conf_int m n, aged m).

(** The upload service once [csv] has been validated. *)
Definition uploaded (L : Libraries) : @CustomDataForecastService.t L :=
  snd (@CustomDataForecastService.validate_and_process_csv L "Date,Sales"
         (@CustomDataForecastService.init L)).

(** The upload service after one more call, a forecast of five steps. *)
Definition forecast_once (L : Libraries) : @CustomDataForecastService.t L :=
  snd (@CustomDataForecastService.train_model_and_predict L 5 (uploaded L)).
End Reference.

(** ** Generated calendars *)

Lemma step_from_length :
  forall (step : Timestamp -> Timestamp) (n : nat) (cur : Timestamp),
    List.length (step_from step cur n) = n.
Proof.
  intros step n. induction n as [ | k IH ]; intros cur; [ reflexivity | ].
  cbn [step_from List.length]. rewrite IH. reflexivity.
Qed.

Lemma generate_on_calendar :
  forall (o : Offset) (n : nat) (cur : Timestamp),
    anchored o -> on_offset o cur = true ->
    on_calendar o (generate o cur n) /\ adjacent (follows o) (generate o cur n).
Proof.
  intros o n. unfold generate, on_calendar.
  induction n as [ | k IH ]; intros cur Hwd Hon; [ split; constructor | ].
  cbn [step_from].
  destruct (IH (next_on o cur) Hwd (next_on_calendar o cur Hwd)) as [Hall Hadj].
  split; [ constructor; assumption | ].
  destruct k as [ | k' ]; [ exact I | ].
  cbn [step_from] in *. split; [ | exact Hadj ].
  split; [ reflexivity | apply next_on_later; exact Hwd ].
Qed.

Lemma generate_not_before :
  forall (o : Offset) (n : nat) (cur : Timestamp),
    anchored o -> Forall (fun t => cur <= t) (generate o cur n).
Proof.
  intros o n. unfold generate.
  induction n as [ | k IH ]; intros cur Hwd; [ constructor | ].
  cbn [step_from]. constructor; [ lia | ].
  pose proof (next_on_later o cur Hwd) as Hlater.
  eapply Forall_impl; [ | exact (IH (next_on o cur) Hwd) ].
  cbn. intros t Ht. lia.
Qed.

Lemma generate_until_on_calendar :
  forall (o : Offset) (stop : Timestamp) (fuel : nat) (cur : Timestamp),
    anchored o -> on_offset o cur = true ->
    on_calendar o (generate_until o cur stop fuel)
    /\ adjacent (follows o) (generate_until o cur stop fuel)
    /\ Forall (fun t => cur <= t <= stop) (generate_until o cur stop fuel).
Proof.
  intros o stop fuel. unfold generate_until, on_calendar.
  induction fuel as [ | k IH ]; intros cur Hwd Hon;
    [ repeat split; constructor | ].
  cbn [step_until].
  destruct (cur <=? stop) eqn:Hle; [ | repeat split; constructor ].
  apply Z.leb_le in Hle.
  destruct (IH (next_on o cur) Hwd (next_on_calendar o cur Hwd))
    as (Hall & Hadj & Hrange).
  pose proof (next_on_later o cur Hwd) as Hlater.
  split; [ constructor; assumption | ]. split.
  - destruct k as [ | k' ]; [ exact I | ].
    cbn [step_until] in *.
    destruct (next_on o cur <=? stop); [ | exact I ].
    split; [ split; [ reflexivity | exact Hlater ] | exact Hadj ].
  - constructor; [ lia | ].
    eapply Forall_impl; [ | exact Hrange ]. cbn. intros t Ht. lia.
Qed.

Lemma py_last_inv {A : Type} :
  forall (l : list A) (a : A),
    py_last l = Ok a -> exists front : list A, l = (front ++ [a])%list.
Proof.
  intros l a. unfold py_last. destruct (rev l) as [ | b back ] eqn:Hrev;
    [ discriminate | ].
  intros Hok. inversion Hok; subst b. exists (rev back).
  rewrite <- (rev_involutive l), Hrev. reflexivity.
Qed.

Lemma adjacent_app :
  forall (R : Timestamp -> Timestamp -> Prop) (front : list Timestamp)
         (a : Timestamp) (rest : list Timestamp),
    adjacent R (front ++ [a])%list ->
    adjacent R (a :: rest) ->
    adjacent R ((front ++ [a]) ++ rest)%list.
Proof.
  intros R front a rest. induction front as [ | x front IH ]; intros Hl Hr.
  - exact Hr.
  - cbn [app] in *. destruct front as [ | y front' ].
    + cbn [app] in *. split; [ apply Hl | exact Hr ].
    + cbn [app] in *. destruct Hl as [Hxy Hl]. split; [ exact Hxy | ].
      apply IH; assumption.
Qed.

(** ** The regularized series *)

Lemma index_of_reindexed `{Libraries} :
  forall (s : Series float) (new_index : list Timestamp),
    index (map (fun t => (t, pad s t)) new_index) = new_index.
Proof.
  intros s new_index. unfold index. rewrite map_map. cbn [fst].
  apply map_id.
Qed.

Lemma asfreq_on_calendar `{Libraries} :
  forall (d d' : Series float) (freq : string) (o : Offset),
    to_offset freq = Ok o ->
    asfreq d freq = Ok d' ->
    on_calendar o (index d') /\ adjacent (follows o) (index d')
    /\ forall first : Timestamp,
         hd_error (index d) = Some first ->
         Forall (fun t => first <= t <= last (index d) first) (index d').
Proof.
  intros d d' freq o Ho. unfold asfreq.
  destruct (index d) as [ | first rest ] eqn:Hidx.
  { intros Hok. inversion Hok; subst d'. rewrite Hidx.
    split; [ constructor | ]. split; [ exact I | ]. discriminate. }
  unfold date_range_between. rewrite Ho. cbn [bind].
  destruct (has_adjacent_dup (first :: rest)); [ discriminate | ].
  intros Hok. inversion Hok; subst d'. rewrite index_of_reindexed.
  pose proof (to_offset_anchored freq o Ho) as Hwd.
  destruct (generate_until_on_calendar o (last (first :: rest) first)
              (Z.to_nat (last (first :: rest) first - first + 1))
              (rollforward o first) Hwd (rollforward_on_calendar o first Hwd))
    as (Hall & Hadj & Hrange).
  split; [ exact Hall | ]. split; [ exact Hadj | ].
  intros first' Hfirst. inversion Hfirst; subst first'.
  eapply Forall_impl; [ | exact Hrange ]. cbn. intros t [Hlo Hhi].
  split; [ | exact Hhi ].
  pose proof (rollforward_not_before o first Hwd). lia.
Qed.

Lemma adjacent_weaken :
  forall (R S : Timestamp -> Timestamp -> Prop) (l : list Timestamp),
    (forall a b, R a b -> S a b) -> adjacent R l -> adjacent S l.
Proof.
  intros R S l Hsub. induction l as [ | a [ | b rest ] IH ]; intros Hadj.
  - exact I.
  - exact I.
  - destruct Hadj as [Hab Hrest]. split; [ apply Hsub; exact Hab | ].
    apply IH. exact Hrest.
Qed.

(** A series re-indexed by [asfreq] has its timestamps on the calendar
    of its frequency, each the calendar date after the one before; so
    they increase strictly, evenly spaced, without a gap, between the
    first and the last timestamp of the series it was made from. *)
Theorem regularized_series_regular `{Libraries} :
  forall (d d' : Series float) (freq : string) (o : Offset),
    to_offset freq = Ok o ->
    asfreq d freq = Ok d' ->
    on_calendar o (index d')
    /\ adjacent (fun a b => b = next_on o a) (index d')
    /\ adjacent Z.lt (index d')
    /\ forall first : Timestamp,
         hd_error (index d) = Some first ->
         Forall (fun t => first <= t <= last (index d) first) (index d').
Proof.
  intros d d' freq o Ho Hre.
  destruct (asfreq_on_calendar d d' freq o Ho Hre) as (Hon & Hadj & Hrange).
  split; [ exact Hon | ].
  split; [ apply (adjacent_weaken (follows o)); [ intros a b [E _]; exact E | exact Hadj ] | ].
  split; [ apply (adjacent_weaken (follows o)); [ intros a b [_ E]; exact E | exact Hadj ] | ].
  exact Hrange.
Qed.

(** The sparse upload on the yearly calendar: the two year starts of
    its range. *)
Lemma regularized_series_regular_witness :
  let L := Reference.libraries (Ok Reference.sparse_csv) true true in
  let d' : Series float :=
    [(days_from_civil 2021 1 1, 12); (days_from_civil 2022 1 1, 15)] in
  (CustomDataForecastService.data (Reference.uploaded L)
   = Some Reference.sparse_series
   /\ asfreq Reference.sparse_series "YS" = Ok d')
  /\ on_calendar YearBegin (index d')
  /\ adjacent (fun a b => b = next_on YearBegin a) (index d')
  /\ adjacent Z.lt (index d')
  /\ forall first : Timestamp,
       hd_error (index Reference.sparse_series) = Some first ->
       Forall (fun t => first <= t <= last (index Reference.sparse_series) first)
              (index d').
Proof.
  intros L d'. split; [ split; reflexivity | ].
  apply (@regularized_series_regular L Reference.sparse_series d' "YS" YearBegin);
    reflexivity.
Defined.

(** ** Order selection *)

(** The specification depends on the length [n] of the regularized
    series only: the non-seasonal order is always (1,1,1); with 24
    observations or more the seasonal order is (1,1,1,min(12, n // 2));
    with fewer there is no seasonal component. *)
Lemma select_spec_policy :
  forall n : Z,
    order (CustomDataForecastService.select_spec n) = (1, 1, 1)
    /\ (24 <= n ->
        seasonal_order (CustomDataForecastService.select_spec n)
        = Some (1, 1, 1, Z.min 12 (n / 2)))
    /\ (n < 24 ->
        seasonal_order (CustomDataForecastService.select_spec n) = None).
Proof.
  intros n. unfold CustomDataForecastService.select_spec.
  destruct (24 <=? n) eqn:E; cbn.
  - apply Z.leb_le in E. repeat split; auto. lia.
  - apply Z.leb_gt in E. repeat split; auto. lia.
Qed.

(** C2.  The fitter is called once in a forecast, on the regularized
    series [d'], with a specification that depends on the length [n] of
    [d'] only: non-seasonal order (1,1,1); with 24 observations or more
    the seasonal order (1,1,1,min(12, n // 2)); with fewer, no seasonal
    component.  What that call gives is what the forecast is made from:
    when it raises, the request fails with its message; when it returns
    a model, that model is stored, and a successful answer holds its
    point forecasts and its interval. *)
Theorem fitter_uses_order_policy `{Libraries} :
  forall (steps : Z) (self : CustomDataForecastService.t)
         (d d' : Series float) (freq : string),
    CustomDataForecastService.data self = Some d ->
    CustomDataForecastService.determine_freq (index d) = Ok freq ->
    asfreq d freq = Ok d' ->
    let n := Z.of_nat (List.length d') in
    let run := CustomDataForecastService.train_model_and_predict steps self in
    exists spec : ModelSpec,
      order spec = (1, 1, 1)
      /\ (24 <= n -> seasonal_order spec = Some (1, 1, 1, Z.min 12 (n / 2)))
      /\ (n < 24 -> seasonal_order spec = None)
      /\ (forall e : exn,
            SARIMAX_fit spec d' = Raise e ->
            run = (CustomDataForecastService.failed
                     ("Erreur lors de l'entraînement du modèle: " ++ exn_msg e),
                   CustomDataForecastService.mk (Some d')
                     (CustomDataForecastService.model self)
                     (CustomDataForecastService.info self)))
      /\ (forall m : FittedModel,
            SARIMAX_fit spec d' = Ok m ->
            snd run = CustomDataForecastService.mk (Some d') (Some m)
                        (CustomDataForecastService.info self)
            /\ (success (fst run) = true ->
                exists (vals : list float) (ci : list (float * float))
                       (p : Predictions float),
                  forecast m steps = Ok vals
                  /\ conf_int m steps = Ok ci
                  /\ predictions (fst run) = Some p
                  /\ values p = vals
                  /\ lower_ci p = map fst ci
                  /\ upper_ci p = map snd ci)).
Proof.
  intros steps self d d' freq Hdata Hfreq Hre n run.
  exists (CustomDataForecastService.select_spec n).
  destruct (select_spec_policy n) as (Horder & Hseasonal & Hplain).
  split; [ exact Horder | ]. split; [ exact Hseasonal | ].
  split; [ exact Hplain | ].
  subst run. unfold CustomDataForecastService.train_model_and_predict.
  rewrite Hdata, Hfreq. cbn [bind]. rewrite Hre. cbn [bind]. fold n.
  split.
  - intros e Hfit. rewrite Hfit. reflexivity.
  - intros m Hfit. rewrite Hfit.
    unfold CustomDataForecastService.predict_fitted.
    destruct (forecast m steps) as [vals | e1];
      [ | split; [ reflexivity | discriminate ] ].
    destruct (conf_int m steps) as [ci | e2];
      [ | split; [ reflexivity | discriminate ] ].
    destruct (py_last (index d')) as [last_date | e3];
      [ | split; [ reflexivity | discriminate ] ].
    cbn [bind].
    destruct (CustomDataForecastService.future_dates freq last_date steps)
      as [future | e4]; [ | split; [ reflexivity | discriminate ] ].
    cbn [bind]. split; [ reflexivity | ]. intros _.
    exists vals, ci. eexists. repeat split.
Qed.

(** Thirty daily observations: the seasonal specification
    (1,1,1)x(1,1,1,12), and three days ahead from the fit. *)
Lemma fitter_uses_order_policy_witness :
  let L := Reference.libraries (Ok Reference.daily_csv) true true in
  let d : Series float :=
    map (fun t => (t, t - 19000)) (generate Day (days_from_civil 2024 1 1) 30) in
  let self := CustomDataForecastService.mk (Some d) None None in
  let run := CustomDataForecastService.train_model_and_predict 3 self in
  (SARIMAX_fit (mkSpec (1, 1, 1) (Some (1, 1, 1, 12))) d = Ok d
   /\ option_map values (predictions (fst run)) = Some [752; 752; 752])
  /\ exists spec : ModelSpec,
       order spec = (1, 1, 1)
       /\ (24 <= Z.of_nat (List.length d) ->
           seasonal_order spec
           = Some (1, 1, 1, Z.min 12 (Z.of_nat (List.length d) / 2)))
       /\ (Z.of_nat (List.length d) < 24 -> seasonal_order spec = None)
       /\ (forall e : exn,
             SARIMAX_fit spec d = Raise e ->
             run = (CustomDataForecastService.failed
                      ("Erreur lors de l'entraînement du modèle: " ++ exn_msg e),
                    CustomDataForecastService.mk (Some d)
                      (CustomDataForecastService.model self)
                      (CustomDataForecastService.info self)))
       /\ (forall m : FittedModel,
             SARIMAX_fit spec d = Ok m ->
             snd run = CustomDataForecastService.mk (Some d) (Some m)
                         (CustomDataForecastService.info self)
             /\ (success (fst run) = true ->
                 exists (vals : list float) (ci : list (float * float))
                        (p : Predictions float),
                   forecast m 3 = Ok vals
                   /\ conf_int m 3 = Ok ci
                   /\ predictions (fst run) = Some p
                   /\ values p = vals
                   /\ lower_ci p = map fst ci
                   /\ upper_ci p = map snd ci)).
Proof.
  intros L d self run. split; [ split; reflexivity | ].
  apply (@fitter_uses_order_policy L 3 self d d "D"); reflexivity.
Defined.

(** Whenever a seasonal component is fitted its period is 12: half of
    24 observations or more is 12 at least. *)
Theorem seasonal_period_is_12 :
  forall n : Z,
    24 <= n ->
    seasonal_order (CustomDataForecastService.select_spec n) = Some (1, 1, 1, 12).
Proof.
  intros n Hn. unfold CustomDataForecastService.select_spec.
  assert (Hge : (24 <=? n) = true) by (apply Z.leb_le; exact Hn).
  rewrite Hge. cbn [seasonal_order]. do 2 f_equal.
  assert (12 <= n / 2) by (apply Z.div_le_lower_bound; lia). lia.
Qed.

(** Twelve years of monthly data. *)
Lemma seasonal_period_is_12_witness :
  seasonal_order (CustomDataForecastService.select_spec 144) = Some (1, 1, 1, 12).
Proof.
  apply (seasonal_period_is_12 144). lia.
Defined.

(** ** Schema inference *)

Section SchemaInference.
Context `{Libraries}.

Lemma scan_columns_summary :
  forall (cols : DataFrame float) (date_col value_col : option string),
    CustomDataForecastService.scan_columns cols date_col value_col
    = (match last_keyword_column cols with
       | Some c => Some c
       | None => date_col
       end,
       match value_col with
       | Some c => Some c
       | None => option_map fst (find value_candidate cols)
       end).
Proof.
  induction cols as [ | [col cells] rest IH ]; intros date_col value_col.
  - cbn. destruct value_col; reflexivity.
  - cbn [CustomDataForecastService.scan_columns last_keyword_column find].
    unfold value_candidate at 1. cbn [fst snd].
    destruct (CustomDataForecastService.has_keyword col) eqn:Hkw; cbn [negb andb].
    + rewrite IH. destruct (last_keyword_column rest); reflexivity.
    + destruct (is_numeric_dtype cells) eqn:Hnum.
      * destruct value_col as [v | ]; rewrite IH;
          destruct (last_keyword_column rest); reflexivity.
      * rewrite IH. destruct (last_keyword_column rest); reflexivity.
Qed.

Lemma last_keyword_column_sound :
  forall (df : DataFrame float) (c : string),
    last_keyword_column df = Some c ->
    In c (columns df) /\ CustomDataForecastService.has_keyword c = true.
Proof.
  induction df as [ | [col cells] rest IH ]; intros c Hc; [ discriminate | ].
  cbn [last_keyword_column] in Hc. cbn [columns map fst In].
  destruct (last_keyword_column rest) as [c' | ].
  - inversion Hc; subst c'. destruct (IH c eq_refl) as [Hin Hkw].
    split; [ right; exact Hin | exact Hkw ].
  - destruct (CustomDataForecastService.has_keyword col) eqn:Hkw;
      [ | discriminate ].
    inversion Hc; subst c. split; [ left; reflexivity | exact Hkw ].
Qed.

Lemma last_keyword_column_none :
  forall df : DataFrame float,
    last_keyword_column df = None <->
    (forall c, In c (columns df) -> CustomDataForecastService.has_keyword c = false).
Proof.
  induction df as [ | [col cells] rest IH ].
  - cbn. split; [ intros _ c [] | reflexivity ].
  - cbn [last_keyword_column columns map fst In]. split.
    + intros Hnone c [Hc | Hc].
      * subst c. destruct (last_keyword_column rest); [ discriminate | ].
        destruct (CustomDataForecastService.has_keyword col);
          [ discriminate | reflexivity ].
      * apply IH; [ | exact Hc ].
        destruct (last_keyword_column rest); [ discriminate | reflexivity ].
    + intros Hall.
      assert (Hrest : last_keyword_column rest = None).
      { apply IH. intros c Hc. apply Hall. right. exact Hc. }
      rewrite Hrest, (Hall col); [ reflexivity | left; reflexivity ].
Qed.
End SchemaInference.

(** C4, as the code has it.  On a frame of two columns or more schema
    inference always answers.  The time column is a column whose
    lower-cased name contains one of "date", "time", "month", "year",
    "day" when there is one, and the first column otherwise.  The value
    column is the first numeric column whose name contains none of the
    keywords, and the second column when there is none.  In particular,
    when the first column is named like a date or is not numeric, the
    second is numeric, and no column but the first is named like a
    date, the two columns selected are the first and the second. *)
Theorem infer_columns_answers `{Libraries} :
  forall df : DataFrame float,
    (2 <= shape1 df)%nat ->
    exists date_col value_col : string,
      CustomDataForecastService.infer_columns df = Ok (date_col, value_col)
      /\ ((exists c, In c (columns df)
                     /\ CustomDataForecastService.has_keyword c = true) ->
          In date_col (columns df)
          /\ CustomDataForecastService.has_keyword date_col = true)
      /\ ((forall c, In c (columns df) ->
                     CustomDataForecastService.has_keyword c = false) ->
          nth_error (columns df) 0 = Some date_col)
      /\ (forall col, find value_candidate df = Some col -> value_col = fst col)
      /\ (find value_candidate df = None ->
          nth_error (columns df) 1 = Some value_col)
      /\ (forall n1 c1 n2 c2 rest,
            df = (n1, c1) :: (n2, c2) :: rest ->
            CustomDataForecastService.has_keyword n1 = true
            \/ is_numeric_dtype c1 = false ->
            CustomDataForecastService.has_keyword n2 = false ->
            is_numeric_dtype c2 = true ->
            (forall c, In c (columns rest) ->
                       CustomDataForecastService.has_keyword c = false) ->
            date_col = n1 /\ value_col = n2).
Proof.
  intros df Hcols.
  destruct df as [ | [n1 c1] [ | [n2 c2] rest ] ]; cbn in Hcols; try lia.
  set (df := (n1, c1) :: (n2, c2) :: rest) in *.
  unfold CustomDataForecastService.infer_columns.
  rewrite scan_columns_summary.
  set (d := match last_keyword_column df with Some c => Some c | None => None end).
  set (v := option_map fst (find value_candidate df)).
  exists (match d with Some c => c | None => n1 end),
         (match v with Some c => c | None => n2 end).
  split.
  { destruct d, v; reflexivity. }
  assert (Hd : d = last_keyword_column df)
    by (subst d; destruct (last_keyword_column df); reflexivity).
  split; [ | split; [ | split; [ | split ] ] ].
  - intros (c & Hin & Hkw). rewrite Hd.
    destruct (last_keyword_column df) as [c' | ] eqn:Hlast.
    + apply last_keyword_column_sound. exact Hlast.
    + rewrite (proj1 (last_keyword_column_none df) Hlast c Hin) in Hkw.
      discriminate.
  - intros Hall. rewrite Hd.
    rewrite (proj2 (last_keyword_column_none df) Hall). reflexivity.
  - intros col Hfind. subst v. rewrite Hfind. reflexivity.
  - intros Hfind. subst v. rewrite Hfind. reflexivity.
  - intros m1 k1 m2 k2 rest' Heq Hfirst Hkw2 Hnum2 Hrest.
    subst df. inversion Heq; subst m1 k1 m2 k2 rest'. clear Heq.
    assert (Hnone : last_keyword_column rest = None)
      by (apply last_keyword_column_none; exact Hrest).
    split.
    + rewrite Hd. cbn [last_keyword_column]. rewrite Hnone, Hkw2.
      destruct (CustomDataForecastService.has_keyword n1); reflexivity.
    + subst v. cbn [find]. unfold value_candidate at 1 2. cbn [fst snd].
      rewrite Hkw2, Hnum2. cbn [negb andb].
      destruct Hfirst as [Hkw1 | Hnum1].
      * rewrite Hkw1. reflexivity.
      * rewrite Hnum1, andb_false_r. reflexivity.
Qed.

(** A dated first column and a numeric second one. *)
Lemma infer_columns_answers_witness :
  let L := Reference.libraries (Ok Reference.daily_csv) true true in
  exists date_col value_col : string,
    CustomDataForecastService.infer_columns Reference.daily_csv
    = Ok (date_col, value_col)
    /\ date_col = "Date" /\ value_col = "Sales".
Proof.
  intro L.
  destruct (@infer_columns_answers L Reference.daily_csv)
    as (date_col & value_col & Hrun & _ & _ & _ & _ & Hfirst_two);
    [ cbn; lia | ].
  exists date_col, value_col. split; [ exact Hrun | ].
  eapply Hfirst_two; [ reflexivity | left; reflexivity | reflexivity
                     | reflexivity | intros c [] ].
Defined.

(** C4, as stated, fails.  In [period_csv] the first column holds ten
    dates and the second is numeric, yet the second column is selected
    twice, its name containing "month".  In [yearly_csv] the first
    numeric column is "Year", and the value column selected is
    "Sales": a column named like a date is never taken for the
    values. *)
Lemma schema_inference_counterexample :
  let L := Reference.libraries (Ok Reference.period_csv) true true in
  (shape1 Reference.period_csv = 2%nat
   /\ shape0 Reference.period_csv = 10%nat
   /\ is_ok (r <- get_col Reference.period_csv "Period" ;; to_datetime r) = true
   /\ option_map is_numeric_dtype (assoc "Monthly_sales" Reference.period_csv)
      = Some true
   /\ CustomDataForecastService.infer_columns Reference.period_csv
      = Ok ("Monthly_sales", "Monthly_sales"))
  /\ (option_map is_numeric_dtype (assoc "Year" Reference.yearly_csv) = Some true
      /\ CustomDataForecastService.infer_columns Reference.yearly_csv
         = Ok ("Year", "Sales")).
Proof.
  intro L. repeat split.
Qed.

(** ** Upload validation *)

(** Validation never touches [self.model]: nothing is fitted there. *)
Theorem validation_never_fits `{Libraries} :
  forall (csv : string) (self : CustomDataForecastService.t),
    CustomDataForecastService.model
      (snd (CustomDataForecastService.validate_and_process_csv csv self))
    = CustomDataForecastService.model self.
Proof.
  intros csv self. unfold CustomDataForecastService.validate_and_process_csv.
  destruct (read_csv csv) as [df | e]; [ | reflexivity ].
  destruct (shape1 df <? 2)%nat; [ reflexivity | ].
  destruct (shape0 df <? 10)%nat; [ reflexivity | ].
  destruct (CustomDataForecastService.infer_columns df) as [[dc vc] | e];
    [ | reflexivity ].
  destruct (CustomDataForecastService.clean df dc vc) as [[ | | d] | e];
    try reflexivity.
  destruct (List.length d <? 10)%nat; [ reflexivity | ].
  destruct (CustomDataForecastService.build_info d dc vc); reflexivity.
Qed.

Lemma insert_by_sorted {A : Type} (key : A -> Z) :
  forall (x : A) (l : list A),
    adjacent Z.le (map key l) -> adjacent Z.le (map key (insert_by key x l)).
Proof.
  intros x l. induction l as [ | y rest IH ]; intros Hsorted; [ exact I | ].
  cbn [insert_by]. destruct (key x <=? key y) eqn:Hle.
  - apply Z.leb_le in Hle. cbn [map]. split; [ exact Hle | exact Hsorted ].
  - apply Z.leb_gt in Hle. cbn [map].
    destruct rest as [ | z rest' ].
    + cbn. split; [ lia | exact I ].
    + cbn [map] in Hsorted. destruct Hsorted as [Hyz Hrest].
      specialize (IH Hrest). cbn [insert_by] in *.
      destruct (key x <=? key z); cbn [map] in *; (split; [ lia | exact IH ]).
Qed.

Lemma sort_by_sorted {A : Type} (key : A -> Z) :
  forall l : list A, adjacent Z.le (map key (sort_by key l)).
Proof.
  induction l as [ | x rest IH ]; [ exact I | ].
  cbn [sort_by fold_right]. fold (sort_by key rest).
  apply insert_by_sorted. exact IH.
Qed.

(** What a successful validation stores: a series of ten rows or more
    in time order, and the summary it answers with. *)
Theorem validated_series_sorted `{Libraries} :
  forall (csv : string) (self self' : CustomDataForecastService.t)
         (response : CustomDataForecastService.ValidateResponse),
    CustomDataForecastService.validate_and_process_csv csv self = (response, self') ->
    CustomDataForecastService.v_success response = true ->
    exists (d : Series float) (i : CustomDataForecastService.DataInfo),
      CustomDataForecastService.data self' = Some d
      /\ CustomDataForecastService.info self' = Some i
      /\ CustomDataForecastService.v_data_info response = Some i
      /\ CustomDataForecastService.data_points i = List.length d
      /\ (10 <= List.length d)%nat
      /\ adjacent Z.le (index d).
Proof.
  intros csv self self' response.
  unfold CustomDataForecastService.validate_and_process_csv.
  destruct (read_csv csv) as [df | e];
    [ | intros Hrun; inversion Hrun; subst; discriminate ].
  destruct (shape1 df <? 2)%nat;
    [ intros Hrun; inversion Hrun; subst; discriminate | ].
  destruct (shape0 df <? 10)%nat;
    [ intros Hrun; inversion Hrun; subst; discriminate | ].
  destruct (CustomDataForecastService.infer_columns df) as [[dc vc] | e];
    [ | intros Hrun; inversion Hrun; subst; discriminate ].
  destruct (CustomDataForecastService.clean df dc vc) as [[ | | d] | e] eqn:Hclean;
    try (intros Hrun; inversion Hrun; subst; discriminate).
  destruct (List.length d <? 10)%nat eqn:Hlen;
    [ intros Hrun; inversion Hrun; subst; discriminate | ].
  apply Nat.ltb_ge in Hlen.
  destruct (CustomDataForecastService.build_info d dc vc) as [i | e] eqn:Hinfo;
    [ | intros Hrun; inversion Hrun; subst; discriminate ].
  intros Hrun _. inversion Hrun; subst response self'. clear Hrun.
  exists d, i. cbn.
  assert (Hpoints : CustomDataForecastService.data_points i = List.length d).
  { unfold CustomDataForecastService.build_info in Hinfo.
    destruct (py_index (index d) 0); [ | discriminate ].
    destruct (py_last (index d)); [ | discriminate ].
    cbn [bind] in Hinfo. inversion Hinfo. reflexivity. }
  assert (Hsorted : adjacent Z.le (index d)).
  { unfold CustomDataForecastService.clean in Hclean.
    destruct (c <- get_col df dc ;; to_datetime c) as [ds | ]; [ | discriminate ].
    destruct (c <- get_col _ vc ;; to_numeric c) as [vs | ]; [ | discriminate ].
    destruct (select_date_value _) as [rows | ]; [ | discriminate ].
    cbn [bind] in Hclean. inversion Hclean.
    unfold sort_index, index. apply sort_by_sorted. }
  repeat split; assumption.
Qed.

(** Ten daily rows. *)
Lemma validated_series_sorted_witness :
  let L := Reference.libraries (Ok Reference.daily_csv) true true in
  let run :=
    CustomDataForecastService.validate_and_process_csv "Date,Sales"
      CustomDataForecastService.init in
  exists (d : Series float) (i : CustomDataForecastService.DataInfo),
    CustomDataForecastService.data (snd run) = Some d
    /\ CustomDataForecastService.info (snd run) = Some i
    /\ CustomDataForecastService.v_data_info (fst run) = Some i
    /\ CustomDataForecastService.data_points i = List.length d
    /\ (10 <= List.length d)%nat
    /\ adjacent Z.le (index d).
Proof.
  intros L run.
  apply (@validated_series_sorted L "Date,Sales" CustomDataForecastService.init
           (snd run) (fst run)); reflexivity.
Defined.

(** C8.  For an upload that parses to the frame [df], validation
    answers [success = false] with an error and leaves the service as it
    was (no series stored, nothing fitted) when [df] has fewer than two
    columns, when it has fewer than ten rows, and when fewer than ten
    rows are left after conversion, [dropna] and sorting. *)
Theorem upload_validation_rejects `{Libraries} :
  forall (csv : string) (self : CustomDataForecastService.t) (df : DataFrame float),
    read_csv csv = Ok df ->
    ((shape1 df < 2)%nat ->
     CustomDataForecastService.validate_and_process_csv csv self
     = (CustomDataForecastService.rejected
          "Le fichier CSV doit contenir au moins 2 colonnes (Date, Valeur)", self))
    /\ ((shape0 df < 10)%nat ->
        exists msg : string,
          CustomDataForecastService.validate_and_process_csv csv self
          = (CustomDataForecastService.rejected msg, self)
          /\ ((2 <= shape1 df)%nat ->
              msg = "Le fichier CSV doit contenir au moins 10 lignes de données"))
    /\ (forall (date_col value_col : string) (rows : Series float),
          (2 <= shape1 df)%nat ->
          (10 <= shape0 df)%nat ->
          CustomDataForecastService.infer_columns df = Ok (date_col, value_col) ->
          CustomDataForecastService.clean df date_col value_col
          = Ok (CustomDataForecastService.Rows rows) ->
          (List.length rows < 10)%nat ->
          CustomDataForecastService.validate_and_process_csv csv self
          = (CustomDataForecastService.rejected
               "Pas assez de données valides après nettoyage (minimum 10 points)",
             self)).
Proof.
  intros csv self df Hread.
  unfold CustomDataForecastService.validate_and_process_csv. rewrite Hread.
  split; [ | split ].
  - intros Hcols. apply Nat.ltb_lt in Hcols. rewrite Hcols. reflexivity.
  - intros Hrows. apply Nat.ltb_lt in Hrows.
    destruct (shape1 df <? 2)%nat eqn:Hcols.
    + eexists. split; [ reflexivity | ].
      intros Hge. apply Nat.ltb_lt in Hcols. lia.
    + rewrite Hrows. eexists. split; reflexivity.
  - intros dc vc rows Hcols Hrows Hinfer Hclean Hfew.
    apply Nat.ltb_ge in Hcols. apply Nat.ltb_ge in Hrows.
    apply Nat.ltb_lt in Hfew.
    rewrite Hcols, Hrows, Hinfer, Hclean, Hfew. reflexivity.
Qed.

(** An upload of eight rows, and one of ten rows that loses three to
    missing cells. *)
Lemma upload_validation_rejects_witness :
  (let L := Reference.libraries (Ok Reference.short_csv) true true in
   CustomDataForecastService.validate_and_process_csv "Date,Sales"
     (CustomDataForecastService.init)
   = (CustomDataForecastService.rejected
        "Le fichier CSV doit contenir au moins 10 lignes de données",
      CustomDataForecastService.init))
  /\ (let L := Reference.libraries (Ok Reference.holed_csv) true true in
      CustomDataForecastService.validate_and_process_csv "Date,Sales"
        (CustomDataForecastService.init)
      = (CustomDataForecastService.rejected
           "Pas assez de données valides après nettoyage (minimum 10 points)",
         CustomDataForecastService.init)).
Proof.
  split.
  - intro L.
    destruct (@upload_validation_rejects L "Date,Sales"
                (CustomDataForecastService.init) Reference.short_csv eq_refl)
      as (_ & Hrows & _).
    destruct Hrows as (msg & Hrun & Hmsg); [ cbn; lia | ].
    rewrite Hrun, Hmsg; [ reflexivity | cbn; lia ].
  - intro L.
    destruct (@upload_validation_rejects L "Date,Sales"
                (CustomDataForecastService.init) Reference.holed_csv eq_refl)
      as (_ & _ & Hclean).
    eapply Hclean;
      [ cbn; lia | cbn; lia | reflexivity | reflexivity
      | apply Nat.ltb_lt; reflexivity ].
Defined.

(** ** Frequency inference *)

Lemma diffs_length :
  forall idx : list Timestamp, List.length (diffs idx) = (List.length idx - 1)%nat.
Proof.
  induction idx as [ | a [ | b rest] IH ]; [ reflexivity | reflexivity | ].
  change (diffs (a :: b :: rest)) with ((b - a) :: diffs (b :: rest)).
  cbn [List.length] in *. rewrite IH. lia.
Qed.

Lemma insert_by_length {A : Type} (key : A -> Z) :
  forall (x : A) (l : list A),
    List.length (insert_by key x l) = S (List.length l).
Proof.
  intros x l. induction l as [ | y rest IH ]; [ reflexivity | ].
  cbn [insert_by]. destruct (key x <=? key y); cbn [List.length]; congruence.
Qed.

Lemma sort_by_length {A : Type} (key : A -> Z) :
  forall l : list A, List.length (sort_by key l) = List.length l.
Proof.
  induction l as [ | x rest IH ]; [ reflexivity | ].
  cbn [sort_by fold_right]. fold (sort_by key rest).
  rewrite insert_by_length, IH. reflexivity.
Qed.

(** With one gap or more the median is a number of days. *)
Lemma median_days_defined :
  forall gaps : list Z,
    gaps <> [] -> exists days : Z, median_days gaps = Some days.
Proof.
  intros gaps Hne. unfold median_days.
  destruct (List.length (sort_Z gaps)) eqn:Hlen.
  - unfold sort_Z in Hlen. rewrite sort_by_length in Hlen.
    destruct gaps; [ congruence | discriminate ].
  - destruct (Nat.odd (S n)); eexists; reflexivity.
Qed.

Lemma classify_gap_thresholds :
  forall days : Z,
    (days <= 1 -> classify_gap (Some days) = "D")
    /\ (1 < days <= 7 -> classify_gap (Some days) = "W")
    /\ (7 < days <= 31 -> classify_gap (Some days) = "MS")
    /\ (31 < days -> classify_gap (Some days) = "YS").
Proof.
  intros days. unfold classify_gap.
  destruct (days <=? 1) eqn:E1; [ apply Z.leb_le in E1 | apply Z.leb_gt in E1 ];
    destruct (days <=? 7) eqn:E7; [ apply Z.leb_le in E7 | apply Z.leb_gt in E7
                                  | apply Z.leb_le in E7 | apply Z.leb_gt in E7 ];
    destruct (days <=? 31) eqn:E31;
    try apply Z.leb_le in E31; try apply Z.leb_gt in E31;
    repeat split; intros; try reflexivity; lia.
Qed.

(** On an index of three timestamps or more frequency inference always
    answers: with the alias [pd.infer_freq] reads off an exact regular
    spacing when there is one, and otherwise with the class of the whole
    days [m] of the median gap: "D" for [m <= 1], "W" for [m <= 7], "MS"
    for [m <= 31], "YS" beyond. *)
Lemma determine_freq_answers `{Libraries} :
  forall idx : list Timestamp,
    (3 <= List.length idx)%nat ->
    exists freq : string,
      CustomDataForecastService.determine_freq idx = Ok freq
      /\ (forall exact : string, infer_freq idx = Some exact -> freq = exact)
      /\ (infer_freq idx = None ->
          exists days : Z,
            median_days (diffs idx) = Some days
            /\ (days <= 1 -> freq = "D")
            /\ (1 < days <= 7 -> freq = "W")
            /\ (7 < days <= 31 -> freq = "MS")
            /\ (31 < days -> freq = "YS")).
Proof.
  intros idx Hlen.
  unfold CustomDataForecastService.determine_freq, pd_infer_freq.
  assert (Hlt : (List.length idx <? 3)%nat = false) by (apply Nat.ltb_ge; lia).
  rewrite Hlt. cbn [bind].
  destruct (infer_freq idx) as [exact | ] eqn:Hexact.
  - exists exact. split; [ reflexivity | ]. split; [ | discriminate ].
    intros f Hf. congruence.
  - destruct (median_days_defined (diffs idx)) as [days Hdays].
    { intros Hnil. apply (f_equal (@List.length Z)) in Hnil.
      rewrite diffs_length in Hnil. cbn in Hnil. lia. }
    exists (classify_gap (Some days)). rewrite Hdays.
    split; [ reflexivity | ]. split; [ discriminate | ].
    intros _. exists days. split; [ reflexivity | ].
    apply classify_gap_thresholds.
Qed.

(** C3.  Frequency inference does not always answer.  On three
    timestamps or more it does, as the claim says: the alias of an exact
    regular spacing when [pd.infer_freq] finds one, and the class of the
    median gap otherwise.  On fewer than three, [pd.infer_freq] raises
    before the median is looked at; the fallback never runs, and a
    forecast on such a series fails with the service left as it was.
    The service gets there by itself: a forecast stores the re-indexed
    series, which can be as short as two rows. *)
Theorem frequency_inference_fails_below_three `{Libraries} :
  forall idx : list Timestamp,
    ((3 <= List.length idx)%nat ->
     exists freq : string,
       CustomDataForecastService.determine_freq idx = Ok freq
       /\ (forall exact : string, infer_freq idx = Some exact -> freq = exact)
       /\ (infer_freq idx = None ->
           exists days : Z,
             median_days (diffs idx) = Some days
             /\ (days <= 1 -> freq = "D")
             /\ (1 < days <= 7 -> freq = "W")
             /\ (7 < days <= 31 -> freq = "MS")
             /\ (31 < days -> freq = "YS")))
    /\ ((List.length idx < 3)%nat ->
        CustomDataForecastService.determine_freq idx
        = Raise (mkExn ValueError "Need at least 3 dates to infer frequency")
        /\ forall (steps : Z) (self : CustomDataForecastService.t)
                  (d : Series float),
             CustomDataForecastService.data self = Some d ->
             index d = idx ->
             CustomDataForecastService.train_model_and_predict steps self
             = (CustomDataForecastService.failed
                  "Erreur lors de la prédiction: Need at least 3 dates to infer frequency",
                self)).
Proof.
  intros idx. split; [ apply determine_freq_answers | ].
  intros Hshort.
  assert (Hlt : (List.length idx <? 3)%nat = true) by (apply Nat.ltb_lt; exact Hshort).
  assert (Hraise : CustomDataForecastService.determine_freq idx
                   = Raise (mkExn ValueError
                              "Need at least 3 dates to infer frequency")).
  { unfold CustomDataForecastService.determine_freq, pd_infer_freq.
    rewrite Hlt. reflexivity. }
  split; [ exact Hraise | ].
  intros steps self d Hdata Hidx.
  unfold CustomDataForecastService.train_model_and_predict.
  rewrite Hdata, Hidx, Hraise. reflexivity.
Qed.

(** The sparse upload is accepted with ten rows; a first forecast
    succeeds and leaves the two year starts of its range; on those the
    second forecast fails in frequency inference. *)
Lemma frequency_inference_fails_below_three_witness :
  let L := Reference.libraries (Ok Reference.sparse_csv) true true in
  let two_rows : Series float :=
    [(days_from_civil 2021 1 1, 12); (days_from_civil 2022 1 1, 15)] in
  (option_map (@List.length (Timestamp * float))
     (CustomDataForecastService.data (Reference.uploaded L)) = Some 10%nat
   /\ success (fst (CustomDataForecastService.train_model_and_predict 5
                      (Reference.uploaded L))) = true
   /\ CustomDataForecastService.data (Reference.forecast_once L) = Some two_rows)
  /\ CustomDataForecastService.determine_freq (index two_rows)
     = Raise (mkExn ValueError "Need at least 3 dates to infer frequency")
  /\ CustomDataForecastService.train_model_and_predict 5 (Reference.forecast_once L)
     = (CustomDataForecastService.failed
          "Erreur lors de la prédiction: Need at least 3 dates to infer frequency",
        Reference.forecast_once L).
Proof.
  intros L two_rows. split; [ repeat split | ].
  destruct (@frequency_inference_fails_below_three L (index two_rows))
    as [_ Hshort].
  destruct Hshort as [Hraise Htrain]; [ cbn; lia | ].
  split; [ exact Hraise | ].
  apply (Htrain 5 (Reference.forecast_once L) two_rows); reflexivity.
Defined.

(** ** What a successful forecast of the upload service is made of *)

Lemma train_success_inv `{Libraries} :
  forall (steps : Z) (self self' : CustomDataForecastService.t)
         (r : CustomDataForecastService.Response),
    CustomDataForecastService.train_model_and_predict steps self = (r, self') ->
    success r = true ->
    exists (d d' : Series float) (freq : string) (m : FittedModel)
           (vals : list float) (ci : list (float * float))
           (last_date : Timestamp) (future : list Timestamp),
      CustomDataForecastService.data self = Some d
      /\ CustomDataForecastService.determine_freq (index d) = Ok freq
      /\ asfreq d freq = Ok d'
      /\ SARIMAX_fit (CustomDataForecastService.select_spec
                        (Z.of_nat (List.length d'))) d' = Ok m
      /\ forecast m steps = Ok vals
      /\ conf_int m steps = Ok ci
      /\ py_last (index d') = Ok last_date
      /\ CustomDataForecastService.future_dates freq last_date steps = Ok future
      /\ predictions r
         = Some (mkPredictions (map strftime_ymd future) vals
                               (map fst ci) (map snd ci))
      /\ historical_data r
         = Some (mkHistorical (map strftime_ymd (index d')) (column_values d'))
      /\ option_map CustomDataForecastService.frequency (model_info r) = Some freq
      /\ self' = CustomDataForecastService.mk (Some d') (Some m)
                   (CustomDataForecastService.info self).
Proof.
  intros steps self self' r.
  unfold CustomDataForecastService.train_model_and_predict.
  destruct (CustomDataForecastService.data self) as [d | ] eqn:Hdata;
    [ | intros Hrun; inversion Hrun; subst; discriminate ].
  destruct (CustomDataForecastService.determine_freq (index d)) as [freq | e]
    eqn:Hfreq;
    [ | intros Hrun; inversion Hrun; subst; discriminate ].
  cbn [bind].
  destruct (asfreq d freq) as [d' | e] eqn:Hre;
    [ | intros Hrun; inversion Hrun; subst; discriminate ].
  cbn [bind].
  destruct (SARIMAX_fit _ d') as [m | e] eqn:Hfit;
    [ | intros Hrun; inversion Hrun; subst; discriminate ].
  unfold CustomDataForecastService.predict_fitted.
  destruct (forecast m steps) as [vals | e] eqn:Hvals;
    [ | intros Hrun; inversion Hrun; subst; discriminate ].
  destruct (conf_int m steps) as [ci | e] eqn:Hci;
    [ | intros Hrun; inversion Hrun; subst; discriminate ].
  destruct (py_last (index d')) as [last_date | e] eqn:Hlast;
    [ | intros Hrun; inversion Hrun; subst; discriminate ].
  cbn [bind].
  destruct (CustomDataForecastService.future_dates freq last_date steps)
    as [future | e] eqn:Hfuture;
    [ | intros Hrun; inversion Hrun; subst; discriminate ].
  cbn [bind]. intros Hrun _. inversion Hrun; subst r self'.
  exists d, d', freq, m, vals, ci, last_date, future.
  repeat split; assumption.
Qed.

(** ** The upload facade: a fit that fails *)

(** C10.  [train_model_and_predict] stores the re-indexed, forward
    filled series before it fits: when the fit raises, the call answers
    [success = false] with the solver's message, and the service keeps
    the re-indexed series [d'], not the series [d] it held before. *)
Theorem failed_fit_keeps_reindexed_series `{Libraries} :
  forall (self : CustomDataForecastService.t) (steps : Z)
         (d d' : Series float) (freq : string) (e : exn),
    CustomDataForecastService.data self = Some d ->
    CustomDataForecastService.determine_freq (index d) = Ok freq ->
    asfreq d freq = Ok d' ->
    SARIMAX_fit (CustomDataForecastService.select_spec (Z.of_nat (List.length d'))) d'
    = Raise e ->
    CustomDataForecastService.train_model_and_predict steps self
    = (CustomDataForecastService.failed
         ("Erreur lors de l'entraînement du modèle: " ++ exn_msg e),
       CustomDataForecastService.mk (Some d')
         (CustomDataForecastService.model self)
         (CustomDataForecastService.info self)).
Proof.
  intros self steps d d' freq e Hdata Hfreq Hre Hfit.
  unfold CustomDataForecastService.train_model_and_predict.
  rewrite Hdata, Hfreq. cbn [bind]. rewrite Hre. cbn [bind]. rewrite Hfit.
  reflexivity.
Qed.

(** The sparse upload, with a solver that does not converge: ten rows
    before the call, the two year starts of the range after it. *)
Lemma failed_fit_keeps_reindexed_series_witness :
  let L := Reference.libraries (Ok Reference.sparse_csv) false true in
  option_map (@List.length _)
    (CustomDataForecastService.data (Reference.uploaded L)) = Some 10%nat
  /\ CustomDataForecastService.train_model_and_predict 5 (Reference.uploaded L)
     = (CustomDataForecastService.failed
          "Erreur lors de l'entraînement du modèle: LU decomposition error.",
        CustomDataForecastService.mk
          (Some [(days_from_civil 2021 1 1, 12); (days_from_civil 2022 1 1, 15)])
          None
          (CustomDataForecastService.info (Reference.uploaded L))).
Proof.
  intro L. split; [ reflexivity | ].
  refine (@failed_fit_keeps_reindexed_series L (Reference.uploaded L) 5
            _ _ "YS" (mkExn OtherError "LU decomposition error.") _ _ _ _);
    reflexivity.
Defined.

(** The model a forecast stores is the fit of the selected
    specification on the re-indexed series. *)
Theorem stored_model_is_selected_fit `{Libraries} :
  forall (self : CustomDataForecastService.t) (steps : Z)
         (d d' : Series float) (freq : string) (m : FittedModel),
    CustomDataForecastService.data self = Some d ->
    CustomDataForecastService.determine_freq (index d) = Ok freq ->
    asfreq d freq = Ok d' ->
    SARIMAX_fit (CustomDataForecastService.select_spec (Z.of_nat (List.length d'))) d'
    = Ok m ->
    snd (CustomDataForecastService.train_model_and_predict steps self)
    = CustomDataForecastService.mk (Some d') (Some m)
        (CustomDataForecastService.info self).
Proof.
  intros self steps d d' freq m Hdata Hfreq Hre Hfit.
  unfold CustomDataForecastService.train_model_and_predict.
  rewrite Hdata, Hfreq. cbn [bind]. rewrite Hre. cbn [bind]. rewrite Hfit.
  destruct (CustomDataForecastService.predict_fitted _ d' freq m steps);
    reflexivity.
Qed.

(** The daily upload: fewer than 24 rows, so no seasonal component. *)
Lemma stored_model_is_selected_fit_witness :
  let L := Reference.libraries (Ok Reference.daily_csv) true true in
  let self := Reference.uploaded L in
  let d : Series float := Reference.daily_series in
  CustomDataForecastService.data self = Some d
  /\ CustomDataForecastService.select_spec (Z.of_nat (List.length d))
     = mkSpec (1, 1, 1) None
  /\ snd (CustomDataForecastService.train_model_and_predict 3 self)
     = CustomDataForecastService.mk (Some d) (Some d)
         (CustomDataForecastService.info self).
Proof.
  intros L self d. split; [ reflexivity | ]. split; [ reflexivity | ].
  refine (@stored_model_is_selected_fit L self 3 d d "D" d _ _ _ _);
    vm_compute; reflexivity.
Defined.

(** ** Future dates *)

(** Any alias other than "D", "W" and "MS" takes the yearly branch. *)
Lemma future_dates_unlisted_alias `{Libraries} :
  forall (freq : string) (last_date : Timestamp) (steps : Z),
    freq <> "D" -> freq <> "W" -> freq <> "MS" ->
    CustomDataForecastService.future_dates freq last_date steps
    = date_range_periods (add_years last_date 1) steps freq.
Proof.
  intros freq last_date steps HD HW HMS.
  unfold CustomDataForecastService.future_dates.
  apply String.eqb_neq in HD, HW, HMS. rewrite HD, HW, HMS. reflexivity.
Qed.

Lemma future_dates_length `{Libraries} :
  forall (freq : string) (last_date : Timestamp) (steps : Z)
         (future : list Timestamp),
    CustomDataForecastService.future_dates freq last_date steps = Ok future ->
    List.length future = Z.to_nat steps.
Proof.
  intros freq last_date steps future.
  assert (Hlen : forall start,
             date_range_periods start steps freq = Ok future ->
             List.length future = Z.to_nat steps).
  { intros start. unfold date_range_periods.
    destruct (to_offset freq) as [o | e]; [ | discriminate ]. cbn [bind].
    destruct (steps <? 0); [ discriminate | ].
    intros Hok. inversion Hok. apply step_from_length. }
  unfold CustomDataForecastService.future_dates.
  destruct (freq =? "D")%string; [ apply Hlen | ].
  destruct (freq =? "W")%string; [ apply Hlen | ].
  destruct (freq =? "MS")%string; apply Hlen.
Qed.

(** In the yearly branch every date generated is 365 days or more
    after the last timestamp. *)
Lemma unlisted_alias_skips_a_year `{Libraries} :
  forall (freq : string) (o : Offset) (last_date : Timestamp) (steps : Z)
         (future : list Timestamp),
    freq <> "D" -> freq <> "W" -> freq <> "MS" ->
    to_offset freq = Ok o ->
    CustomDataForecastService.future_dates freq last_date steps = Ok future ->
    Forall (fun t => last_date + 365 <= t) future.
Proof.
  intros freq o last_date steps future HD HW HMS Ho.
  rewrite (future_dates_unlisted_alias freq last_date steps HD HW HMS).
  unfold date_range_periods. rewrite Ho. cbn [bind].
  destruct (steps <? 0); [ discriminate | ].
  intros Hok. inversion Hok.
  pose proof (to_offset_anchored freq o Ho) as Hwd.
  pose proof (add_years_later last_date) as Hyear.
  assert (Hroll : add_years last_date 1 <= rollforward o (add_years last_date 1)).
  { apply rollforward_not_before. exact Hwd. }
  eapply Forall_impl; [ | apply generate_not_before; exact Hwd ].
  cbv beta. intros t Ht. lia.
Qed.

(** C1, at weekly uploads.  [pd.infer_freq] names an exactly weekly
    index by its anchor ("W-SUN", "W-MON", ...), never "W".  Whenever a
    successful forecast ran at such a frequency, every forecast date is
    365 days or more after the last timestamp of the stored series: the
    forecast does not start one week after the history, it leaves a gap
    of a year. *)
Theorem weekly_forecast_dated_a_year_late `{Libraries} :
  forall (steps : Z) (self self' : CustomDataForecastService.t)
         (r : CustomDataForecastService.Response) (freq : string) (anchor : Z),
    CustomDataForecastService.train_model_and_predict steps self = (r, self') ->
    success r = true ->
    option_map CustomDataForecastService.frequency (model_info r) = Some freq ->
    to_offset freq = Ok (Week anchor) ->
    freq <> "W" ->
    exists (history future : list Timestamp) (last_date : Timestamp)
           (p : Predictions float),
      option_map index (CustomDataForecastService.data self') = Some history
      /\ py_last history = Ok last_date
      /\ predictions r = Some p
      /\ dates p = map strftime_ymd future
      /\ List.length future = Z.to_nat steps
      /\ Forall (fun t => last_date + 365 <= t) future.
Proof.
  intros steps self self' r freq anchor Hrun Hok Hfreq Ho HW.
  destruct (train_success_inv steps self self' r Hrun Hok)
    as (d & d' & freq' & m & vals & ci & last_date & future & Hdata & Hdet & Hre
        & Hfit & Hvals & Hci & Hlast & Hfuture & Hp & Hh & Hfreq' & Hself).
  assert (freq' = freq) by congruence. subst freq'.
  exists (index d'), future, last_date,
         (mkPredictions (map strftime_ymd future) vals (map fst ci) (map snd ci)).
  split; [ subst self'; reflexivity | ].
  split; [ exact Hlast | ].
  split; [ exact Hp | ].
  split; [ reflexivity | ].
  split; [ exact (future_dates_length freq last_date steps future Hfuture) | ].
  apply (unlisted_alias_skips_a_year freq (Week anchor) last_date steps future);
    try assumption.
  - intros E. subst freq. discriminate.
  - intros E. subst freq. discriminate.
Qed.

(** Ten Sundays, 2023-01-01 to 2023-03-05, read as "W-SUN": the three
    forecast dates are 2024-03-10, 2024-03-17 and 2024-03-24, where one
    week after the last observation is 2023-03-12. *)
Lemma weekly_forecast_dated_a_year_late_witness :
  let L := Reference.libraries (Ok Reference.weekly_csv) true true in
  let run :=
    CustomDataForecastService.train_model_and_predict 3 (Reference.uploaded L) in
  (option_map hist_dates (historical_data (fst run))
   = Some ["2023-01-01"; "2023-01-08"; "2023-01-15"; "2023-01-22"; "2023-01-29";
           "2023-02-05"; "2023-02-12"; "2023-02-19"; "2023-02-26"; "2023-03-05"]
   /\ option_map CustomDataForecastService.frequency (model_info (fst run))
      = Some "W-SUN"
   /\ option_map dates (predictions (fst run))
      = Some ["2024-03-10"; "2024-03-17"; "2024-03-24"]
   /\ strftime_ymd (days_from_civil 2023 3 5 + 7) = "2023-03-12")
  /\ exists (history future : list Timestamp) (last_date : Timestamp)
            (p : Predictions float),
       option_map index (CustomDataForecastService.data (snd run)) = Some history
       /\ py_last history = Ok last_date
       /\ predictions (fst run) = Some p
       /\ dates p = map strftime_ymd future
       /\ List.length future = Z.to_nat 3
       /\ Forall (fun t => last_date + 365 <= t) future.
Proof.
  intros L run. split; [ repeat split | ].
  apply (@weekly_forecast_dated_a_year_late L 3 (Reference.uploaded L) (snd run)
           (fst run) "W-SUN" 6).
  - reflexivity.
  - reflexivity.
  - reflexivity.
  - reflexivity.
  - discriminate.
Defined.

(** ** Forecast dates for the four frequencies of the heuristic *)

Lemma heuristic_offsets `{Libraries} :
  forall freq : string,
    In freq ["D"; "W"; "MS"; "YS"] ->
    exists o : Offset,
      to_offset freq = Ok o /\ anchored o
      /\ forall t : Timestamp,
           on_offset o t = true -> next_on o t = one_unit_later freq t.
Proof.
  intros freq [E | [E | [E | [E | []]]]]; subst freq.
  - exists Day. repeat split.
  - exists (Week 6). split; [ reflexivity | ]. split; [ cbn; lia | ].
    intros t Hon. apply next_week_is_seven_days. exact Hon.
  - exists MonthBegin. split; [ reflexivity | ]. split; [ exact I | ].
    intros t Hon. apply next_month_is_one_month. exact Hon.
  - exists YearBegin. split; [ reflexivity | ]. split; [ exact I | ].
    intros t Hon. apply next_year_is_one_year. exact Hon.
Qed.

(** From a last timestamp on the calendar, the dates generated are the
    calendar dates that follow it. *)
Lemma future_dates_heuristic `{Libraries} :
  forall (freq : string) (o : Offset) (last_date : Timestamp) (steps : Z)
         (future : list Timestamp),
    In freq ["D"; "W"; "MS"; "YS"] ->
    to_offset freq = Ok o ->
    on_offset o last_date = true ->
    CustomDataForecastService.future_dates freq last_date steps = Ok future ->
    future = generate o (next_on o last_date) (Z.to_nat steps).
Proof.
  intros freq o last_date steps future Hin Ho Hon.
  destruct (heuristic_offsets freq Hin) as (o' & Ho' & Hwd & Hunit).
  assert (o' = o) by congruence. subst o'.
  assert (Hstart : CustomDataForecastService.future_dates freq last_date steps
                   = date_range_periods (one_unit_later freq last_date) steps freq).
  { unfold CustomDataForecastService.future_dates, one_unit_later.
    destruct (freq =? "D")%string; [ reflexivity | ].
    destruct (freq =? "W")%string; [ reflexivity | ].
    destruct (freq =? "MS")%string; reflexivity. }
  rewrite Hstart, <- (Hunit last_date Hon).
  unfold date_range_periods. rewrite Ho. cbn [bind].
  destruct (steps <? 0); [ discriminate | ].
  unfold rollforward. rewrite (next_on_calendar o last_date Hwd).
  intros Hok. inversion Hok. reflexivity.
Qed.

(** ** Forecast dates continue the history *)

(** When the frequency of a successful forecast is one of the four the
    median heuristic names ("D", "W", "MS", "YS"), the forecast dates
    are [steps] dates that continue the calendar of the stored, regular
    series: history followed by forecast lies on the calendar of the
    frequency, each date the calendar date after the one before, and
    the first forecast date is one day, one week, one month or one year
    after the last timestamp of the history. *)
Theorem heuristic_forecast_continues_history `{Libraries} :
  forall (steps : Z) (self self' : CustomDataForecastService.t)
         (r : CustomDataForecastService.Response) (freq : string),
    CustomDataForecastService.train_model_and_predict steps self = (r, self') ->
    success r = true ->
    option_map CustomDataForecastService.frequency (model_info r) = Some freq ->
    In freq ["D"; "W"; "MS"; "YS"] ->
    exists (o : Offset) (history future : list Timestamp) (p : Predictions float),
      to_offset freq = Ok o
      /\ option_map index (CustomDataForecastService.data self') = Some history
      /\ predictions r = Some p
      /\ dates p = map strftime_ymd future
      /\ List.length future = Z.to_nat steps
      /\ on_calendar o (history ++ future)%list
      /\ adjacent (follows o) (history ++ future)%list
      /\ (forall last_date : Timestamp,
            py_last history = Ok last_date -> 1 <= steps ->
            hd_error future = Some (one_unit_later freq last_date)).
Proof.
  intros steps self self' r freq Hrun Hok Hfreq Hin.
  destruct (train_success_inv steps self self' r Hrun Hok)
    as (d & d' & freq' & m & vals & ci & last_date & future & Hdata & Hdet & Hre
        & Hfit & Hvals & Hci & Hlast & Hfuture & Hp & Hh & Hfreq' & Hself).
  assert (freq' = freq) by congruence. subst freq'.
  destruct (heuristic_offsets freq Hin) as (o & Ho & Hwd & Hunit).
  destruct (asfreq_on_calendar d d' freq o Ho Hre) as (Hon & Hadj & _).
  destruct (py_last_inv (index d') last_date Hlast) as [front Hfront].
  assert (Hlast_on : on_offset o last_date = true).
  { unfold on_calendar in Hon. rewrite Forall_forall in Hon. apply Hon.
    rewrite Hfront. apply in_or_app. right. left. reflexivity. }
  pose proof (future_dates_heuristic freq o last_date steps future Hin Ho
                Hlast_on Hfuture) as Hgen.
  destruct (generate_on_calendar o (Z.to_nat steps) (next_on o last_date) Hwd
              (next_on_calendar o last_date Hwd)) as [Hfon Hfadj].
  rewrite <- Hgen in Hfon, Hfadj.
  exists o, (index d'), future, (mkPredictions (map strftime_ymd future) vals
                                               (map fst ci) (map snd ci)).
  split; [ exact Ho | ].
  split; [ subst self'; reflexivity | ].
  split; [ exact Hp | ].
  split; [ reflexivity | ].
  split; [ exact (future_dates_length freq last_date steps future Hfuture) | ].
  split; [ apply Forall_app; split; assumption | ].
  split.
  - rewrite Hfront in *. apply adjacent_app; [ exact Hadj | ].
    destruct future as [ | f rest ]; [ exact I | ].
    split; [ | exact Hfadj ].
    assert (Hf : f = next_on o last_date).
    { destruct (Z.to_nat steps); cbn in Hgen; [ discriminate | ].
      inversion Hgen. reflexivity. }
    subst f. split; [ reflexivity | apply next_on_later; exact Hwd ].
  - intros last' Hlast' Hsteps.
    assert (last' = last_date) by congruence. subst last'.
    rewrite Hgen, <- (Hunit last_date Hlast_on).
    destruct (Z.to_nat steps) eqn:Hn; [ lia | reflexivity ].
Qed.

(** Ten irregular observations: the heuristic answers "YS", the series
    is re-indexed on 2021-01-01 and 2022-01-01, and the three forecast
    dates are the three year starts that follow. *)
Lemma heuristic_forecast_continues_history_witness :
  let L := Reference.libraries (Ok Reference.sparse_csv) true true in
  let run :=
    CustomDataForecastService.train_model_and_predict 3 (Reference.uploaded L) in
  exists (o : Offset) (history future : list Timestamp) (p : Predictions float),
    to_offset "YS" = Ok o
    /\ option_map index (CustomDataForecastService.data (snd run)) = Some history
    /\ predictions (fst run) = Some p
    /\ dates p = map strftime_ymd future
    /\ List.length future = Z.to_nat 3
    /\ on_calendar o (history ++ future)%list
    /\ adjacent (follows o) (history ++ future)%list
    /\ (forall last_date : Timestamp,
          py_last history = Ok last_date -> 1 <= 3 ->
          hd_error future = Some (one_unit_later "YS" last_date)).
Proof.
  intros L run.
  apply (@heuristic_forecast_continues_history L 3 (Reference.uploaded L)
           (snd run) (fst run) "YS").
  - reflexivity.
  - reflexivity.
  - reflexivity.
  - cbn. tauto.
Defined.

(** ** Lengths of a forecast *)

(** Given that statsmodels returns [n] point forecasts and [n] interval
    rows when asked for [n] steps, a successful forecast of either
    facade holds four sequences of [steps] entries. *)
Theorem forecast_lengths `{Libraries} :
  (forall (m : FittedModel) (n : Z) (vals : list float),
      forecast m n = Ok vals -> List.length vals = Z.to_nat n) ->
  (forall (m : FittedModel) (n : Z) (ci : list (float * float)),
      conf_int m n = Ok ci -> List.length ci = Z.to_nat n) ->
  forall (steps : Z) (p : Predictions float),
    ((exists (self self' : CustomDataForecastService.t)
             (r : CustomDataForecastService.Response),
         CustomDataForecastService.train_model_and_predict steps self = (r, self')
         /\ success r = true /\ predictions r = Some p)
     \/ (exists m : ARIMAModel.t, fst (ARIMAModel.predict steps m) = Ok p)) ->
    List.length (dates p) = Z.to_nat steps
    /\ List.length (values p) = Z.to_nat steps
    /\ List.length (lower_ci p) = Z.to_nat steps
    /\ List.length (upper_ci p) = Z.to_nat steps.
Proof.
  intros Hforecast Hci steps p [(self & self' & r & Hrun & Hok & Hp) | (m & Hrun)].
  - destruct (train_success_inv steps self self' r Hrun Hok)
      as (d & d' & freq & fit & vals & ci & last_date & future & _ & _ & _ & _
          & Hvals & Hrows & _ & Hfuture & Hp' & _).
    rewrite Hp in Hp'. inversion Hp'; subst p. cbn [dates values lower_ci upper_ci].
    rewrite !length_map.
    rewrite (future_dates_length freq last_date steps future Hfuture).
    rewrite (Hforecast fit steps vals Hvals), (Hci fit steps ci Hrows).
    repeat split.
  - unfold ARIMAModel.predict in Hrun. cbn [fst] in Hrun.
    destruct (ARIMAModel.model m) as [fit | ]; [ | discriminate ].
    destruct (forecast fit steps) as [vals | e] eqn:Hvals; [ | discriminate ].
    destruct (conf_int fit steps) as [ci | e] eqn:Hrows; [ | discriminate ].
    cbn [bind] in Hrun.
    destruct (match ARIMAModel.data m with
              | Some d => py_last (index d)
              | None => ARIMAModel.no_data
              end) as [last_date | e]; [ | discriminate ].
    cbn [bind] in Hrun. unfold date_range_periods in Hrun. cbn [to_offset bind] in Hrun.
    change (to_offset "MS") with (@Ok Offset MonthBegin) in Hrun. cbn [bind] in Hrun.
    destruct (steps <? 0); [ discriminate | ].
    inversion Hrun; subst p. cbn [dates values lower_ci upper_ci].
    rewrite !length_map. unfold generate. rewrite step_from_length.
    rewrite (Hforecast fit steps vals Hvals), (Hci fit steps ci Hrows).
    repeat split.
Qed.

(** The naive model of the reference libraries keeps the contract; a
    two-step forecast of the bundled model of 1960. *)
Lemma forecast_lengths_witness :
  let L := Reference.libraries (Ok Reference.daily_csv) true true in
  let m := ARIMAModel.mk (Some Reference.passengers) (Some Reference.passengers) in
  exists p : Predictions float,
    fst (ARIMAModel.predict 2 m) = Ok p
    /\ List.length (dates p) = 2%nat
    /\ List.length (values p) = 2%nat
    /\ List.length (lower_ci p) = 2%nat
    /\ List.length (upper_ci p) = 2%nat.
Proof.
  intros L m. eexists. split; [ reflexivity | ].
  refine (@forecast_lengths L _ _ 2 _ (or_intror (ex_intro _ m eq_refl))).
  - intros fit n vals. cbn. unfold Reference.naive_forecast, Reference.horizon.
    destruct (n <? 1); [ discriminate | ]. cbn [bind].
    intros Hok. inversion Hok. rewrite !length_map, length_seq. reflexivity.
  - intros fit n ci. cbn. unfold Reference.naive_conf_int, Reference.horizon.
    destruct (n <? 1); [ discriminate | ]. cbn [bind].
    intros Hok. inversion Hok. rewrite !length_map, length_seq. reflexivity.
Defined.

(** ** The bundled model: forecasting reads, never writes *)

Lemma predict_reads_only `{Libraries} :
  forall (steps : Z) (m : ARIMAModel.t), snd (ARIMAModel.predict steps m) = m.
Proof. reflexivity. Qed.

Lemma get_forecast_reads_only `{Libraries} :
  forall (steps : Z) (svc : ForecastService.t),
    snd (ForecastService.get_forecast steps svc) = svc.
Proof. intros steps [m]. reflexivity. Qed.

(** ** The bundled model: a failed load *)

Lemma failed_load_resets `{Libraries} :
  forall fs : ARIMAModel.Files,
    is_ok (ARIMAModel.trained_model_pkl fs) = false
    \/ is_ok (ARIMAModel.processed_data_pkl fs) = false ->
    ARIMAModel.init fs = ARIMAModel.mk None None.
Proof.
  intros fs Hfail. unfold ARIMAModel.init, ARIMAModel.load_model.
  destruct (ARIMAModel.trained_model_pkl fs) as [m | e]; [ | reflexivity ].
  destruct (ARIMAModel.processed_data_pkl fs) as [d | e]; [ | reflexivity ].
  destruct Hfail as [Hm | Hd]; cbn in *; discriminate.
Qed.

(** C7.  When unpickling the model or the data raises, the facade is
    built all the same, with neither model nor data; the status query
    then reports [model_loaded = false], and every forecast request,
    with or without a chart, returns [success = false] with the error
    "Modèle non chargé" and leaves the facade as it was. *)
Theorem load_failure_degrades `{Libraries} :
  forall fs : ARIMAModel.Files,
    is_ok (ARIMAModel.trained_model_pkl fs) = false
    \/ is_ok (ARIMAModel.processed_data_pkl fs) = false ->
    let svc := ForecastService.init fs in
    let not_loaded : ForecastService.Response :=
      mkResponse false (Some "Modèle non chargé") None None None None NoPlotKey in
    ForecastService.model svc = ARIMAModel.mk None None
    /\ ForecastService.model_loaded (ForecastService.get_model_status svc) = false
    /\ forall steps : Z,
         ForecastService.get_forecast steps svc = (not_loaded, svc)
         /\ ForecastService.get_forecast_with_plot steps svc = (not_loaded, svc).
Proof.
  intros fs Hfail svc not_loaded. subst svc.
  unfold ForecastService.init. rewrite (failed_load_resets fs Hfail).
  repeat split.
Qed.

(** The model file is missing; the data file is there. *)
Lemma load_failure_degrades_witness :
  let L := Reference.libraries (Ok Reference.daily_csv) true true in
  let fs := ARIMAModel.mkFiles
              (Raise (mkExn FileNotFoundError
                        "[Errno 2] No such file or directory: 'trained_model.pkl'"))
              (Ok Reference.passengers) in
  let svc := ForecastService.init fs in
  let not_loaded : ForecastService.Response :=
    mkResponse false (Some "Modèle non chargé") None None None None NoPlotKey in
  ForecastService.model svc = ARIMAModel.mk None None
  /\ ForecastService.model_loaded (ForecastService.get_model_status svc) = false
  /\ forall steps : Z,
       ForecastService.get_forecast steps svc = (not_loaded, svc)
       /\ ForecastService.get_forecast_with_plot steps svc = (not_loaded, svc).
Proof.
  intros L fs. apply (@load_failure_degrades L fs). left. reflexivity.
Defined.

(** ** Chart rendering failures *)

(** The upload path: whatever is raised while the chart is drawn,
    [generate_plot] returns the empty string. *)
Lemma custom_generate_plot_degrades `{Libraries} :
  forall (p : Predictions float) (h : Historical float),
    (forall c : Chart float, is_ok (render_png c) = false) ->
    CustomDataForecastService.generate_plot p h = "".
Proof.
  intros p h Hrender. unfold CustomDataForecastService.generate_plot.
  destruct (parse_dates (hist_dates h)) as [hist | e]; [ | reflexivity ].
  destruct (parse_dates (dates p)) as [future | e]; [ | reflexivity ].
  cbn [bind].
  match goal with |- context [render_png ?c] =>
    specialize (Hrender c); destruct (render_png c) end;
    [ discriminate | reflexivity ].
Qed.

(** The upload path of C5.  A forecast of [POST /predict-custom-data]
    whose chart cannot be drawn is still answered: the page is rendered
    with the forecast result, [success = true], and an empty image. *)
Theorem upload_chart_failure_degrades `{Libraries} :
  forall (steps : Z) (svc svc' : CustomDataForecastService.t)
         (result : CustomDataForecastService.Response),
    1 <= steps <= 100 ->
    CustomDataForecastService.train_model_and_predict steps svc = (result, svc') ->
    success result = true ->
    (forall c : Chart float, is_ok (render_png c) = false) ->
    Main.predict_custom_data steps svc
    = (Rendered "custom_results.html" (set_plot result (PlotImage "")), svc').
Proof.
  intros steps svc svc' result Hsteps Hrun Hok Hrender.
  unfold Main.predict_custom_data.
  assert (Hrange : (steps <? 1) || (100 <? steps) = false).
  { apply orb_false_iff. split; [ apply Z.ltb_ge | apply Z.ltb_ge ]; lia. }
  rewrite Hrange, Hrun, Hok. cbn [negb].
  destruct (train_success_inv steps svc svc' result Hrun Hok)
    as (d & d' & freq & m & vals & ci & last_date & future & _ & _ & _ & _ & _
        & _ & _ & _ & Hp & Hh & _).
  rewrite Hp, Hh, custom_generate_plot_degrades by exact Hrender.
  reflexivity.
Qed.

(** Ten daily observations, a three-step forecast, and a renderer that
    fails: the page is rendered with the forecast and an empty image. *)
Lemma upload_chart_failure_degrades_witness :
  let L := Reference.libraries (Ok Reference.daily_csv) true false in
  let run :=
    CustomDataForecastService.train_model_and_predict 3 (Reference.uploaded L) in
  success (fst run) = true
  /\ option_map dates (predictions (fst run))
     = Some ["2024-03-06"; "2024-03-07"; "2024-03-08"]
  /\ Main.predict_custom_data 3 (Reference.uploaded L)
     = (Rendered "custom_results.html" (set_plot (fst run) (PlotImage "")),
        snd run).
Proof.
  intros L run. split; [ reflexivity | ]. split; [ reflexivity | ].
  apply (@upload_chart_failure_degrades L 3 (Reference.uploaded L) (snd run)
           (fst run)).
  - lia.
  - reflexivity.
  - reflexivity.
  - intros c. reflexivity.
Defined.

(** C5, the bundled-model path (the upload path is the lemma above).
    When the forecast itself succeeds and drawing its chart raises [e],
    [get_forecast_with_plot] drops the forecast and answers
    [success = false] with [str(e)] and no image; [POST /api/forecast]
    turns that into a 500. *)
Theorem bundled_chart_failure_fails_request `{Libraries} :
  forall (steps : Z) (svc : ForecastService.t) (result : ForecastService.Response)
         (p : Predictions float) (e : exn),
    fst (ForecastService.get_forecast steps svc) = result ->
    success result = true ->
    predictions result = Some p ->
    ARIMAModel.generate_plot p (ForecastService.model svc) = Raise e ->
    ForecastService.get_forecast_with_plot steps svc
    = (mkResponse false (Some (exn_msg e)) None None None None PlotNone, svc)
    /\ (1 <= steps <= 60 ->
        Main.create_forecast steps svc = (HTTPException 500 (exn_msg e), svc)).
Proof.
  intros steps svc result p e Hrun Hok Hp Hplot.
  assert (Hwith : ForecastService.get_forecast_with_plot steps svc
                  = (mkResponse false (Some (exn_msg e)) None None None None
                                PlotNone, svc)).
  { unfold ForecastService.get_forecast_with_plot.
    pose proof (get_forecast_reads_only steps svc) as Hsame.
    destruct (ForecastService.get_forecast steps svc) as [r svc0].
    cbn [fst snd] in *. subst r svc0.
    rewrite Hok, Hp. cbn [bind]. rewrite Hplot. reflexivity. }
  split; [ exact Hwith | ].
  intros Hsteps. unfold Main.create_forecast.
  assert (Hrange : (steps <? 1) || (60 <? steps) = false).
  { apply orb_false_iff. split; [ apply Z.ltb_ge | apply Z.ltb_ge ]; lia. }
  rewrite Hrange, Hwith. reflexivity.
Qed.

(** The bundled model of 1960 and a renderer that fails: the two-step
    forecast is computed, and lost. *)
Lemma bundled_chart_failure_fails_request_witness :
  let L := Reference.libraries (Ok Reference.daily_csv) true false in
  let svc := ForecastService.init
               (ARIMAModel.mkFiles (Ok Reference.passengers)
                                   (Ok Reference.passengers)) in
  (success (fst (ForecastService.get_forecast 2 svc)) = true
   /\ option_map dates (predictions (fst (ForecastService.get_forecast 2 svc)))
      = Some ["1961-01"; "1961-02"])
  /\ ForecastService.get_forecast_with_plot 2 svc
     = (mkResponse false (Some "savefig: cannot allocate the figure canvas")
                   None None None None PlotNone, svc)
  /\ (1 <= 2 <= 60 ->
      Main.create_forecast 2 svc
      = (HTTPException 500 "savefig: cannot allocate the figure canvas", svc)).
Proof.
  intros L svc. split; [ split; reflexivity | ].
  refine (@bundled_chart_failure_fails_request L 2 svc _ _
            (mkExn OtherError "savefig: cannot allocate the figure canvas")
            eq_refl _ _ _); reflexivity.
Defined.

(* ================================================================== *)
(** ** Strings *)

Lemma prefix_spec :
  forall k s : string, prefix k s = true <-> exists post : string, s = k ++ post.
Proof.
  induction k as [ | c k IH ]; intros s.
  - split; [ intros _; exists s; reflexivity | intros _; destruct s; reflexivity ].
  - destruct s as [ | c' s ].
    + split; [ discriminate | intros [post Hpost]; discriminate ].
    + cbn [prefix append]. destruct (ascii_dec c c') as [Hc | Hc].
      * subst c'. rewrite IH. split; intros [post Hpost]; exists post; congruence.
      * split; [ discriminate | intros [post Hpost]; congruence ].
Qed.

Lemma contains_spec :
  forall k s : string,
    contains k s = true <-> exists pre post : string, s = pre ++ k ++ post.
Proof.
  intros k s. split.
  - induction s as [ | c s IH ]; cbn [contains].
    + destruct (prefix k "") eqn:Hp; [ | discriminate ].
      intros _. apply prefix_spec in Hp. destruct Hp as [post Hpost].
      exists "", post. exact Hpost.
    + destruct (prefix k (String c s)) eqn:Hp.
      * intros _. apply prefix_spec in Hp. destruct Hp as [post Hpost].
        exists "", post. exact Hpost.
      * intros Hin. destruct (IH Hin) as (pre & post & Hs).
        exists (String c pre), post. cbn [append]. congruence.
  - intros (pre & post & Hs). subst s.
    induction pre as [ | c pre IH ].
    + cbn [append].
      assert (Hp : prefix k (k ++ post) = true)
        by (apply prefix_spec; exists post; reflexivity).
      destruct (k ++ post); cbn [contains]; rewrite Hp; reflexivity.
    + cbn [append contains]. rewrite IH. destruct (prefix k _); reflexivity.
Qed.

Lemma endswith_spec :
  forall s suffix : string,
    endswith s suffix = true <-> exists pre : string, s = pre ++ suffix.
Proof.
  intros s suffix. split.
  - induction s as [ | c s IH ]; cbn [endswith].
    + destruct ("" =? suffix)%string eqn:E; [ | discriminate ].
      apply String.eqb_eq in E. intros _. exists "". exact E.
    + destruct (String c s =? suffix)%string eqn:E.
      * apply String.eqb_eq in E. intros _. exists "". exact E.
      * intros Hend. destruct (IH Hend) as [pre Hs].
        exists (String c pre). cbn [append]. congruence.
  - intros [pre Hs]. subst s. induction pre as [ | c pre IH ].
    + cbn [append]. destruct suffix; cbn [endswith]; rewrite String.eqb_refl;
        reflexivity.
    + cbn [append endswith]. rewrite IH. destruct (_ =? _)%string; reflexivity.
Qed.

(** ** The keyword test of the column scan *)

(** A column counts as a date column exactly when its name, lower-cased,
    has one of the five keywords as a substring: the test ignores case
    and position, so "Monthly_sales", "Daytime" or "UPDATED" pass it. *)
Theorem keyword_test_is_substring_test :
  forall col : string,
    CustomDataForecastService.has_keyword col = true
    <-> exists keyword pre post : string,
          In keyword ["date"; "time"; "month"; "year"; "day"]
          /\ lower col = pre ++ keyword ++ post.
Proof.
  intros col. unfold CustomDataForecastService.has_keyword.
  rewrite existsb_exists. split.
  - intros (k & Hin & Hk). apply contains_spec in Hk.
    destruct Hk as (pre & post & Hs). exists k, pre, post. split; assumption.
  - intros (k & pre & post & Hin & Hs). exists k. split; [ exact Hin | ].
    apply contains_spec. exists pre, post. exact Hs.
Qed.

(* ================================================================== *)
(** ** Conversion and cleaning *)

Section Cleaning.
Context `{Libraries}.

(** Column assignment, then column lookup. *)
Lemma get_set_col :
  forall (df : DataFrame float) (k k' : string) (c : Column float),
    get_col (set_col k c df) k'
    = if (k' =? k)%string then Ok c else get_col df k'.
Proof.
  intros df k k' c. unfold get_col.
  induction df as [ | [k0 c0] rest IH ]; cbn [set_col assoc].
  - destruct (k' =? k)%string; reflexivity.
  - destruct (k =? k0)%string eqn:Ek; cbn [assoc].
    + apply String.eqb_eq in Ek. subst k0.
      destruct (k' =? k)%string; reflexivity.
    + destruct (k' =? k0)%string eqn:Ek'.
      * apply String.eqb_eq in Ek'. subst k0.
        rewrite String.eqb_sym in Ek. rewrite Ek. reflexivity.
      * exact IH.
Qed.

Lemma dropna_complete_rows :
  forall (rows : list (option Timestamp * option float)) (t : Timestamp) (v : float),
    In (t, v) (dropna rows) <-> In (Some t, Some v) rows.
Proof.
  intros rows t v. induction rows as [ | [[t0 | ] [v0 | ]] rest IH ];
    cbn [dropna In]; [ tauto | | | | ].
  - rewrite IH. split; (intros [E | Hin]; [ left; congruence | right; exact Hin ]).
  - rewrite IH. split; [ tauto | intros [E | Hin]; [ discriminate | exact Hin ] ].
  - rewrite IH. split; [ tauto | intros [E | Hin]; [ discriminate | exact Hin ] ].
  - rewrite IH. split; [ tauto | intros [E | Hin]; [ discriminate | exact Hin ] ].
Qed.

Lemma insert_by_permutation {A : Type} (key : A -> Z) :
  forall (x : A) (l : list A), Permutation (insert_by key x l) (x :: l).
Proof.
  intros x l. induction l as [ | y rest IH ]; [ apply Permutation_refl | ].
  cbn [insert_by]. destruct (key x <=? key y); [ apply Permutation_refl | ].
  apply perm_trans with (y :: x :: rest);
    [ apply perm_skip; exact IH | apply perm_swap ].
Qed.

Lemma sort_by_permutation {A : Type} (key : A -> Z) :
  forall l : list A, Permutation (sort_by key l) l.
Proof.
  induction l as [ | x rest IH ]; [ apply Permutation_refl | ].
  cbn [sort_by fold_right]. fold (sort_by key rest).
  apply perm_trans with (x :: sort_by key rest);
    [ apply insert_by_permutation | apply perm_skip; exact IH ].
Qed.

(** What cleaning keeps.  The dates are converted first and stored
    under "Date"; the values are read after that assignment, so an
    upload whose value column is itself named "Date" has its converted
    dates taken for values.  The rows kept are those with both a
    timestamp and a value, each as often as it occurs, in time order. *)
Theorem cleaned_rows_are_the_complete_rows :
  forall (df : DataFrame float) (date_col value_col : string) (d : Series float),
    CustomDataForecastService.clean df date_col value_col
    = Ok (CustomDataForecastService.Rows d) ->
    exists (ds : list (option Timestamp)) (vs : list (option float)),
      (c <- get_col df date_col ;; to_datetime c) = Ok ds
      /\ (c <- (if (value_col =? "Date")%string then Ok (DateCol ds)
                else get_col df value_col) ;; to_numeric c) = Ok vs
      /\ Permutation d (dropna (combine ds vs))
      /\ (forall (t : Timestamp) (v : float),
            In (t, v) d <-> In (Some t, Some v) (combine ds vs))
      /\ adjacent Z.le (index d).
Proof.
  intros df dc vc d. unfold CustomDataForecastService.clean.
  destruct (c <- get_col df dc ;; to_datetime c) as [ds | e] eqn:Hds;
    [ | discriminate ].
  rewrite get_set_col.
  destruct (c <- (if (vc =? "Date")%string then Ok (DateCol ds) else get_col df vc) ;;
            to_numeric c) as [vs | e] eqn:Hvs; [ | discriminate ].
  unfold select_date_value. rewrite !get_set_col.
  change ("Date" =? "Value")%string with false.
  change ("Date" =? "Date")%string with true.
  change ("Value" =? "Value")%string with true.
  cbn [bind]. intros Hd. inversion Hd; subst d. clear Hd.
  exists ds, vs. split; [ reflexivity | ]. split; [ exact Hvs | ].
  split; [ apply sort_by_permutation | ]. split.
  - intros t v. rewrite <- dropna_complete_rows. split; intros Hin.
    + eapply Permutation_in; [ apply sort_by_permutation | exact Hin ].
    + eapply Permutation_in;
        [ apply Permutation_sym; apply sort_by_permutation | exact Hin ].
  - unfold sort_index, index. apply sort_by_sorted.
Qed.
End Cleaning.

(** Labels beside dates: the scan takes "Date" for both columns, and the
    values kept are the dates themselves, in nanoseconds. *)
Lemma cleaned_rows_are_the_complete_rows_witness :
  let L := Reference.libraries (Ok Reference.labelled_csv) true true in
  let d : Series float :=
    map (fun t => (t, t * Reference.ns_per_day))
        (generate Day (days_from_civil 2024 2 25) 10) in
  (CustomDataForecastService.infer_columns Reference.labelled_csv
   = Ok ("Date", "Date")
   /\ CustomDataForecastService.clean Reference.labelled_csv "Date" "Date"
      = Ok (CustomDataForecastService.Rows d))
  /\ exists (ds : list (option Timestamp)) (vs : list (option float)),
       (c <- get_col Reference.labelled_csv "Date" ;; to_datetime c) = Ok ds
       /\ (c <- (if ("Date" =? "Date")%string then Ok (DateCol ds)
                 else get_col Reference.labelled_csv "Date") ;; to_numeric c)
          = Ok vs
       /\ Permutation d (dropna (combine ds vs))
       /\ (forall (t : Timestamp) (v : float),
             In (t, v) d <-> In (Some t, Some v) (combine ds vs))
       /\ adjacent Z.le (index d).
Proof.
  intros L d. split; [ split; reflexivity | ].
  apply (@cleaned_rows_are_the_complete_rows L Reference.labelled_csv
           "Date" "Date" d).
  reflexivity.
Defined.

(* ================================================================== *)
(** ** Upload validation: the two outcomes *)

Lemma sorted_head_least :
  forall (a : Timestamp) (l : list Timestamp),
    adjacent Z.le (a :: l) -> Forall (fun t => a <= t) l.
Proof.
  intros a l. revert a. induction l as [ | b rest IH ]; intros a Hs;
    [ constructor | ].
  destruct Hs as [Hab Hrest]. constructor; [ exact Hab | ].
  eapply Forall_impl; [ | exact (IH b Hrest) ]. cbv beta. intros t Ht. lia.
Qed.

Lemma sorted_last_greatest :
  forall (front : list Timestamp) (z : Timestamp),
    adjacent Z.le (front ++ [z])%list -> Forall (fun t => t <= z) front.
Proof.
  induction front as [ | a front IH ]; intros z Hs; [ constructor | ].
  cbn [app] in Hs.
  pose proof (sorted_head_least a (front ++ [z])%list Hs) as Hleast.
  rewrite Forall_forall in Hleast.
  constructor; [ apply Hleast; apply in_or_app; right; left; reflexivity | ].
  apply IH. destruct front as [ | b front' ]; [ exact I | ].
  cbn [app] in *. apply Hs.
Qed.

Lemma sorted_between_ends :
  forall (l : list Timestamp) (lo hi : Timestamp),
    adjacent Z.le l -> py_index l 0 = Ok lo -> py_last l = Ok hi ->
    In lo l /\ In hi l /\ Forall (fun t => lo <= t <= hi) l.
Proof.
  intros l lo hi Hs Hlo Hhi.
  destruct (py_last_inv l hi Hhi) as [front Hfront].
  destruct l as [ | a rest ]; [ discriminate | ].
  cbn in Hlo. inversion Hlo; subst a.
  split; [ left; reflexivity | ].
  split; [ rewrite Hfront; apply in_or_app; right; left; reflexivity | ].
  pose proof (sorted_head_least lo rest Hs) as Hleast.
  rewrite Hfront in Hs. pose proof (sorted_last_greatest front hi Hs) as Hgreatest.
  rewrite Forall_forall in *. intros t Hin. split.
  - destruct Hin as [E | Hin]; [ lia | apply Hleast; exact Hin ].
  - rewrite Hfront in Hin. apply in_app_or in Hin.
    destruct Hin as [Hin | [E | []]]; [ apply Hgreatest; exact Hin | lia ].
Qed.

Section Validation.
Context `{Libraries}.

(** Every call of [validate_and_process_csv] ends in one of two ways. *)
Lemma validate_outcomes :
  forall (csv : string) (self : CustomDataForecastService.t),
    (exists msg : string,
        CustomDataForecastService.validate_and_process_csv csv self
        = (CustomDataForecastService.rejected msg, self))
    \/ (exists (df : DataFrame float) (date_col value_col : string)
               (d : Series float) (i : CustomDataForecastService.DataInfo),
           read_csv csv = Ok df
           /\ (2 <= shape1 df)%nat /\ (10 <= shape0 df)%nat
           /\ CustomDataForecastService.infer_columns df = Ok (date_col, value_col)
           /\ CustomDataForecastService.clean df date_col value_col
              = Ok (CustomDataForecastService.Rows d)
           /\ (10 <= List.length d)%nat
           /\ CustomDataForecastService.build_info d date_col value_col = Ok i
           /\ CustomDataForecastService.validate_and_process_csv csv self
              = (CustomDataForecastService.mkValidate true None (Some i)
                   (Some ("Données chargées avec succès: "
                          ++ str_of_nat (List.length d) ++ " points")),
                 CustomDataForecastService.mk (Some d)
                   (CustomDataForecastService.model self) (Some i))).
Proof.
  intros csv self. unfold CustomDataForecastService.validate_and_process_csv.
  destruct (read_csv csv) as [df | e] eqn:Hread; [ | left; eexists; reflexivity ].
  destruct (shape1 df <? 2)%nat eqn:Hcols; [ left; eexists; reflexivity | ].
  destruct (shape0 df <? 10)%nat eqn:Hrows; [ left; eexists; reflexivity | ].
  destruct (CustomDataForecastService.infer_columns df) as [[dc vc] | e] eqn:Hinfer;
    [ | left; eexists; reflexivity ].
  destruct (CustomDataForecastService.clean df dc vc) as [[ | | d] | e] eqn:Hclean;
    try (left; eexists; reflexivity).
  destruct (List.length d <? 10)%nat eqn:Hlen; [ left; eexists; reflexivity | ].
  apply Nat.ltb_ge in Hcols, Hrows, Hlen.
  destruct (CustomDataForecastService.build_info d dc vc) as [i | e] eqn:Hinfo.
  - right. exists df, dc, vc, d, i. repeat split; try assumption; reflexivity.
  - exfalso. unfold CustomDataForecastService.build_info in Hinfo.
    destruct d as [ | row rest ]; [ cbn in Hlen; lia | ].
    cbn [index map py_index nth_error bind] in Hinfo.
    unfold py_last in Hinfo.
    destruct (rev (fst row :: map fst rest)) as [ | z back ] eqn:Hrev;
      [ | discriminate ].
    apply (f_equal (@List.length Z)) in Hrev. rewrite length_rev in Hrev.
    discriminate.
Qed.

(** A rejected upload changes nothing: whatever the reason (unreadable
    content, too few columns or rows, a column that does not convert,
    too few rows left), the answer names an error and the service keeps
    the series, the summary and the model it held before the call. *)
Theorem rejected_upload_keeps_service :
  forall (csv : string) (self : CustomDataForecastService.t),
    CustomDataForecastService.v_success
      (fst (CustomDataForecastService.validate_and_process_csv csv self)) = false ->
    snd (CustomDataForecastService.validate_and_process_csv csv self) = self
    /\ exists msg : string,
         fst (CustomDataForecastService.validate_and_process_csv csv self)
         = CustomDataForecastService.rejected msg.
Proof.
  intros csv self.
  destruct (validate_outcomes csv self)
    as [[msg Hrun] | (df & dc & vc & d & i & _ & _ & _ & _ & _ & _ & _ & Hrun)];
    rewrite Hrun; cbn [fst snd CustomDataForecastService.v_success].
  - intros _. split; [ reflexivity | exists msg; reflexivity ].
  - discriminate.
Qed.

(** The summary of an accepted upload: it names the two columns the
    scan inferred, counts the rows kept, and its date range runs from
    the earliest to the latest timestamp of the stored series. *)
Theorem upload_summary_describes_series :
  forall (csv : string) (self self' : CustomDataForecastService.t)
         (response : CustomDataForecastService.ValidateResponse),
    CustomDataForecastService.validate_and_process_csv csv self = (response, self') ->
    CustomDataForecastService.v_success response = true ->
    exists (df : DataFrame float) (d : Series float)
           (i : CustomDataForecastService.DataInfo) (lo hi : Timestamp),
      read_csv csv = Ok df
      /\ CustomDataForecastService.data self' = Some d
      /\ CustomDataForecastService.v_data_info response = Some i
      /\ CustomDataForecastService.infer_columns df
         = Ok (CustomDataForecastService.date_column i,
               CustomDataForecastService.value_column i)
      /\ CustomDataForecastService.date_range i
         = strftime_ymd lo ++ " à " ++ strftime_ymd hi
      /\ In lo (index d) /\ In hi (index d)
      /\ Forall (fun t => lo <= t <= hi) (index d)
      /\ CustomDataForecastService.mean_value i = series_mean (column_values d)
      /\ CustomDataForecastService.std_value i = series_std (column_values d).
Proof.
  intros csv self self' response Hrun Hok.
  destruct (validate_outcomes csv self)
    as [[msg Hrej] | (df & dc & vc & d & i & Hread & _ & _ & Hinfer & Hclean & _
                      & Hinfo & Hacc)].
  { rewrite Hrej in Hrun. inversion Hrun; subst response. discriminate. }
  rewrite Hacc in Hrun. inversion Hrun; subst response self'. clear Hrun Hok.
  unfold CustomDataForecastService.build_info in Hinfo.
  destruct (py_index (index d) 0) as [lo | e] eqn:Hlo; [ | discriminate ].
  destruct (py_last (index d)) as [hi | e] eqn:Hhi; [ | discriminate ].
  cbn [bind] in Hinfo. inversion Hinfo; subst i. clear Hinfo.
  assert (Hsorted : adjacent Z.le (index d)).
  { unfold CustomDataForecastService.clean in Hclean.
    destruct (c <- get_col df dc ;; to_datetime c) as [ds | ]; [ | discriminate ].
    destruct (c <- get_col _ vc ;; to_numeric c) as [vs | ]; [ | discriminate ].
    destruct (select_date_value _) as [rows | ]; [ | discriminate ].
    cbn [bind] in Hclean. inversion Hclean.
    unfold sort_index, index. apply sort_by_sorted. }
  destruct (sorted_between_ends (index d) lo hi Hsorted Hlo Hhi)
    as (Hinlo & Hinhi & Hall).
  exists df, d. eexists. exists lo, hi.
  split; [ exact Hread | ]. split; [ reflexivity | ]. split; [ reflexivity | ].
  split; [ exact Hinfer | ]. split; [ reflexivity | ].
  split; [ exact Hinlo | ]. split; [ exact Hinhi | ]. split; [ exact Hall | ].
  split; reflexivity.
Qed.
End Validation.

(** Ten daily rows, 2024-02-25 to 2024-03-05. *)
Lemma upload_summary_describes_series_witness :
  let L := Reference.libraries (Ok Reference.daily_csv) true true in
  let run :=
    CustomDataForecastService.validate_and_process_csv "Date,Sales"
      CustomDataForecastService.init in
  exists (df : DataFrame float) (d : Series float)
         (i : CustomDataForecastService.DataInfo) (lo hi : Timestamp),
    read_csv "Date,Sales" = Ok df
    /\ CustomDataForecastService.data (snd run) = Some d
    /\ CustomDataForecastService.v_data_info (fst run) = Some i
    /\ CustomDataForecastService.infer_columns df
       = Ok (CustomDataForecastService.date_column i,
             CustomDataForecastService.value_column i)
    /\ CustomDataForecastService.date_range i
       = strftime_ymd lo ++ " à " ++ strftime_ymd hi
    /\ In lo (index d) /\ In hi (index d)
    /\ Forall (fun t => lo <= t <= hi) (index d)
    /\ CustomDataForecastService.mean_value i = series_mean (column_values d)
    /\ CustomDataForecastService.std_value i = series_std (column_values d).
Proof.
  intros L run.
  apply (@upload_summary_describes_series L "Date,Sales"
           CustomDataForecastService.init (snd run) (fst run)); reflexivity.
Defined.

(** Ten daily rows are accepted, then an upload of eight rows is
    rejected: the ten rows stay. *)
Lemma rejected_upload_keeps_service_witness :
  let L := Reference.libraries_reading Reference.read_named true true in
  let service :=
    snd (CustomDataForecastService.validate_and_process_csv "daily"
           CustomDataForecastService.init) in
  CustomDataForecastService.data service = Some Reference.daily_series
  /\ snd (CustomDataForecastService.validate_and_process_csv "short" service)
     = service
  /\ exists msg : string,
       fst (CustomDataForecastService.validate_and_process_csv "short" service)
       = CustomDataForecastService.rejected msg.
Proof.
  intros L service. split; [ vm_compute; reflexivity | ].
  apply (@rejected_upload_keeps_service L "short" service).
  vm_compute. reflexivity.
Defined.

(* ================================================================== *)
(** ** [POST /upload-csv] *)

Section UploadHandler.
Context `{Libraries}.

(** The handler never answers an HTTP error, its own two 400 included:
    it renders index.html with an upload error and leaves the service
    as it was, or it renders custom_data_analysis.html for a file named
    "....csv" of 5 MiB at most whose content was validated, with the
    summary that the service now holds beside ten rows or more. *)
Theorem upload_csv_outcomes :
  forall (csv_file : Main.UploadFile) (service : CustomDataForecastService.t),
    (exists msg : string,
        Main.upload_csv csv_file service = (Main.upload_failed msg, service))
    \/ (exists (stem : string) (n : Z) (d : Series float)
               (i : CustomDataForecastService.DataInfo),
           Main.filename csv_file = stem ++ ".csv"
           /\ Main.size csv_file = Some n /\ n <= 5 * 1024 * 1024
           /\ (10 <= List.length d)%nat
           /\ snd (CustomDataForecastService.validate_and_process_csv
                     (Main.content csv_file) service)
              = CustomDataForecastService.mk (Some d)
                  (CustomDataForecastService.model service) (Some i)
           /\ Main.upload_csv csv_file service
              = (Rendered "custom_data_analysis.html"
                          (Main.AnalysisPage i true (Main.filename csv_file)),
                 CustomDataForecastService.mk (Some d)
                   (CustomDataForecastService.model service) (Some i))).
Proof.
  intros csv_file service. unfold Main.upload_csv.
  destruct (endswith (Main.filename csv_file) ".csv") eqn:Hname; cbn [negb];
    [ | left; eexists; reflexivity ].
  apply endswith_spec in Hname. destruct Hname as [stem Hstem].
  destruct (Main.size csv_file) as [n | ] eqn:Hsize;
    [ | left; eexists; reflexivity ].
  destruct (5 * 1024 * 1024 <? n) eqn:Hbig; [ left; eexists; reflexivity | ].
  apply Z.ltb_ge in Hbig.
  destruct (validate_outcomes (Main.content csv_file) service)
    as [[msg Hrun] | (df & dc & vc & d & i & _ & _ & _ & _ & _ & Hlen & _ & Hrun)];
    rewrite Hrun; cbn.
  - left. eexists. reflexivity.
  - right. exists stem, n, d, i. repeat split; try assumption; reflexivity.
Qed.

(** The two checks made before the content is read.  A name that does
    not end in ".csv" (the comparison is case-sensitive), and after it a
    size above 5 * 1024 * 1024 bytes, are refused with the text of the
    400 that the handler raises and catches itself, whatever the file
    holds; a file of exactly 5 MiB passes, and validation decides. *)
Theorem upload_checks_name_then_size :
  forall (csv_file : Main.UploadFile) (service : CustomDataForecastService.t),
    ((forall stem : string, Main.filename csv_file <> stem ++ ".csv") ->
     Main.upload_csv csv_file service
     = (Main.upload_failed
          "Erreur lors du traitement: 400: Le fichier doit être au format CSV",
        service))
    /\ (forall (stem : string) (n : Z),
          Main.filename csv_file = stem ++ ".csv" ->
          Main.size csv_file = Some n ->
          (5242880 < n ->
           Main.upload_csv csv_file service
           = (Main.upload_failed
                "Erreur lors du traitement: 400: Le fichier est trop volumineux (max 5MB)",
              service))
          /\ (n <= 5242880 ->
              snd (Main.upload_csv csv_file service)
              = snd (CustomDataForecastService.validate_and_process_csv
                       (Main.content csv_file) service))).
Proof.
  intros csv_file service. unfold Main.upload_csv. split.
  - intros Hname.
    destruct (endswith (Main.filename csv_file) ".csv") eqn:Hend;
      [ | reflexivity ].
    apply endswith_spec in Hend. destruct Hend as [stem Hstem].
    destruct (Hname stem Hstem).
  - intros stem n Hname Hsize.
    assert (Hend : endswith (Main.filename csv_file) ".csv" = true)
      by (apply endswith_spec; exists stem; exact Hname).
    rewrite Hend, Hsize. cbn [negb].
    change (5 * 1024 * 1024) with 5242880. split; intros Hn.
    + apply Z.ltb_lt in Hn. rewrite Hn. reflexivity.
    + apply Z.ltb_ge in Hn. rewrite Hn.
      destruct (validate_outcomes (Main.content csv_file) service)
        as [[msg Hrun] | (df & dc & vc & d & i & _ & _ & _ & _ & _ & _ & _ & Hrun)];
        rewrite Hrun; reflexivity.
Qed.

(** ** [GET /api/custom-status] *)

(** What the status reports after an upload: the summary of that upload
    when it was accepted; when it was rejected, what it reported before,
    so the earlier upload stays the current one. *)
Theorem custom_status_follows_uploads :
  forall (csv : string) (service : CustomDataForecastService.t),
    Main.get_custom_status
      (snd (CustomDataForecastService.validate_and_process_csv csv service))
    = if CustomDataForecastService.v_success
           (fst (CustomDataForecastService.validate_and_process_csv csv service))
      then Main.mkCustomStatus true true
             (CustomDataForecastService.v_data_info
                (fst (CustomDataForecastService.validate_and_process_csv csv service)))
      else Main.get_custom_status service.
Proof.
  intros csv service.
  destruct (validate_outcomes csv service)
    as [[msg Hrun] | (df & dc & vc & d & i & _ & _ & _ & _ & _ & _ & _ & Hrun)];
    rewrite Hrun; reflexivity.
Qed.

(** A forecast request never changes the summary nor what the status
    reports, although a forecast that gets as far as re-indexing
    replaces the stored series: after it, the [data_points] and the
    [date_range] of the status are those of the upload, not of the series
    the service holds. *)
Theorem forecast_keeps_upload_summary :
  forall (steps : Z) (service : CustomDataForecastService.t),
    CustomDataForecastService.info
      (snd (CustomDataForecastService.train_model_and_predict steps service))
    = CustomDataForecastService.info service
    /\ Main.get_custom_status
         (snd (CustomDataForecastService.train_model_and_predict steps service))
       = Main.get_custom_status service
    /\ Main.get_custom_status (snd (Main.predict_custom_data steps service))
       = Main.get_custom_status service.
Proof.
  intros steps service.
  assert (Htrain :
            CustomDataForecastService.info
              (snd (CustomDataForecastService.train_model_and_predict steps service))
            = CustomDataForecastService.info service
            /\ Main.get_custom_status
                 (snd (CustomDataForecastService.train_model_and_predict steps service))
               = Main.get_custom_status service).
  { unfold CustomDataForecastService.train_model_and_predict, Main.get_custom_status.
    destruct (CustomDataForecastService.data service) as [d | ] eqn:Hdata;
      [ | cbn [snd]; rewrite Hdata; split; reflexivity ].
    destruct (freq <- CustomDataForecastService.determine_freq (index d) ;;
              d' <- asfreq d freq ;; Ok (freq, d')) as [[freq d'] | e];
      [ | cbn [snd]; rewrite Hdata; split; reflexivity ].
    destruct (SARIMAX_fit _ d') as [m | e]; [ | split; reflexivity ].
    destruct (CustomDataForecastService.predict_fitted _ d' freq m steps);
      split; reflexivity. }
  destruct Htrain as [Hinfo Hstatus].
  split; [ exact Hinfo | ]. split; [ exact Hstatus | ].
  unfold Main.predict_custom_data.
  destruct ((steps <? 1) || (100 <? steps)); [ reflexivity | ].
  destruct (CustomDataForecastService.train_model_and_predict steps service)
    as [r service'].
  cbn [snd] in Hstatus.
  destruct (negb (success r)); [ exact Hstatus | ].
  destruct (predictions r), (historical_data r); exact Hstatus.
Qed.
End UploadHandler.

(** An upper-case extension, one byte too many, and exactly 5 MiB. *)
Lemma upload_checks_name_then_size_witness :
  let L := Reference.libraries_reading Reference.read_named true true in
  let service := CustomDataForecastService.init in
  Main.upload_csv (Main.mkUploadFile "data.CSV" (Some 100) "daily") service
  = (Main.upload_failed
       "Erreur lors du traitement: 400: Le fichier doit être au format CSV",
     service)
  /\ Main.upload_csv (Main.mkUploadFile "data.csv" (Some 5242881) "daily") service
     = (Main.upload_failed
          "Erreur lors du traitement: 400: Le fichier est trop volumineux (max 5MB)",
        service)
  /\ snd (Main.upload_csv (Main.mkUploadFile "data.csv" (Some 5242880) "daily")
            service)
     = snd (CustomDataForecastService.validate_and_process_csv "daily" service).
Proof.
  intros L service. split; [ | split ].
  - destruct (@upload_checks_name_then_size L
                (Main.mkUploadFile "data.CSV" (Some 100) "daily") service)
      as [Hname _].
    apply Hname. intros stem Hstem.
    assert (Hend : endswith "data.CSV" ".csv" = true)
      by (apply endswith_spec; exists stem; exact Hstem).
    vm_compute in Hend. discriminate.
  - destruct (@upload_checks_name_then_size L
                (Main.mkUploadFile "data.csv" (Some 5242881) "daily") service)
      as [_ Hsize].
    destruct (Hsize "data" 5242881 eq_refl eq_refl) as [Hbig _].
    apply Hbig. lia.
  - destruct (@upload_checks_name_then_size L
                (Main.mkUploadFile "data.csv" (Some 5242880) "daily") service)
      as [_ Hsize].
    destruct (Hsize "data" 5242880 eq_refl eq_refl) as [_ Hfits].
    apply Hfits. lia.
Defined.

(* ================================================================== *)
(** ** [POST /predict-custom-data]: requests that cannot be served *)

(** Three requests that are answered with status 500 and leave the
    service as it was, so that repeating them changes nothing: a number
    of periods outside 1..100 (the 400 raised for it is caught by the
    handler's own [except] and leaves as a 500), a request before any
    upload was accepted, and a request on a stored series of fewer than
    three rows, which frequency inference refuses. *)
Theorem custom_forecast_refusals `{Libraries} :
  forall (steps : Z) (service : CustomDataForecastService.t),
    (steps < 1 \/ 100 < steps ->
     Main.predict_custom_data steps service
     = (HTTPException 500 "400: Le nombre de périodes doit être entre 1 et 100",
        service))
    /\ (1 <= steps <= 100 ->
        CustomDataForecastService.data service = None ->
        Main.predict_custom_data steps service
        = (HTTPException 500
             "500: Aucune donnée chargée. Veuillez d'abord uploader un fichier CSV.",
           service))
    /\ (forall d : Series float,
          1 <= steps <= 100 ->
          CustomDataForecastService.data service = Some d ->
          (List.length d < 3)%nat ->
          Main.predict_custom_data steps service
          = (HTTPException 500
               "500: Erreur lors de la prédiction: Need at least 3 dates to infer frequency",
             service)).
Proof.
  intros steps service. unfold Main.predict_custom_data.
  split; [ | split ].
  - intros Hout.
    assert (Hb : (steps <? 1) || (100 <? steps) = true).
    { apply orb_true_iff. destruct Hout as [Hlo | Hhi];
        [ left; apply Z.ltb_lt | right; apply Z.ltb_lt ]; assumption. }
    rewrite Hb. reflexivity.
  - intros [Hlo Hhi] Hdata.
    assert (Hb : (steps <? 1) || (100 <? steps) = false).
    { apply orb_false_iff. split; apply Z.ltb_ge; assumption. }
    rewrite Hb. unfold CustomDataForecastService.train_model_and_predict.
    rewrite Hdata. reflexivity.
  - intros d [Hlo Hhi] Hdata Hshort.
    assert (Hb : (steps <? 1) || (100 <? steps) = false).
    { apply orb_false_iff. split; apply Z.ltb_ge; assumption. }
    rewrite Hb.
    unfold CustomDataForecastService.train_model_and_predict,
      CustomDataForecastService.determine_freq, pd_infer_freq.
    rewrite Hdata.
    assert (Hlen : (List.length (index d) <? 3)%nat = true).
    { apply Nat.ltb_lt. unfold index. rewrite length_map. exact Hshort. }
    rewrite Hlen. reflexivity.
Qed.

(** No period asked for; nothing uploaded; and the sparse upload after
    one forecast, which left two rows. *)
Lemma custom_forecast_refusals_witness :
  let L := Reference.libraries (Ok Reference.sparse_csv) true true in
  let two_rows : Series float :=
    [(days_from_civil 2021 1 1, 12); (days_from_civil 2022 1 1, 15)] in
  Main.predict_custom_data 0 CustomDataForecastService.init
  = (HTTPException 500 "400: Le nombre de périodes doit être entre 1 et 100",
     CustomDataForecastService.init)
  /\ Main.predict_custom_data 12 CustomDataForecastService.init
     = (HTTPException 500
          "500: Aucune donnée chargée. Veuillez d'abord uploader un fichier CSV.",
        CustomDataForecastService.init)
  /\ CustomDataForecastService.data (Reference.forecast_once L) = Some two_rows
  /\ Main.predict_custom_data 12 (Reference.forecast_once L)
     = (HTTPException 500
          "500: Erreur lors de la prédiction: Need at least 3 dates to infer frequency",
        Reference.forecast_once L).
Proof.
  intros L two_rows. split; [ | split; [ | split ] ].
  - apply (@custom_forecast_refusals L 0 CustomDataForecastService.init). lia.
  - apply (@custom_forecast_refusals L 12 CustomDataForecastService.init);
      [ lia | reflexivity ].
  - vm_compute. reflexivity.
  - apply (@custom_forecast_refusals L 12 (Reference.forecast_once L))
      with (d := two_rows); [ lia | vm_compute; reflexivity | cbn; lia ].
Defined.

(* ================================================================== *)
(** ** Forward fill *)

Lemma adjacent_tail :
  forall (R : Timestamp -> Timestamp -> Prop) (a : Timestamp) (l : list Timestamp),
    adjacent R (a :: l) -> adjacent R l.
Proof.
  intros R a [ | b rest ] Hadj; [ exact I | apply Hadj ].
Qed.

Section ForwardFill.
Context `{Libraries}.

Lemma fold_pad_spec :
  forall (t : Timestamp) (s : Series float) (acc : float),
    adjacent Z.le (index s) ->
    let filled :=
      fold_left (fun acc row => if fst row <=? t then snd row else acc) s acc in
    (filled = acc /\ Forall (fun row => t < fst row) s)
    \/ current_at s t filled.
Proof.
  intros t s. induction s as [ | [t0 v] rest IH ]; intros acc Hsorted filled.
  - left. split; [ reflexivity | constructor ].
  - subst filled. cbn [fold_left fst snd]. cbn [index map fst] in Hsorted.
    pose proof (sorted_head_least t0 (index rest) Hsorted) as Hleast.
    pose proof (adjacent_tail Z.le t0 (index rest) Hsorted) as Hrest.
    rewrite Forall_forall in Hleast.
    destruct (t0 <=? t) eqn:Hle;
      [ apply Z.leb_le in Hle | apply Z.leb_gt in Hle ].
    + right. destruct (IH v Hrest) as [[Heq Hafter] | (t1 & Hin & Hle1 & Hmax)].
      * rewrite Heq. exists t0. split; [ left; reflexivity | ].
        split; [ exact Hle | ].
        rewrite Forall_forall in *. unfold index. cbn [map fst].
        intros t1 [E | Hin] Ht1; [ lia | ].
        apply in_map_iff in Hin. destruct Hin as (row & Erow & Hin).
        assert (Hlt : t < t1) by (rewrite <- Erow; exact (Hafter row Hin)). lia.
      * exists t1. split; [ right; exact Hin | ]. split; [ exact Hle1 | ].
        rewrite Forall_forall in *. unfold index. cbn [map fst].
        intros t2 [E | Hin2] Ht2; [ | apply Hmax; assumption ].
        subst t2. apply Hleast. exact (in_map fst _ _ Hin).
    + destruct (IH acc Hrest) as [[Heq Hafter] | (t1 & Hin & Hle1 & Hmax)].
      * left. split; [ exact Heq | ]. constructor; [ exact Hle | exact Hafter ].
      * right. exists t1. split; [ right; exact Hin | ]. split; [ exact Hle1 | ].
        rewrite Forall_forall in *. unfold index. cbn [map fst].
        intros t2 [E | Hin2] Ht2; [ lia | apply Hmax; assumption ].
Qed.

Lemma pad_current :
  forall (s : Series float) (t first : Timestamp),
    adjacent Z.le (index s) -> hd_error (index s) = Some first -> first <= t ->
    current_at s t (pad s t).
Proof.
  intros s t first Hsorted Hfirst Hle. unfold pad.
  destruct (fold_pad_spec t s nan Hsorted) as [[_ Hafter] | Hcur]; [ | exact Hcur ].
  exfalso. destruct s as [ | [t0 v] rest ]; [ discriminate | ].
  cbn in Hfirst. inversion Hfirst; subst t0.
  inversion Hafter as [ | ? ? Hhead _ ]. cbn in Hhead. lia.
Qed.

Lemma asfreq_forward_fills :
  forall (d d' : Series float) (freq : string),
    adjacent Z.le (index d) -> asfreq d freq = Ok d' ->
    Forall (fun row => current_at d (fst row) (snd row)) d'.
Proof.
  intros d d' freq Hsorted Hre.
  destruct (to_offset freq) as [o | e] eqn:Ho.
  - destruct (asfreq_on_calendar d d' freq o Ho Hre) as (_ & _ & Hrange).
    unfold asfreq in Hre. destruct (index d) as [ | first rest ] eqn:Hidx.
    { inversion Hre; subst d'. destruct d; [ constructor | discriminate ]. }
    specialize (Hrange first eq_refl).
    destruct (date_range_between _ _ freq) as [new_index | ]; [ | discriminate ].
    cbn [bind] in Hre.
    destruct (has_adjacent_dup (first :: rest)); [ discriminate | ].
    inversion Hre; subst d'. rewrite index_of_reindexed in Hrange.
    rewrite Forall_forall in *. intros row Hin.
    apply in_map_iff in Hin. destruct Hin as (t & Erow & Hin). subst row.
    cbn [fst snd]. apply (pad_current d t first).
    + rewrite Hidx. exact Hsorted.
    + rewrite Hidx. reflexivity.
    + apply (Hrange t Hin).
  - unfold asfreq, date_range_between in Hre. rewrite Ho in Hre.
    destruct (index d) as [ | first rest ] eqn:Hidx; [ | discriminate ].
    inversion Hre; subst d'. destruct d; [ constructor | discriminate ].
Qed.

(** What a forecast shows as history.  When the stored series is in
    time order (as validation and every re-indexing leave it), each row
    of the history of a successful forecast carries the value that was
    current at its date in the series stored before the call: the value
    of the latest earlier row, never a value from a later row nor one
    that the series did not hold. *)
Theorem history_is_forward_filled :
  forall (steps : Z) (self self' : CustomDataForecastService.t)
         (r : CustomDataForecastService.Response) (d : Series float),
    CustomDataForecastService.train_model_and_predict steps self = (r, self') ->
    success r = true ->
    CustomDataForecastService.data self = Some d ->
    adjacent Z.le (index d) ->
    exists d' : Series float,
      CustomDataForecastService.data self' = Some d'
      /\ historical_data r
         = Some (mkHistorical (map strftime_ymd (index d')) (column_values d'))
      /\ Forall (fun row => current_at d (fst row) (snd row)) d'
      /\ Forall (fun v => In v (column_values d)) (column_values d').
Proof.
  intros steps self self' r d Hrun Hok Hdata Hsorted.
  destruct (train_success_inv steps self self' r Hrun Hok)
    as (d0 & d' & freq & m & vals & ci & last_date & future & Hdata0 & _ & Hre
        & _ & _ & _ & _ & _ & _ & Hh & _ & Hself).
  assert (d0 = d) by congruence. subst d0.
  pose proof (asfreq_forward_fills d d' freq Hsorted Hre) as Hfill.
  exists d'. split; [ subst self'; reflexivity | ]. split; [ exact Hh | ].
  split; [ exact Hfill | ].
  rewrite Forall_forall in *. intros v Hin. unfold column_values in *.
  apply in_map_iff in Hin. destruct Hin as (row & Ev & Hin). subst v.
  destruct (Hfill row Hin) as (t0 & Hin0 & _).
  apply in_map_iff. exists (t0, snd row). split; [ reflexivity | exact Hin0 ].
Qed.
End ForwardFill.

(** The uneven upload on the Sundays of its range: the second Sunday,
    2023-01-08, shows the value observed on 2023-01-07. *)
Lemma history_is_forward_filled_witness :
  let L := Reference.libraries (Ok Reference.uneven_csv) true true in
  let run :=
    CustomDataForecastService.train_model_and_predict 3 (Reference.uploaded L) in
  exists (d d' : Series float),
    CustomDataForecastService.data (Reference.uploaded L) = Some d
    /\ In (days_from_civil 2023 1 7, 11) d
    /\ In (days_from_civil 2023 1 8, 11) d'
    /\ CustomDataForecastService.data (snd run) = Some d'
    /\ historical_data (fst run)
       = Some (mkHistorical (map strftime_ymd (index d')) (column_values d'))
    /\ Forall (fun row => current_at d (fst row) (snd row)) d'
    /\ Forall (fun v => In v (column_values d)) (column_values d').
Proof.
  intros L run.
  pose (d := map (fun p => (fst p, snd p))
               (combine [days_from_civil 2023 1 1; days_from_civil 2023 1 7;
                         days_from_civil 2023 1 15; days_from_civil 2023 1 21;
                         days_from_civil 2023 1 29; days_from_civil 2023 2 5;
                         days_from_civil 2023 2 11; days_from_civil 2023 2 19;
                         days_from_civil 2023 2 26; days_from_civil 2023 3 5]
                        [10; 11; 12; 13; 14; 15; 16; 17; 18; 19]) : Series float).
  destruct (@history_is_forward_filled L 3 (Reference.uploaded L) (snd run)
              (fst run) d)
    as (d' & Hdata & Hhist & Hfill & Hvals).
  - reflexivity.
  - reflexivity.
  - vm_compute. reflexivity.
  - vm_compute. repeat split; intro; discriminate.
  - exists d, d'. split; [ vm_compute; reflexivity | ].
    split; [ right; left; vm_compute; reflexivity | ].
    split; [ | repeat split; assumption ].
    assert (Hd' : Some d' = CustomDataForecastService.data (snd run))
      by (symmetry; exact Hdata).
    vm_compute in Hd'. injection Hd' as Hd'. subst d'.
    right. left. vm_compute. reflexivity.
Defined.

(* ================================================================== *)
(** ** Re-indexing twice *)

Lemma last_default :
  forall (l : list Timestamp) (a d d' : Timestamp),
    last (a :: l) d = last (a :: l) d'.
Proof.
  induction l as [ | b rest IH ]; intros a d d'; [ reflexivity | ].
  change (last (b :: rest) d = last (b :: rest) d'). apply IH.
Qed.

Lemma last_in :
  forall (l : list Timestamp) (a d : Timestamp), In (last (a :: l) d) (a :: l).
Proof.
  induction l as [ | b rest IH ]; intros a d; [ left; reflexivity | ].
  right. change (In (last (b :: rest) d) (b :: rest)). apply IH.
Qed.

Section SteppingTwice.
Variable step : Timestamp -> Timestamp.
Hypothesis step_later : forall t : Timestamp, t < step t.

Lemma step_until_head :
  forall (fuel : nat) (cur stop a : Timestamp) (l : list Timestamp),
    step_until step cur stop fuel = a :: l ->
    a = cur /\ cur <= stop
    /\ exists k : nat, l = step_until step (step cur) stop k.
Proof.
  intros [ | k ] cur stop a l; cbn [step_until]; [ discriminate | ].
  destruct (cur <=? stop) eqn:Hle; [ | discriminate ].
  apply Z.leb_le in Hle. intros Hrun. inversion Hrun; subst.
  split; [ reflexivity | ]. split; [ assumption | ]. exists k. reflexivity.
Qed.

Lemma step_until_not_before :
  forall (fuel : nat) (cur stop : Timestamp),
    Forall (fun t => cur <= t) (step_until step cur stop fuel).
Proof.
  induction fuel as [ | k IH ]; intros cur stop; cbn [step_until];
    [ constructor | ].
  destruct (cur <=? stop); [ | constructor ].
  constructor; [ lia | ].
  pose proof (step_later cur).
  eapply Forall_impl; [ | exact (IH (step cur) stop) ]. cbv beta. intros t Ht. lia.
Qed.

(** Generating again, up to the last date generated, gives the same
    dates. *)
Lemma step_until_again :
  forall (fuel : nat) (cur stop a : Timestamp) (l : list Timestamp),
    step_until step cur stop fuel = a :: l ->
    forall fuel' : nat,
      (Z.to_nat (last (a :: l) a - a + 1) <= fuel')%nat ->
      step_until step a (last (a :: l) a) fuel' = a :: l.
Proof.
  induction fuel as [ | k IH ]; intros cur stop a l; cbn [step_until];
    [ discriminate | ].
  destruct (cur <=? stop) eqn:Hle; [ | discriminate ].
  intros Hrun fuel' Hfuel. injection Hrun as Ha Hl. subst a.
  pose proof (step_later cur) as Hlater.
  destruct l as [ | b l' ].
  - cbn [last] in *. destruct fuel' as [ | k' ]; [ lia | ].
    cbn [step_until]. rewrite Z.leb_refl. f_equal.
    destruct k'; cbn [step_until]; [ reflexivity | ].
    destruct (step cur <=? cur) eqn:Hback; [ | reflexivity ].
    apply Z.leb_le in Hback. lia.
  - destruct (step_until_head k (step cur) stop b l' Hl) as (Hb & _ & _).
    subst b.
    assert (Hlast : last (cur :: step cur :: l') cur
                    = last (step cur :: l') (step cur)).
    { change (last (step cur :: l') cur = last (step cur :: l') (step cur)).
      apply last_default. }
    rewrite Hlast in *.
    set (z := last (step cur :: l') (step cur)) in *.
    assert (Hz : step cur <= z).
    { pose proof (step_until_not_before k (step cur) stop) as Hall.
      rewrite Hl in Hall. rewrite Forall_forall in Hall. apply Hall.
      subst z. apply last_in. }
    destruct fuel' as [ | k' ]; [ lia | ].
    cbn [step_until].
    assert (Hcur : (cur <=? z) = true) by (apply Z.leb_le; lia).
    rewrite Hcur. f_equal.
    apply (IH (step cur) stop (step cur) l' Hl). fold z. lia.
Qed.
End SteppingTwice.

Lemma increasing_no_adjacent_dup :
  forall l : list Timestamp, adjacent Z.lt l -> has_adjacent_dup l = false.
Proof.
  induction l as [ | a [ | b rest ] IH ]; intros Hinc; [ reflexivity | reflexivity | ].
  destruct Hinc as [Hab Hrest].
  change (has_adjacent_dup (a :: b :: rest))
    with ((a =? b) || has_adjacent_dup (b :: rest)).
  rewrite (IH Hrest). apply orb_false_iff. split; [ apply Z.eqb_neq; lia | reflexivity ].
Qed.

Section ReindexingTwice.
Context `{Libraries}.

(** In a series made by re-indexing, the value current at one of its
    own timestamps is the value of its row there. *)
Lemma pad_own_timestamp :
  forall (g : Timestamp -> float) (l : list Timestamp) (t : Timestamp),
    adjacent Z.le l -> In t l ->
    pad (map (fun t => (t, g t)) l) t = g t.
Proof.
  intros g l t Hsorted Hin.
  assert (Hidx : index (map (fun t => (t, g t)) l) = l).
  { unfold index. rewrite map_map. cbn [fst]. apply map_id. }
  destruct l as [ | first rest ] eqn:Hl; [ destruct Hin | ]. rewrite <- Hl in *.
  assert (Hfirst : first <= t).
  { rewrite Hl in Hsorted, Hin. destruct Hin as [E | Hin]; [ lia | ].
    pose proof (sorted_head_least first rest Hsorted) as Hleast.
    rewrite Forall_forall in Hleast. apply Hleast. exact Hin. }
  destruct (pad_current (map (fun t => (t, g t)) l) t first)
    as (t0 & Hin0 & Hle0 & Hmax).
  - rewrite Hidx. exact Hsorted.
  - rewrite Hidx, Hl. reflexivity.
  - exact Hfirst.
  - rewrite Hidx in Hmax. rewrite Forall_forall in Hmax.
    pose proof (Hmax t Hin (Z.le_refl t)) as Hge.
    assert (t0 = t) by lia. subst t0.
    apply in_map_iff in Hin0. destruct Hin0 as (t' & Erow & _).
    inversion Erow; subst t'. congruence.
Qed.

(** A series that [asfreq] made is left as it is by [asfreq] at any
    alias of the same calendar. *)
Lemma asfreq_again :
  forall (d d' : Series float) (freq freq' : string),
    asfreq d freq = Ok d' ->
    to_offset freq' = to_offset freq ->
    asfreq d' freq' = Ok d'.
Proof.
  intros d d' freq freq' Hre Hsame.
  destruct (to_offset freq) as [o | e] eqn:Ho.
  2:{ unfold asfreq, date_range_between in Hre. rewrite Ho in Hre.
      destruct (index d) as [ | first rest ] eqn:Hidx; [ | discriminate ].
      inversion Hre; subst d'. unfold asfreq. rewrite Hidx. reflexivity. }
  destruct (asfreq_on_calendar d d' freq o Ho Hre) as (Hon & Hadj & _).
  pose proof (to_offset_anchored freq o Ho) as Hwd.
  unfold asfreq in Hre. destruct (index d) as [ | first rest ] eqn:Hidx.
  { inversion Hre; subst d'. unfold asfreq. rewrite Hidx. reflexivity. }
  unfold date_range_between in Hre. rewrite Ho in Hre. cbn [bind] in Hre.
  destruct (has_adjacent_dup (first :: rest)); [ discriminate | ].
  set (stop := last (first :: rest) first) in *.
  set (fuel := Z.to_nat (stop - first + 1)) in *.
  destruct (generate_until o (rollforward o first) stop fuel) as [ | a l ] eqn:Hgen.
  { inversion Hre; subst d'. reflexivity. }
  injection Hre as Hd'. subst d'.
  change ((a, pad d a) :: map (fun t : Timestamp => (t, pad d t)) l)
    with (map (fun t : Timestamp => (t, pad d t)) (a :: l)) in *.
  rewrite index_of_reindexed in Hon, Hadj.
  unfold asfreq. rewrite index_of_reindexed.
  unfold date_range_between. rewrite Hsame. cbn [bind].
  assert (Ha : rollforward o a = a).
  { unfold rollforward. inversion Hon as [ | ? ? Hona _ ]. rewrite Hona. reflexivity. }
  rewrite Ha.
  assert (Hinc : adjacent Z.lt (a :: l)).
  { apply (adjacent_weaken (follows o)); [ intros x y [_ E]; exact E | exact Hadj ]. }
  rewrite (increasing_no_adjacent_dup (a :: l) Hinc).
  unfold generate_until in *.
  rewrite (step_until_again (next_on o) (fun t => next_on_later o t Hwd)
             fuel (rollforward o first) stop a l Hgen);
    [ | apply Nat.le_refl ].
  f_equal. apply map_ext_in. intros t Hin. f_equal.
  apply (pad_own_timestamp (fun t => pad d t) (a :: l) t); [ | exact Hin ].
  apply (adjacent_weaken Z.lt); [ intros x y; lia | exact Hinc ].
Qed.

(** Forecasting again.  After a successful forecast the service holds
    the re-indexed series; a second request whose frequency names the
    same calendar (as "W" and "W-SUN" do) re-indexes it to itself, so
    the stored series and the history shown are those of the first
    forecast, however often the request is repeated. *)
Theorem second_forecast_keeps_series :
  forall (steps steps' : Z) (self self' : CustomDataForecastService.t)
         (r : CustomDataForecastService.Response)
         (d' : Series float) (freq freq' : string),
    CustomDataForecastService.train_model_and_predict steps self = (r, self') ->
    success r = true ->
    option_map CustomDataForecastService.frequency (model_info r) = Some freq ->
    CustomDataForecastService.data self' = Some d' ->
    CustomDataForecastService.determine_freq (index d') = Ok freq' ->
    to_offset freq' = to_offset freq ->
    CustomDataForecastService.data
      (snd (CustomDataForecastService.train_model_and_predict steps' self'))
    = Some d'
    /\ forall h : Historical float,
         historical_data
           (fst (CustomDataForecastService.train_model_and_predict steps' self'))
         = Some h ->
         historical_data r = Some h.
Proof.
  intros steps steps' self self' r d' freq freq' Hrun Hok Hfreq Hdata' Hdet Hsame.
  destruct (train_success_inv steps self self' r Hrun Hok)
    as (d & d0 & freq0 & m & vals & ci & last_date & future & Hdata & _ & Hre
        & _ & _ & _ & _ & _ & _ & Hh & Hfreq0 & Hself).
  assert (freq0 = freq) by congruence. subst freq0.
  assert (d0 = d') by (subst self'; cbn in Hdata'; congruence). subst d0.
  pose proof (asfreq_again d d' freq freq' Hre Hsame) as Hagain.
  unfold CustomDataForecastService.train_model_and_predict.
  rewrite Hdata', Hdet. cbn [bind]. rewrite Hagain. cbn [bind].
  destruct (SARIMAX_fit _ d') as [m' | e]; [ | split; [ reflexivity | discriminate ] ].
  destruct (CustomDataForecastService.predict_fitted _ d' freq' m' steps')
    as [r' | e] eqn:Hpredict; [ | split; [ reflexivity | discriminate ] ].
  split; [ reflexivity | ]. cbn [fst]. intros h Hh'.
  unfold CustomDataForecastService.predict_fitted in Hpredict.
  destruct (forecast m' steps'); [ | discriminate ].
  destruct (conf_int m' steps'); [ | discriminate ].
  destruct (py_last (index d')); [ | discriminate ]. cbn [bind] in Hpredict.
  destruct (CustomDataForecastService.future_dates freq' _ steps');
    [ | discriminate ].
  cbn [bind] in Hpredict. inversion Hpredict; subst r'. cbn in Hh'.
  rewrite Hh. exact Hh'.
Qed.
End ReindexingTwice.

(** The uneven upload: the first forecast runs at the heuristic "W",
    the second at "W-SUN", the name of the same calendar. *)
Lemma second_forecast_keeps_series_witness :
  let L := Reference.libraries (Ok Reference.uneven_csv) true true in
  let first := CustomDataForecastService.train_model_and_predict 3
                 (Reference.uploaded L) in
  let second := CustomDataForecastService.train_model_and_predict 3 (snd first) in
  (option_map CustomDataForecastService.frequency (model_info (fst first))
   = Some "W"
   /\ option_map CustomDataForecastService.frequency (model_info (fst second))
      = Some "W-SUN")
  /\ CustomDataForecastService.data (snd second)
     = CustomDataForecastService.data (snd first)
  /\ forall h : Historical float,
       historical_data (fst second) = Some h ->
       historical_data (fst first) = Some h.
Proof.
  intros L first second. split; [ split; vm_compute; reflexivity | ].
  pose (d' := combine (generate (Week 6) (days_from_civil 2023 1 1) 10)
                      [10; 11; 12; 13; 14; 15; 16; 17; 18; 19] : Series float).
  assert (Hdata : CustomDataForecastService.data (snd first) = Some d')
    by (vm_compute; reflexivity).
  rewrite Hdata.
  apply (@second_forecast_keeps_series L 3 3 (Reference.uploaded L) (snd first)
           (fst first) d' "W" "W-SUN");
    try reflexivity; vm_compute; reflexivity.
Defined.

(* ================================================================== *)
(** ** The bundled model: forecast dates *)

(** The dates of a forecast of the bundled model are [steps] month
    starts, each the month after the one before, formatted as year and
    month; the first is the first month start at or after the last
    timestamp of the data plus one month.  When the data end on a
    month start, the forecast starts the month after it; when the data
    are consecutive month starts, as the airline data are, history
    followed by forecast is a run of consecutive month starts. *)
Theorem bundled_forecast_months `{Libraries} :
  forall (steps : Z) (self : ARIMAModel.t) (p : Predictions float),
    fst (ARIMAModel.predict steps self) = Ok p ->
    exists (d : Series float) (last_date : Timestamp) (future : list Timestamp),
      ARIMAModel.data self = Some d
      /\ py_last (index d) = Ok last_date
      /\ dates p = map strftime_ym future
      /\ List.length future = Z.to_nat steps
      /\ on_calendar MonthBegin future
      /\ adjacent (follows MonthBegin) future
      /\ (1 <= steps ->
          hd_error future
          = Some (rollforward MonthBegin (add_months last_date 1)))
      /\ (on_offset MonthBegin last_date = true ->
          adjacent (follows MonthBegin) (last_date :: future))
      /\ (on_calendar MonthBegin (index d) ->
          adjacent (follows MonthBegin) (index d) ->
          on_calendar MonthBegin (index d ++ future)%list
          /\ adjacent (follows MonthBegin) (index d ++ future)%list).
Proof.
  intros steps self p. unfold ARIMAModel.predict. cbn [fst].
  destruct (ARIMAModel.model self) as [m | ]; [ | discriminate ].
  destruct (forecast m steps) as [vals | e]; [ | discriminate ].
  destruct (conf_int m steps) as [ci | e]; [ | discriminate ].
  cbn [bind].
  destruct (ARIMAModel.data self) as [d | ]; [ | discriminate ].
  destruct (py_last (index d)) as [last_date | e] eqn:Hlast; [ | discriminate ].
  cbn [bind]. unfold date_range_periods.
  change (to_offset "MS") with (Ok MonthBegin). cbn [bind].
  destruct (steps <? 0) eqn:Hneg; [ discriminate | ].
  cbn [bind]. intros Hp. inversion Hp; subst p. clear Hp.
  set (start := rollforward MonthBegin (add_months last_date 1)).
  exists d, last_date, (generate MonthBegin start (Z.to_nat steps)).
  destruct (generate_on_calendar MonthBegin (Z.to_nat steps) start I
              (rollforward_on_calendar MonthBegin (add_months last_date 1) I))
    as [Hon Hadj].
  split; [ reflexivity | ]. split; [ exact Hlast | ]. split; [ reflexivity | ].
  split; [ apply step_from_length | ]. split; [ exact Hon | ].
  split; [ exact Hadj | ].
  assert (Hnext : on_offset MonthBegin last_date = true ->
                  adjacent (follows MonthBegin)
                    (last_date :: generate MonthBegin start (Z.to_nat steps))).
  { intros Hmonth.
    assert (Hstart : start = next_on MonthBegin last_date).
    { subst start. rewrite <- (next_month_is_one_month last_date Hmonth).
      unfold rollforward. rewrite (next_on_calendar MonthBegin last_date I).
      reflexivity. }
    destruct (Z.to_nat steps) as [ | k ]; [ exact I | ].
    change (generate MonthBegin start (S k))
      with (start :: generate MonthBegin (next_on MonthBegin start) k) in *.
    split; [ | exact Hadj ].
    split; [ exact Hstart | ].
    rewrite Hstart. apply (next_on_later MonthBegin last_date I). }
  split; [ | split; [ exact Hnext | ] ].
  - intros Hsteps. destruct (Z.to_nat steps) as [ | k ] eqn:Hk; [ lia | ].
    reflexivity.
  - intros Hmonths Hrun.
    destruct (py_last_inv (index d) last_date Hlast) as [front Hfront].
    assert (Hmonth : on_offset MonthBegin last_date = true).
    { unfold on_calendar in Hmonths. rewrite Forall_forall in Hmonths.
      apply Hmonths. rewrite Hfront. apply in_or_app. right. left. reflexivity. }
    split.
    + unfold on_calendar in *. apply Forall_app. split; assumption.
    + rewrite Hfront in *. apply adjacent_app; [ exact Hrun | ].
      apply Hnext. exact Hmonth.
Qed.

(** Twelve months of 1960, three months ahead. *)
Lemma bundled_forecast_months_witness :
  let L := Reference.libraries (Ok Reference.daily_csv) true true in
  let self := ARIMAModel.mk (Some Reference.passengers) (Some Reference.passengers) in
  let p := mkPredictions ["1961-01"; "1961-02"; "1961-03"] [412; 412; 412]
                         [410; 408; 406] [414; 416; 418] in
  (fst (ARIMAModel.predict 3 self) = Ok p
   /\ on_calendar MonthBegin (index Reference.passengers)
   /\ adjacent (follows MonthBegin) (index Reference.passengers))
  /\ exists (d : Series float) (last_date : Timestamp) (future : list Timestamp),
       ARIMAModel.data self = Some d
       /\ py_last (index d) = Ok last_date
       /\ dates p = map strftime_ym future
       /\ List.length future = Z.to_nat 3
       /\ on_calendar MonthBegin future
       /\ adjacent (follows MonthBegin) future
       /\ (1 <= 3 ->
           hd_error future
           = Some (rollforward MonthBegin (add_months last_date 1)))
       /\ (on_offset MonthBegin last_date = true ->
           adjacent (follows MonthBegin) (last_date :: future))
       /\ (on_calendar MonthBegin (index d) ->
           adjacent (follows MonthBegin) (index d) ->
           on_calendar MonthBegin (index d ++ future)%list
           /\ adjacent (follows MonthBegin) (index d ++ future)%list).
Proof.
  intros L self p. split.
  - split; [ vm_compute; reflexivity | ].
    split; [ repeat constructor | vm_compute; repeat split ].
  - apply (@bundled_forecast_months L 3 self p). vm_compute. reflexivity.
Defined.

(* ================================================================== *)
(** ** The bundled model: loading and status *)

Section BundledStatus.
Context `{Libraries}.

(** Loading is all or nothing: the model object holds the fitted model
    and the data when both files were unpickled, and neither of them
    otherwise.  The status reports [model_loaded] exactly when both
    were unpickled and the data frame has a row: over an empty frame
    the summary cannot be built, and the status reports the model as
    not loaded although it is held. *)
Theorem model_loaded_iff_both_files :
  forall fs : ARIMAModel.Files,
    let svc := ForecastService.init fs in
    ((ARIMAModel.model (ForecastService.model svc) = None
      /\ ARIMAModel.data (ForecastService.model svc) = None)
     \/ (exists (m : FittedModel) (d : Series float),
            ARIMAModel.trained_model_pkl fs = Ok m
            /\ ARIMAModel.processed_data_pkl fs = Ok d
            /\ ForecastService.model svc = ARIMAModel.mk (Some m) (Some d)))
    /\ (ForecastService.model_loaded (ForecastService.get_model_status svc) = true
        <-> exists (m : FittedModel) (d : Series float),
              ARIMAModel.trained_model_pkl fs = Ok m
              /\ ARIMAModel.processed_data_pkl fs = Ok d
              /\ d <> []).
Proof.
  intros fs svc. subst svc.
  unfold ForecastService.init, ARIMAModel.init, ARIMAModel.load_model.
  destruct (ARIMAModel.trained_model_pkl fs) as [m | e].
  2:{ split; [ left; split; reflexivity | ].
      split; [ discriminate | intros (m & d & Hm & _); discriminate ]. }
  destruct (ARIMAModel.processed_data_pkl fs) as [d | e].
  2:{ split; [ left; split; reflexivity | ].
      split; [ discriminate | intros (m' & d & _ & Hd & _); discriminate ]. }
  split; [ right; exists m, d; repeat split | ].
  unfold ForecastService.get_model_status, ARIMAModel.get_model_info.
  cbn [ForecastService.model ARIMAModel.model ARIMAModel.data].
  destruct d as [ | row rest ].
  - cbn. split; [ discriminate | ].
    intros (m' & d & _ & Hd & Hne). inversion Hd; subst d. congruence.
  - destruct (py_last (index (row :: rest))) as [l | e] eqn:Hlast.
    + cbn. split; [ | reflexivity ].
      intros _. exists m, (row :: rest). repeat split. discriminate.
    + exfalso. unfold py_last in Hlast.
      destruct (rev (index (row :: rest))) eqn:Hrev; [ | discriminate ].
      apply (f_equal (@List.length Timestamp)) in Hrev.
      rewrite length_rev in Hrev. discriminate.
Qed.
End BundledStatus.

(* ================================================================== *)
(** ** The handlers of the bundled model *)

Section BundledHandlers.
Context `{Libraries}.

Lemma get_forecast_without_plot :
  forall (steps : Z) (svc : ForecastService.t),
    plot (fst (ForecastService.get_forecast steps svc)) = NoPlotKey.
Proof.
  intros steps [m]. unfold ForecastService.get_forecast.
  destruct (ARIMAModel.predict steps _) as [predicted m'].
  destruct (predictions <- predicted ;; _) as [[[p h] i] | e]; reflexivity.
Qed.

(** When [POST /api/forecast] answers a request for [n] months with a
    body, [n] is within 1..60, the body is a success that carries a
    chart, and [GET /api/forecast/n] answers the same body without the
    chart. *)
Theorem post_forecast_extends_get :
  forall (n : Z) (svc svc' : ForecastService.t)
         (body : ForecastService.Response),
    Main.create_forecast n svc = (Json body, svc') ->
    1 <= n <= 60
    /\ success body = true
    /\ steps body = Some n
    /\ (exists plot_base64 : string, plot body = PlotImage plot_base64)
    /\ Main.get_forecast n svc = (Json (set_plot body NoPlotKey), svc).
Proof.
  intros n svc svc' body. unfold Main.create_forecast, Main.get_forecast.
  destruct ((n <? 1) || (60 <? n)) eqn:Hb; [ discriminate | ].
  apply orb_false_iff in Hb. destruct Hb as [Hlo Hhi].
  apply Z.ltb_ge in Hlo, Hhi.
  unfold ForecastService.get_forecast_with_plot.
  pose proof (get_forecast_without_plot n svc) as Hnoplot.
  pose proof (get_forecast_reads_only n svc) as Hsame.
  assert (Hsteps : success (fst (ForecastService.get_forecast n svc)) = true ->
                   steps (fst (ForecastService.get_forecast n svc)) = Some n).
  { destruct svc as [m]. unfold ForecastService.get_forecast.
    destruct (ARIMAModel.predict n _) as [predicted m'].
    destruct (predictions <- predicted ;; _) as [[[p h] i] | e];
      [ reflexivity | discriminate ]. }
  destruct (ForecastService.get_forecast n svc) as [result svc1].
  cbn [fst snd] in *. subst svc1.
  destruct (success result) eqn:Hok.
  - destruct (predictions <- _ ;; ARIMAModel.generate_plot predictions _)
      as [img | e].
    + cbn [set_plot success negb]. rewrite Hok. cbn [negb].
      intros Hrun. inversion Hrun; subst body svc'. cbn.
      split; [ lia | ]. split; [ exact Hok | ]. split; [ exact (Hsteps eq_refl) | ].
      split; [ exists img; reflexivity | ].
      destruct result; cbn in *. subst. reflexivity.
    + cbn [success negb]. discriminate.
  - rewrite Hok. cbn [negb]. discriminate.
Qed.

(** A failed load, seen from the routes: the start-up hook prints the
    warning, the home page is told that no model is loaded, the two API
    routes answer 400 outside 1..60 and 500 "Modèle non chargé" within,
    and the form renders results.html around the same failure. *)
Theorem load_failure_at_the_routes :
  forall fs : ARIMAModel.Files,
    is_ok (ARIMAModel.trained_model_pkl fs) = false
    \/ is_ok (ARIMAModel.processed_data_pkl fs) = false ->
    let svc := ForecastService.init fs in
    let not_loaded : ForecastService.Response :=
      mkResponse false (Some "Modèle non chargé") None None None None NoPlotKey in
    let info := Some (ARIMAModel.InfoError "Modèle non chargé") in
    Main.startup_event svc
    = ["⚠️  Attention: Modèle non chargé!";
       "📝 Veuillez exécuter: python scripts/train_model.py"]
    /\ Main.home svc = Rendered "index.html" (Main.mkIndex false info None)
    /\ Main.get_status svc = ForecastService.mkStatus true false info None
    /\ forall steps : Z,
         (1 <= steps <= 60 ->
          Main.create_forecast steps svc
          = (HTTPException 500 "Modèle non chargé", svc)
          /\ Main.get_forecast steps svc
             = (HTTPException 500 "Modèle non chargé", svc))
         /\ (steps < 1 \/ 60 < steps ->
             Main.create_forecast steps svc
             = (HTTPException 400 "Le nombre de mois doit être entre 1 et 60", svc)
             /\ Main.get_forecast steps svc
                = (HTTPException 400 "Le nombre de mois doit être entre 1 et 60", svc))
         /\ Main.forecast_form steps svc
            = (Rendered "results.html" (Main.mkResults not_loaded steps info), svc).
Proof.
  intros fs Hfail svc not_loaded info. subst svc.
  unfold ForecastService.init. rewrite (failed_load_resets fs Hfail).
  split; [ reflexivity | ]. split; [ reflexivity | ]. split; [ reflexivity | ].
  intros steps. unfold Main.create_forecast, Main.get_forecast.
  split; [ | split ].
  - intros [Hlo Hhi].
    assert (Hb : (steps <? 1) || (60 <? steps) = false).
    { apply orb_false_iff. split; apply Z.ltb_ge; assumption. }
    rewrite Hb. split; reflexivity.
  - intros Hout.
    assert (Hb : (steps <? 1) || (60 <? steps) = true).
    { apply orb_true_iff. destruct Hout as [Hlo | Hhi];
        [ left; apply Z.ltb_lt | right; apply Z.ltb_lt ]; assumption. }
    rewrite Hb. split; reflexivity.
  - reflexivity.
Qed.
End BundledHandlers.

(** The data file is there; the model file is missing. *)
Lemma load_failure_at_the_routes_witness :
  let L := Reference.libraries (Ok Reference.daily_csv) true true in
  let fs := ARIMAModel.mkFiles
              (Raise (mkExn FileNotFoundError
                        "[Errno 2] No such file or directory: 'trained_model.pkl'"))
              (Ok Reference.passengers) in
  let svc := ForecastService.init fs in
  Main.home svc
  = Rendered "index.html"
      (Main.mkIndex false (Some (ARIMAModel.InfoError "Modèle non chargé")) None)
  /\ Main.create_forecast 12 svc = (HTTPException 500 "Modèle non chargé", svc)
  /\ Main.get_forecast 0 svc
     = (HTTPException 400 "Le nombre de mois doit être entre 1 et 60", svc).
Proof.
  intros L fs svc.
  destruct (@load_failure_at_the_routes L fs (or_introl eq_refl))
    as (_ & Hhome & _ & Hroutes).
  split; [ exact Hhome | ].
  destruct (Hroutes 12) as (Hin & _ & _).
  destruct (Hroutes 0) as (_ & Hout & _).
  split; [ apply Hin; lia | apply Hout; lia ].
Defined.

(** Three months of the bundled model, with a chart. *)
Lemma post_forecast_extends_get_witness :
  let L := Reference.libraries (Ok Reference.daily_csv) true true in
  let svc := ForecastService.init
               (ARIMAModel.mkFiles (Ok Reference.passengers)
                                   (Ok Reference.passengers)) in
  let body := fst (ForecastService.get_forecast_with_plot 3 svc) in
  Main.create_forecast 3 svc = (Json body, svc)
  /\ 1 <= 3 <= 60
  /\ success body = true
  /\ steps body = Some 3
  /\ (exists plot_base64 : string, plot body = PlotImage plot_base64)
  /\ Main.get_forecast 3 svc = (Json (set_plot body NoPlotKey), svc).
Proof.
  intros L svc body. split; [ reflexivity | ].
  apply (@post_forecast_extends_get L 3 svc svc body). reflexivity.
Defined.

(* ================================================================== *)
(** ** The bundled facade: what a forecast is made of *)

(** [get_forecast] fails only when [predict] does.  When [predict]
    succeeds the answer holds its predictions, the whole data as
    history (dates by year and month), the summary with the number of
    rows and the last month, and [steps]; when it raises, the answer is
    the failure with the message of the exception. *)
Theorem bundled_forecast_follows_predict `{Libraries} :
  forall (n : Z) (svc : ForecastService.t),
    let r := fst (ForecastService.get_forecast n svc) in
    (success r = is_ok (fst (ARIMAModel.predict n (ForecastService.model svc))))
    /\ (forall p : Predictions float,
          fst (ARIMAModel.predict n (ForecastService.model svc)) = Ok p ->
          exists (d : Series float) (last_date : Timestamp),
            ARIMAModel.data (ForecastService.model svc) = Some d
            /\ py_last (index d) = Ok last_date
            /\ r = mkResponse true None (Some p)
                     (Some (mkHistorical (map strftime_ym (index d))
                                         (column_values d)))
                     (Some (ARIMAModel.InfoModel "SARIMAX" "(1, 1, 1)"
                              "(1, 1, 1, 12)" (List.length d)
                              (Some (strftime_ym last_date))))
                     (Some n) NoPlotKey)
    /\ (forall e : exn,
          fst (ARIMAModel.predict n (ForecastService.model svc)) = Raise e ->
          r = mkResponse false (Some (exn_msg e)) None None None None NoPlotKey).
Proof.
  intros n [m] r. subst r.
  unfold ForecastService.get_forecast, ARIMAModel.predict,
    ARIMAModel.get_historical_data, ARIMAModel.get_model_info.
  cbn [ForecastService.model fst snd].
  destruct (ARIMAModel.model m) as [fit | ].
  2:{ cbn. split; [ reflexivity | ].
      split; [ discriminate | intros e He; inversion He; reflexivity ]. }
  destruct (forecast fit n) as [vals | e1].
  2:{ cbn. split; [ reflexivity | ].
      split; [ discriminate | intros e He; inversion He; reflexivity ]. }
  destruct (conf_int fit n) as [ci | e2].
  2:{ cbn. split; [ reflexivity | ].
      split; [ discriminate | intros e He; inversion He; reflexivity ]. }
  cbn [bind].
  destruct (ARIMAModel.data m) as [d | ].
  2:{ cbn. split; [ reflexivity | ].
      split; [ discriminate | intros e He; inversion He; reflexivity ]. }
  destruct (py_last (index d)) as [last_date | e3] eqn:Hlast.
  2:{ cbn. split; [ reflexivity | ].
      split; [ discriminate | intros e He; inversion He; reflexivity ]. }
  cbn [bind].
  destruct (date_range_periods (add_months last_date 1) n "MS") as [future | e4].
  2:{ cbn. split; [ reflexivity | ].
      split; [ discriminate | intros e He; inversion He; reflexivity ]. }
  cbn. split; [ reflexivity | ]. split; [ | discriminate ].
  intros p Hp. inversion Hp; subst p. exists d, last_date.
  split; [ reflexivity | ]. split; [ exact Hlast | reflexivity ].
Qed.

(* ================================================================== *)
(** ** The upload facade: the stored model is never read *)

(** [self.model] is written by every fit and read by nothing: two
    services that differ in it alone answer a forecast request alike,
    and hold the same series afterwards.  Each forecast is made by a
    model fitted during the call, never by one left from an earlier call
    or an earlier upload. *)
Theorem forecast_ignores_stored_model `{Libraries} :
  forall (n : Z) (d : option (Series float)) (m1 m2 : option FittedModel)
         (i : option CustomDataForecastService.DataInfo),
    let run1 := CustomDataForecastService.train_model_and_predict n
                  (CustomDataForecastService.mk d m1 i) in
    let run2 := CustomDataForecastService.train_model_and_predict n
                  (CustomDataForecastService.mk d m2 i) in
    fst run1 = fst run2
    /\ CustomDataForecastService.data (snd run1)
       = CustomDataForecastService.data (snd run2)
    /\ (success (fst run1) = true -> snd run1 = snd run2).
Proof.
  intros n d m1 m2 i run1 run2. subst run1 run2.
  unfold CustomDataForecastService.train_model_and_predict.
  cbn [CustomDataForecastService.data CustomDataForecastService.model
       CustomDataForecastService.info].
  destruct d as [d | ]; [ | repeat split; discriminate ].
  destruct (freq <- CustomDataForecastService.determine_freq (index d) ;;
            d' <- asfreq d freq ;; Ok (freq, d')) as [[freq d'] | e];
    [ | repeat split; discriminate ].
  destruct (SARIMAX_fit _ d') as [fit | e]; [ | repeat split; discriminate ].
  unfold CustomDataForecastService.predict_fitted.
  cbn [CustomDataForecastService.info].
  destruct (forecast fit n); [ | repeat split; discriminate ].
  destruct (conf_int fit n); [ | repeat split; discriminate ].
  destruct (py_last (index d')); [ | repeat split; discriminate ].
  cbn [bind].
  destruct (CustomDataForecastService.future_dates freq _ n); repeat split.
Qed.

(* ================================================================== *)
(** ** The upload facade: repeated timestamps *)

Lemma increasing_nodup :
  forall l : list Timestamp, adjacent Z.lt l -> NoDup l.
Proof.
  induction l as [ | a rest IH ]; intros Hinc; [ constructor | ].
  constructor; [ | apply IH; apply (adjacent_tail Z.lt a rest Hinc) ].
  intros Hin.
  assert (Hle : adjacent Z.le (a :: rest))
    by (apply (adjacent_weaken Z.lt); [ intros x y; lia | exact Hinc ]).
  destruct rest as [ | b rest' ]; [ destruct Hin | ].
  destruct Hinc as [Hab Hrest].
  pose proof (sorted_head_least b rest'
                (adjacent_tail Z.le a (b :: rest') Hle)) as Hleast.
  rewrite Forall_forall in Hleast.
  destruct Hin as [E | Hin]; [ lia | ]. specialize (Hleast a Hin). lia.
Qed.

Lemma sorted_without_adjacent_dup :
  forall l : list Timestamp,
    adjacent Z.le l -> has_adjacent_dup l = false -> adjacent Z.lt l.
Proof.
  induction l as [ | a [ | b rest ] IH ]; intros Hsorted Hdup;
    [ exact I | exact I | ].
  destruct Hsorted as [Hab Hrest].
  change (has_adjacent_dup (a :: b :: rest))
    with ((a =? b) || has_adjacent_dup (b :: rest)) in Hdup.
  apply orb_false_iff in Hdup. destruct Hdup as [Hne Hdup].
  apply Z.eqb_neq in Hne. split; [ lia | ]. apply IH; assumption.
Qed.

(** Validation keeps rows that share a timestamp; [asfreq] then refuses
    the series.  For a stored series in time order in which a
    timestamp occurs twice, every forecast whose frequency is a known
    alias fails at re-indexing and leaves the service as it was: such an
    upload is accepted and can never be forecast. *)
Theorem repeated_timestamp_blocks_forecast `{Libraries} :
  forall (n : Z) (self : CustomDataForecastService.t) (d : Series float)
         (freq : string) (o : Offset),
    CustomDataForecastService.data self = Some d ->
    adjacent Z.le (index d) ->
    ~ NoDup (index d) ->
    CustomDataForecastService.determine_freq (index d) = Ok freq ->
    to_offset freq = Ok o ->
    CustomDataForecastService.train_model_and_predict n self
    = (CustomDataForecastService.failed
         "Erreur lors de la prédiction: cannot reindex a non-unique index with a method or limit",
       self).
Proof.
  intros n self d freq o Hdata Hsorted Hdup Hfreq Ho.
  assert (Hadj : has_adjacent_dup (index d) = true).
  { destruct (has_adjacent_dup (index d)) eqn:E; [ reflexivity | ].
    exfalso. apply Hdup. apply increasing_nodup.
    apply sorted_without_adjacent_dup; assumption. }
  unfold CustomDataForecastService.train_model_and_predict.
  rewrite Hdata, Hfreq. cbn [bind]. unfold asfreq.
  destruct (index d) as [ | first rest ] eqn:Hidx; [ discriminate | ].
  unfold date_range_between. rewrite Ho. cbn [bind]. rewrite Hadj. reflexivity.
Qed.

(** Ten rows, two of them dated 2024-02-27: the upload is accepted, and
    the forecast is refused. *)
Lemma repeated_timestamp_blocks_forecast_witness :
  let L := Reference.libraries (Ok Reference.repeated_csv) true true in
  CustomDataForecastService.v_success
    (fst (CustomDataForecastService.validate_and_process_csv "Date,Sales"
            CustomDataForecastService.init)) = true
  /\ CustomDataForecastService.train_model_and_predict 5 (Reference.uploaded L)
     = (CustomDataForecastService.failed
          "Erreur lors de la prédiction: cannot reindex a non-unique index with a method or limit",
        Reference.uploaded L).
Proof.
  intros L. split; [ reflexivity | ].
  pose (d := combine [days_from_civil 2024 2 25; days_from_civil 2024 2 26;
                      days_from_civil 2024 2 27; days_from_civil 2024 2 27;
                      days_from_civil 2024 2 28; days_from_civil 2024 2 29;
                      days_from_civil 2024 3 1; days_from_civil 2024 3 2;
                      days_from_civil 2024 3 3; days_from_civil 2024 3 4]
                     [10; 12; 11; 13; 14; 13; 15; 16; 15; 17] : Series float).
  apply (@repeated_timestamp_blocks_forecast L 5 (Reference.uploaded L) d "D" Day).
  - vm_compute. reflexivity.
  - vm_compute. repeat split; intro; discriminate.
  - intros Hnodup. vm_compute in Hnodup.
    inversion Hnodup as [ | ? ? _ H1 ]. inversion H1 as [ | ? ? _ H2 ].
    inversion H2 as [ | ? ? Hnotin _ ]. apply Hnotin. left. reflexivity.
  - vm_compute. reflexivity.
  - reflexivity.
Defined.


(* ================================================================== *)
(** ** The upload facade: the summary of a forecast *)

Lemma py_last_map {A B : Type} :
  forall (f : A -> B) (l : list A) (a : A),
    py_last l = Ok a -> py_last (map f l) = Ok (f a).
Proof.
  intros f l a Hlast. destruct (py_last_inv l a Hlast) as [front Hfront].
  subst l. unfold py_last. rewrite map_app, rev_app_distr. reflexivity.
Qed.

(** The summary of a successful forecast describes the history returned
    with it, which is the series the service holds after the call: its
    number of points is the number of history rows, its last date is the
    last history date, its frequency is the one the dates were made
    with, and its value column is the one the upload was read from. *)
Theorem forecast_summary_matches_history `{Libraries} :
  forall (n : Z) (self self' : CustomDataForecastService.t)
         (r : CustomDataForecastService.Response),
    CustomDataForecastService.train_model_and_predict n self = (r, self') ->
    success r = true ->
    exists (d d' : Series float) (h : Historical float)
           (i : CustomDataForecastService.TrainInfo),
      CustomDataForecastService.data self = Some d
      /\ CustomDataForecastService.data self' = Some d'
      /\ historical_data r = Some h
      /\ model_info r = Some i
      /\ steps r = Some n
      /\ hist_dates h = map strftime_ymd (index d')
      /\ hist_values h = column_values d'
      /\ CustomDataForecastService.train_data_points i = List.length (hist_dates h)
      /\ List.length (hist_values h) = List.length (hist_dates h)
      /\ py_last (hist_dates h) = Ok (CustomDataForecastService.last_date i)
      /\ CustomDataForecastService.determine_freq (index d)
         = Ok (CustomDataForecastService.frequency i)
      /\ CustomDataForecastService.train_value_column i
         = match CustomDataForecastService.info self with
           | Some u => CustomDataForecastService.value_column u
           | None => "Value"
           end.
Proof.
  intros n self self' r.
  unfold CustomDataForecastService.train_model_and_predict.
  destruct (CustomDataForecastService.data self) as [d | ] eqn:Hdata;
    [ | intros Hrun; inversion Hrun; subst; discriminate ].
  destruct (CustomDataForecastService.determine_freq (index d)) as [freq | e]
    eqn:Hfreq;
    [ | intros Hrun; inversion Hrun; subst; discriminate ].
  cbn [bind].
  destruct (asfreq d freq) as [d' | e] eqn:Hre;
    [ | intros Hrun; inversion Hrun; subst; discriminate ].
  cbn [bind].
  destruct (SARIMAX_fit _ d') as [m | e] eqn:Hfit;
    [ | intros Hrun; inversion Hrun; subst; discriminate ].
  unfold CustomDataForecastService.predict_fitted.
  destruct (forecast m n) as [vals | e];
    [ | intros Hrun; inversion Hrun; subst; discriminate ].
  destruct (conf_int m n) as [ci | e];
    [ | intros Hrun; inversion Hrun; subst; discriminate ].
  destruct (py_last (index d')) as [last_date | e] eqn:Hlast;
    [ | intros Hrun; inversion Hrun; subst; discriminate ].
  cbn [bind].
  destruct (CustomDataForecastService.future_dates freq last_date n)
    as [future | e];
    [ | intros Hrun; inversion Hrun; subst; discriminate ].
  cbn [bind]. intros Hrun _. inversion Hrun; subst r self'. clear Hrun.
  exists d, d'. eexists. eexists.
  split; [ reflexivity | ].
  split; [ reflexivity | ]. split; [ reflexivity | ]. split; [ reflexivity | ].
  split; [ reflexivity | ]. split; [ reflexivity | ]. split; [ reflexivity | ].
  cbn [hist_dates hist_values CustomDataForecastService.train_data_points
       CustomDataForecastService.last_date CustomDataForecastService.frequency
       CustomDataForecastService.train_value_column
       CustomDataForecastService.info].
  unfold index, column_values. rewrite !length_map.
  split; [ reflexivity | ]. split; [ reflexivity | ].
  split; [ apply py_last_map; exact Hlast | ].
  split; [ exact Hfreq | reflexivity ].
Qed.

(** The sparse upload: the status counts the ten rows of the upload,
    the forecast the two rows left by re-indexing. *)
Lemma forecast_summary_matches_history_witness :
  let L := Reference.libraries (Ok Reference.sparse_csv) true true in
  let run :=
    CustomDataForecastService.train_model_and_predict 5 (Reference.uploaded L) in
  (option_map CustomDataForecastService.data_points
     (Main.custom_data_info (Main.get_custom_status (snd run))) = Some 10%nat
   /\ option_map CustomDataForecastService.train_data_points
        (model_info (fst run)) = Some 2%nat)
  /\ exists (d d' : Series float) (h : Historical float)
            (i : CustomDataForecastService.TrainInfo),
       CustomDataForecastService.data (Reference.uploaded L) = Some d
       /\ CustomDataForecastService.data (snd run) = Some d'
       /\ historical_data (fst run) = Some h
       /\ model_info (fst run) = Some i
       /\ steps (fst run) = Some 5
       /\ hist_dates h = map strftime_ymd (index d')
       /\ hist_values h = column_values d'
       /\ CustomDataForecastService.train_data_points i
          = List.length (hist_dates h)
       /\ List.length (hist_values h) = List.length (hist_dates h)
       /\ py_last (hist_dates h) = Ok (CustomDataForecastService.last_date i)
       /\ CustomDataForecastService.determine_freq (index d)
          = Ok (CustomDataForecastService.frequency i)
       /\ CustomDataForecastService.train_value_column i
          = match CustomDataForecastService.info (Reference.uploaded L) with
            | Some u => CustomDataForecastService.value_column u
            | None => "Value"
            end.
Proof.
  intros L run. split; [ split; reflexivity | ].
  apply (@forecast_summary_matches_history L 5 (Reference.uploaded L)
           (snd run) (fst run)); reflexivity.
Defined.

(* ================================================================== *)
(** ** Forecasting twice from the same fitted model *)

Section ForecastingTwice.
Context `{Libraries}.


Lemma predict_fitted_of_unchanging_object :
  forall (self : CustomDataForecastService.t) (d : Series float)
         (freq : string) (m : FittedModel) (steps : Z),
    ResultsObject.predict_fitted (fun m n => (forecast m n, m))
                                 (fun m n => (conf_int m n, m))
                                 self d freq m steps
    = (CustomDataForecastService.predict_fitted self d freq m steps, m).
Proof.
  intros self d freq m steps.
  unfold ResultsObject.predict_fitted, CustomDataForecastService.predict_fitted.
  destruct (forecast m steps) as [vals | e]; reflexivity.
Qed.

End ForecastingTwice.


(** A results object that ages with each call: the second forecast
    differs from the first, and the model object is no longer the one
    that was loaded. *)
Lemma ageing_object_forecasts_differ :
  let L := Reference.libraries (Ok Reference.daily_csv) true true in
  let self := ARIMAModel.mk (Some Reference.passengers) (Some Reference.passengers) in
  let predict := ResultsObject.predict Reference.ageing_forecast
                                       Reference.ageing_conf_int 3 in
  option_map values (match fst (predict self) with Ok p => Some p | Raise _ => None end)
  = Some [412; 412; 412]
  /\ option_map values
       (match fst (predict (snd (predict self))) with
        | Ok p => Some p
        | Raise _ => None
        end)
     = Some [414; 414; 414]
  /\ snd (predict self) <> self.
Proof.
  intros L self predict. split; [ reflexivity | ]. split; [ reflexivity | ].
  discriminate.
Qed.

(* ================================================================== *)
(** ** An alias whose calendar the library gives *)

(** Ten observations two days apart: [pd.infer_freq] names them "2D",
    an alias outside [known_offset]; the series is re-indexed on the
    library's calendar, fitted and forecast, in the yearly branch of
    lines 177-184. *)
Lemma library_alias_is_forecast :
  let L := Reference.libraries (Ok Reference.alternate_csv) true true in
  let run :=
    CustomDataForecastService.train_model_and_predict 3 (Reference.uploaded L) in
  known_offset "2D" = None
  /\ to_offset "2D" = Ok (Other (Reference.every_n_days 2))
  /\ success (fst run) = true
  /\ option_map CustomDataForecastService.frequency (model_info (fst run))
     = Some "2D"
  /\ option_map (@List.length (Timestamp * float))
       (CustomDataForecastService.data (snd run)) = Some 10%nat
  /\ option_map dates (predictions (fst run))
     = Some ["2025-01-19"; "2025-01-21"; "2025-01-23"]
  /\ date_range_periods (days_from_civil 2024 3 2) 3 "B"
     = Ok [days_from_civil 2024 3 4; days_from_civil 2024 3 5;
           days_from_civil 2024 3 6].
Proof.
  intros L run. repeat split.
Qed.
